(** * VNC protocol bridge: pixel translation, callbacks and viewer handlers

    A shallow embedding of [src/protocols/vnc/vnc.c] and of the viewer
    handlers of [user.c], with the properties of the component
    specification proved (or refuted) over it.

    Conventions.
    - C integers are [Z]; every place where the C code narrows or wraps a
      value is written out with [u8], [u32] or [s32].
    - Calls into the downstream encoder and into libvncclient are recorded,
      in program order, on a trace of [event]s.
    - A dereference of a null pointer or a read past the end of a buffer is
      the outcome [Fault] of a pure computation and the outcome [Crash] of
      a procedure. *)

From Stdlib Require Import ZArith List String Bool Lia.
From Stdlib Require Import Init.Byte.
Import ListNotations.
Open Scope Z_scope.

(** ** Machine integers *)

Module MachineInt.

(** [unsigned char] / [uint8_t]. *)
Definition u8 (x : Z) : Z := x mod 2 ^ 8.

(** [uint16_t]. *)
Definition u16 (x : Z) : Z := x mod 2 ^ 16.

(** [unsigned int] / [uint32_t]. *)
Definition u32 (x : Z) : Z := x mod 2 ^ 32.

(** [int], two's complement. *)
Definition s32 (x : Z) : Z := (x + 2 ^ 31) mod 2 ^ 32 - 2 ^ 31.

End MachineInt.
Import MachineInt.

(** ** Host memory *)

(** Outcome of a computation that may dereference a bad pointer. *)
Inductive result (A : Type) : Type :=
| Ok (a : A)
| Fault.
Arguments Ok {A} a.
Arguments Fault {A}.

Definition rbind {A B : Type} (m : result A) (k : A -> result B) : result B :=
  match m with
  | Ok a => k a
  | Fault => Fault
  end.

Definition rmap {A B : Type} (f : A -> B) (m : result A) : result B :=
  rbind m (fun a => Ok (f a)).

Declare Scope result_scope.
Delimit Scope result_scope with result.
Notation "x <- m ;; k" := (rbind m (fun x => k))
  (at level 61, m at next level, right associativity) : result_scope.
Notation "' p <- m ;; k" := (rbind m (fun x => match x with p => k end))
  (at level 61, p pattern, m at next level, right associativity) : result_scope.

(** [*p] for a pointer that may be [NULL]. *)
Definition deref {A : Type} (p : option A) : result A :=
  match p with
  | Some a => Ok a
  | None => Fault
  end.

(** Byte order of the host, which is the byte order of the decoded
    framebuffer and of the cursor source image. *)
Inductive byte_order := LittleEndian | BigEndian.

Definition byte_val (b : byte) : Z := Z.of_N (Byte.to_N b).

(** [*((uint8_t* ) (buf + off))]. *)
Definition load8 (buf : list byte) (off : Z) : result Z :=
  if off <? 0 then Fault
  else match nth_error buf (Z.to_nat off) with
       | Some b => Ok (byte_val b)
       | None => Fault
       end.

(** [*((uint16_t* ) (buf + off))]. *)
Definition load16 (host : byte_order) (buf : list byte) (off : Z) : result Z :=
  (b0 <- load8 buf off ;;
   b1 <- load8 buf (off + 1) ;;
   Ok (match host with
       | LittleEndian => b0 + 2 ^ 8 * b1
       | BigEndian => b1 + 2 ^ 8 * b0
       end))%result.

(** [*((uint32_t* ) (buf + off))]. *)
Definition load32 (host : byte_order) (buf : list byte) (off : Z) : result Z :=
  (b0 <- load8 buf off ;;
   b1 <- load8 buf (off + 1) ;;
   b2 <- load8 buf (off + 2) ;;
   b3 <- load8 buf (off + 3) ;;
   Ok (match host with
       | LittleEndian => b0 + 2 ^ 8 * b1 + 2 ^ 16 * b2 + 2 ^ 24 * b3
       | BigEndian => b3 + 2 ^ 8 * b2 + 2 ^ 16 * b1 + 2 ^ 24 * b0
       end))%result.

(** ** The pixel format of libvncclient ([rfbPixelFormat]) *)

Record rfbPixelFormat := mkFormat {
  bigEndian    : Z;   (* uint8_t, never assigned by this component *)
  bitsPerPixel : Z;   (* uint8_t *)
  depth        : Z;   (* uint8_t *)
  trueColour   : Z;   (* uint8_t *)
  redMax       : Z;   (* uint16_t *)
  greenMax     : Z;   (* uint16_t *)
  blueMax      : Z;   (* uint16_t *)
  redShift     : Z;   (* uint8_t *)
  greenShift   : Z;   (* uint8_t *)
  blueShift    : Z    (* uint8_t *)
}.

(** [guac_vnc_set_pixel_format]: the format requested of the server. Only
    [trueColour] and the fields of the chosen case are assigned. *)
Definition guac_vnc_set_pixel_format (f : rfbPixelFormat) (color_depth : Z)
  : rfbPixelFormat :=
  if color_depth =? 8 then
    {| bigEndian := bigEndian f; trueColour := 1; depth := 8; bitsPerPixel := 8;
       blueShift := 6; redShift := 0; greenShift := 3;
       blueMax := 3; redMax := 7; greenMax := 7 |}
  else if color_depth =? 16 then
    {| bigEndian := bigEndian f; trueColour := 1; depth := 16; bitsPerPixel := 16;
       blueShift := 0; redShift := 11; greenShift := 5;
       blueMax := 0x1f; redMax := 0x1f; greenMax := 0x3f |}
  else
    {| bigEndian := bigEndian f; trueColour := 1; depth := 24; bitsPerPixel := 32;
       blueShift := 0; redShift := 16; greenShift := 8;
       blueMax := 0xff; redMax := 0xff; greenMax := 0xff |}.

(** ** Session data *)

(** The procedures this component installs in the libvncclient handle, and
    the procedures the library had there before ([LibraryProc]). *)
Inductive callback :=
| guac_vnc_update_proc
| guac_vnc_copyrect_proc
| guac_vnc_cut_text_proc
| guac_vnc_cursor_proc
| guac_vnc_get_password_proc
| guac_vnc_malloc_framebuffer_proc
| LibraryProc (name : string).

(** The fields of libvncclient's [rfbClient] that [vnc.c] reads or writes
    ([appData] is flattened into [useRemoteCursor] and [encodingsString]). *)
Record rfbClient := mkRfbClient {
  format : rfbPixelFormat;
  width : Z;
  height : Z;
  frameBuffer : list byte;
  rcSource : list byte;
  rcMask : list byte;
  buffered : Z;
  clientData : list (string * nat);
  GotFrameBufferUpdate : option callback;
  GotCopyRect : option callback;
  GotXCutText : option callback;
  GotCursorShape : option callback;
  GetPassword : option callback;
  MallocFrameBuffer : option callback;
  useRemoteCursor : bool;
  encodingsString : option string;
  canHandleNewFBSize : Z;
  serverHost : option string;
  serverPort : Z;
  destHost : option string;
  destPort : Z;
  listenPort : Z
}.

Definition set_format (v : rfbPixelFormat) (c : rfbClient) : rfbClient :=
  {| format := v; width := width c; height := height c; frameBuffer :=
     frameBuffer c; rcSource := rcSource c; rcMask := rcMask c; buffered :=
     buffered c; clientData := clientData c; GotFrameBufferUpdate :=
     GotFrameBufferUpdate c; GotCopyRect := GotCopyRect c; GotXCutText :=
     GotXCutText c; GotCursorShape := GotCursorShape c; GetPassword :=
     GetPassword c; MallocFrameBuffer := MallocFrameBuffer c;
     useRemoteCursor := useRemoteCursor c; encodingsString :=
     encodingsString c; canHandleNewFBSize := canHandleNewFBSize c;
     serverHost := serverHost c; serverPort := serverPort c; destHost :=
     destHost c; destPort := destPort c; listenPort := listenPort c |}.

Definition set_clientData (v : list (string * nat))
    (c : rfbClient) : rfbClient :=
  {| format := format c; width := width c; height := height c; frameBuffer
     := frameBuffer c; rcSource := rcSource c; rcMask := rcMask c; buffered
     := buffered c; clientData := v; GotFrameBufferUpdate :=
     GotFrameBufferUpdate c; GotCopyRect := GotCopyRect c; GotXCutText :=
     GotXCutText c; GotCursorShape := GotCursorShape c; GetPassword :=
     GetPassword c; MallocFrameBuffer := MallocFrameBuffer c;
     useRemoteCursor := useRemoteCursor c; encodingsString :=
     encodingsString c; canHandleNewFBSize := canHandleNewFBSize c;
     serverHost := serverHost c; serverPort := serverPort c; destHost :=
     destHost c; destPort := destPort c; listenPort := listenPort c |}.

Definition set_GotFrameBufferUpdate (v : option callback)
    (c : rfbClient) : rfbClient :=
  {| format := format c; width := width c; height := height c; frameBuffer
     := frameBuffer c; rcSource := rcSource c; rcMask := rcMask c; buffered
     := buffered c; clientData := clientData c; GotFrameBufferUpdate := v;
     GotCopyRect := GotCopyRect c; GotXCutText := GotXCutText c;
     GotCursorShape := GotCursorShape c; GetPassword := GetPassword c;
     MallocFrameBuffer := MallocFrameBuffer c; useRemoteCursor :=
     useRemoteCursor c; encodingsString := encodingsString c;
     canHandleNewFBSize := canHandleNewFBSize c; serverHost := serverHost c;
     serverPort := serverPort c; destHost := destHost c; destPort :=
     destPort c; listenPort := listenPort c |}.

Definition set_GotCopyRect (v : option callback) (c : rfbClient) : rfbClient :=
  {| format := format c; width := width c; height := height c; frameBuffer
     := frameBuffer c; rcSource := rcSource c; rcMask := rcMask c; buffered
     := buffered c; clientData := clientData c; GotFrameBufferUpdate :=
     GotFrameBufferUpdate c; GotCopyRect := v; GotXCutText := GotXCutText c;
     GotCursorShape := GotCursorShape c; GetPassword := GetPassword c;
     MallocFrameBuffer := MallocFrameBuffer c; useRemoteCursor :=
     useRemoteCursor c; encodingsString := encodingsString c;
     canHandleNewFBSize := canHandleNewFBSize c; serverHost := serverHost c;
     serverPort := serverPort c; destHost := destHost c; destPort :=
     destPort c; listenPort := listenPort c |}.

Definition set_GotXCutText (v : option callback) (c : rfbClient) : rfbClient :=
  {| format := format c; width := width c; height := height c; frameBuffer
     := frameBuffer c; rcSource := rcSource c; rcMask := rcMask c; buffered
     := buffered c; clientData := clientData c; GotFrameBufferUpdate :=
     GotFrameBufferUpdate c; GotCopyRect := GotCopyRect c; GotXCutText := v;
     GotCursorShape := GotCursorShape c; GetPassword := GetPassword c;
     MallocFrameBuffer := MallocFrameBuffer c; useRemoteCursor :=
     useRemoteCursor c; encodingsString := encodingsString c;
     canHandleNewFBSize := canHandleNewFBSize c; serverHost := serverHost c;
     serverPort := serverPort c; destHost := destHost c; destPort :=
     destPort c; listenPort := listenPort c |}.

Definition set_GotCursorShape (v : option callback)
    (c : rfbClient) : rfbClient :=
  {| format := format c; width := width c; height := height c; frameBuffer
     := frameBuffer c; rcSource := rcSource c; rcMask := rcMask c; buffered
     := buffered c; clientData := clientData c; GotFrameBufferUpdate :=
     GotFrameBufferUpdate c; GotCopyRect := GotCopyRect c; GotXCutText :=
     GotXCutText c; GotCursorShape := v; GetPassword := GetPassword c;
     MallocFrameBuffer := MallocFrameBuffer c; useRemoteCursor :=
     useRemoteCursor c; encodingsString := encodingsString c;
     canHandleNewFBSize := canHandleNewFBSize c; serverHost := serverHost c;
     serverPort := serverPort c; destHost := destHost c; destPort :=
     destPort c; listenPort := listenPort c |}.

Definition set_GetPassword (v : option callback) (c : rfbClient) : rfbClient :=
  {| format := format c; width := width c; height := height c; frameBuffer
     := frameBuffer c; rcSource := rcSource c; rcMask := rcMask c; buffered
     := buffered c; clientData := clientData c; GotFrameBufferUpdate :=
     GotFrameBufferUpdate c; GotCopyRect := GotCopyRect c; GotXCutText :=
     GotXCutText c; GotCursorShape := GotCursorShape c; GetPassword := v;
     MallocFrameBuffer := MallocFrameBuffer c; useRemoteCursor :=
     useRemoteCursor c; encodingsString := encodingsString c;
     canHandleNewFBSize := canHandleNewFBSize c; serverHost := serverHost c;
     serverPort := serverPort c; destHost := destHost c; destPort :=
     destPort c; listenPort := listenPort c |}.

Definition set_MallocFrameBuffer (v : option callback)
    (c : rfbClient) : rfbClient :=
  {| format := format c; width := width c; height := height c; frameBuffer
     := frameBuffer c; rcSource := rcSource c; rcMask := rcMask c; buffered
     := buffered c; clientData := clientData c; GotFrameBufferUpdate :=
     GotFrameBufferUpdate c; GotCopyRect := GotCopyRect c; GotXCutText :=
     GotXCutText c; GotCursorShape := GotCursorShape c; GetPassword :=
     GetPassword c; MallocFrameBuffer := v; useRemoteCursor :=
     useRemoteCursor c; encodingsString := encodingsString c;
     canHandleNewFBSize := canHandleNewFBSize c; serverHost := serverHost c;
     serverPort := serverPort c; destHost := destHost c; destPort :=
     destPort c; listenPort := listenPort c |}.

Definition set_useRemoteCursor (v : bool) (c : rfbClient) : rfbClient :=
  {| format := format c; width := width c; height := height c; frameBuffer
     := frameBuffer c; rcSource := rcSource c; rcMask := rcMask c; buffered
     := buffered c; clientData := clientData c; GotFrameBufferUpdate :=
     GotFrameBufferUpdate c; GotCopyRect := GotCopyRect c; GotXCutText :=
     GotXCutText c; GotCursorShape := GotCursorShape c; GetPassword :=
     GetPassword c; MallocFrameBuffer := MallocFrameBuffer c;
     useRemoteCursor := v; encodingsString := encodingsString c;
     canHandleNewFBSize := canHandleNewFBSize c; serverHost := serverHost c;
     serverPort := serverPort c; destHost := destHost c; destPort :=
     destPort c; listenPort := listenPort c |}.

Definition set_encodingsString (v : option string)
    (c : rfbClient) : rfbClient :=
  {| format := format c; width := width c; height := height c; frameBuffer
     := frameBuffer c; rcSource := rcSource c; rcMask := rcMask c; buffered
     := buffered c; clientData := clientData c; GotFrameBufferUpdate :=
     GotFrameBufferUpdate c; GotCopyRect := GotCopyRect c; GotXCutText :=
     GotXCutText c; GotCursorShape := GotCursorShape c; GetPassword :=
     GetPassword c; MallocFrameBuffer := MallocFrameBuffer c;
     useRemoteCursor := useRemoteCursor c; encodingsString := v;
     canHandleNewFBSize := canHandleNewFBSize c; serverHost := serverHost c;
     serverPort := serverPort c; destHost := destHost c; destPort :=
     destPort c; listenPort := listenPort c |}.

Definition set_canHandleNewFBSize (v : Z) (c : rfbClient) : rfbClient :=
  {| format := format c; width := width c; height := height c; frameBuffer
     := frameBuffer c; rcSource := rcSource c; rcMask := rcMask c; buffered
     := buffered c; clientData := clientData c; GotFrameBufferUpdate :=
     GotFrameBufferUpdate c; GotCopyRect := GotCopyRect c; GotXCutText :=
     GotXCutText c; GotCursorShape := GotCursorShape c; GetPassword :=
     GetPassword c; MallocFrameBuffer := MallocFrameBuffer c;
     useRemoteCursor := useRemoteCursor c; encodingsString :=
     encodingsString c; canHandleNewFBSize := v; serverHost := serverHost c;
     serverPort := serverPort c; destHost := destHost c; destPort :=
     destPort c; listenPort := listenPort c |}.

Definition set_serverHost (v : option string) (c : rfbClient) : rfbClient :=
  {| format := format c; width := width c; height := height c; frameBuffer
     := frameBuffer c; rcSource := rcSource c; rcMask := rcMask c; buffered
     := buffered c; clientData := clientData c; GotFrameBufferUpdate :=
     GotFrameBufferUpdate c; GotCopyRect := GotCopyRect c; GotXCutText :=
     GotXCutText c; GotCursorShape := GotCursorShape c; GetPassword :=
     GetPassword c; MallocFrameBuffer := MallocFrameBuffer c;
     useRemoteCursor := useRemoteCursor c; encodingsString :=
     encodingsString c; canHandleNewFBSize := canHandleNewFBSize c;
     serverHost := v; serverPort := serverPort c; destHost := destHost c;
     destPort := destPort c; listenPort := listenPort c |}.

Definition set_serverPort (v : Z) (c : rfbClient) : rfbClient :=
  {| format := format c; width := width c; height := height c; frameBuffer
     := frameBuffer c; rcSource := rcSource c; rcMask := rcMask c; buffered
     := buffered c; clientData := clientData c; GotFrameBufferUpdate :=
     GotFrameBufferUpdate c; GotCopyRect := GotCopyRect c; GotXCutText :=
     GotXCutText c; GotCursorShape := GotCursorShape c; GetPassword :=
     GetPassword c; MallocFrameBuffer := MallocFrameBuffer c;
     useRemoteCursor := useRemoteCursor c; encodingsString :=
     encodingsString c; canHandleNewFBSize := canHandleNewFBSize c;
     serverHost := serverHost c; serverPort := v; destHost := destHost c;
     destPort := destPort c; listenPort := listenPort c |}.

Definition set_destHost (v : option string) (c : rfbClient) : rfbClient :=
  {| format := format c; width := width c; height := height c; frameBuffer
     := frameBuffer c; rcSource := rcSource c; rcMask := rcMask c; buffered
     := buffered c; clientData := clientData c; GotFrameBufferUpdate :=
     GotFrameBufferUpdate c; GotCopyRect := GotCopyRect c; GotXCutText :=
     GotXCutText c; GotCursorShape := GotCursorShape c; GetPassword :=
     GetPassword c; MallocFrameBuffer := MallocFrameBuffer c;
     useRemoteCursor := useRemoteCursor c; encodingsString :=
     encodingsString c; canHandleNewFBSize := canHandleNewFBSize c;
     serverHost := serverHost c; serverPort := serverPort c; destHost := v;
     destPort := destPort c; listenPort := listenPort c |}.

Definition set_destPort (v : Z) (c : rfbClient) : rfbClient :=
  {| format := format c; width := width c; height := height c; frameBuffer
     := frameBuffer c; rcSource := rcSource c; rcMask := rcMask c; buffered
     := buffered c; clientData := clientData c; GotFrameBufferUpdate :=
     GotFrameBufferUpdate c; GotCopyRect := GotCopyRect c; GotXCutText :=
     GotXCutText c; GotCursorShape := GotCursorShape c; GetPassword :=
     GetPassword c; MallocFrameBuffer := MallocFrameBuffer c;
     useRemoteCursor := useRemoteCursor c; encodingsString :=
     encodingsString c; canHandleNewFBSize := canHandleNewFBSize c;
     serverHost := serverHost c; serverPort := serverPort c; destHost :=
     destHost c; destPort := v; listenPort := listenPort c |}.

Definition set_listenPort (v : Z) (c : rfbClient) : rfbClient :=
  {| format := format c; width := width c; height := height c; frameBuffer
     := frameBuffer c; rcSource := rcSource c; rcMask := rcMask c; buffered
     := buffered c; clientData := clientData c; GotFrameBufferUpdate :=
     GotFrameBufferUpdate c; GotCopyRect := GotCopyRect c; GotXCutText :=
     GotXCutText c; GotCursorShape := GotCursorShape c; GetPassword :=
     GetPassword c; MallocFrameBuffer := MallocFrameBuffer c;
     useRemoteCursor := useRemoteCursor c; encodingsString :=
     encodingsString c; canHandleNewFBSize := canHandleNewFBSize c;
     serverHost := serverHost c; serverPort := serverPort c; destHost :=
     destHost c; destPort := destPort c; listenPort := v |}.

(** Clipboard codecs of the gateway runtime ([guac_iconv_read] and
    [guac_iconv_write] procedures). *)
Inductive guac_iconv_read :=
| GUAC_READ_ISO8859_1 | GUAC_READ_UTF8 | GUAC_READ_UTF16 | GUAC_READ_CP1252.

Inductive guac_iconv_write :=
| GUAC_WRITE_ISO8859_1 | GUAC_WRITE_UTF8 | GUAC_WRITE_UTF16 | GUAC_WRITE_CP1252.

(** The fields of [guac_vnc_settings] that the code under study reads. *)
Record guac_vnc_settings := mkSettings {
  hostname           : string;
  port               : Z;
  password           : option string;
  encodings          : option string;
  swap_red_blue      : bool;
  color_depth        : Z;
  read_only          : bool;
  dest_host          : option string;
  dest_port          : Z;
  retries            : Z;
  reverse_connect    : bool;
  listen_timeout     : Z;
  remote_cursor      : bool;
  clipboard_encoding : option string
}.

Definition with_swap_red_blue (v : bool) (s : guac_vnc_settings)
  : guac_vnc_settings :=
  {| hostname := hostname s; port := port s; password := password s;
     encodings := encodings s; swap_red_blue := v;
     color_depth := color_depth s; read_only := read_only s;
     dest_host := dest_host s; dest_port := dest_port s;
     retries := retries s; reverse_connect := reverse_connect s;
     listen_timeout := listen_timeout s; remote_cursor := remote_cursor s;
     clipboard_encoding := clipboard_encoding s |}.

(** Viewers and sockets are named by numbers. *)
Definition user_id := nat.
Definition socket_id := nat.

(** Modelled from the spec: the shared cursor of [common/cursor.h], which
    is not among the sources; section 4.3 gives [cursor_update(viewer, x, y,
    button_mask)] as recording the latest mouse state. *)
Record guac_common_cursor := mkCursor {
  cursor_user        : option user_id;
  cursor_x           : Z;
  cursor_y           : Z;
  cursor_button_mask : Z
}.

(** Modelled from the spec: [guac_common_cursor_update] of
    [common/cursor.c], which is not among the sources; it records the
    viewer and the mouse state of the event. *)
Definition guac_common_cursor_update (c : guac_common_cursor) (user : user_id)
    (x y button_mask : Z) : guac_common_cursor :=
  {| cursor_user := Some user; cursor_x := x; cursor_y := y;
     cursor_button_mask := button_mask |}.

(** [guac_common_display]: the default surface (an opaque handle of the
    encoder) and the shared cursor. *)
Record guac_common_display := mkDisplay {
  default_surface : nat;
  cursor          : guac_common_cursor
}.

Definition with_cursor (v : guac_common_cursor) (d : guac_common_display)
  : guac_common_display :=
  {| default_surface := default_surface d; cursor := v |}.

(** [guac_vnc_client], the per-session data. *)
Record guac_vnc_client := mkVncClient {
  settings : option guac_vnc_settings;
  rfb_client : option rfbClient;
  rfb_MallocFrameBuffer : option callback;
  display : option guac_common_display;
  copy_rect_used : Z;
  clipboard_reader : option guac_iconv_read;
  clipboard_writer : option guac_iconv_write;
  client_thread : option nat
}.

Definition with_settings (v : option guac_vnc_settings)
    (s : guac_vnc_client) : guac_vnc_client :=
  {| settings := v; rfb_client := rfb_client s; rfb_MallocFrameBuffer :=
     rfb_MallocFrameBuffer s; display := display s; copy_rect_used :=
     copy_rect_used s; clipboard_reader := clipboard_reader s;
     clipboard_writer := clipboard_writer s; client_thread := client_thread
     s |}.

Definition with_rfb_client (v : option rfbClient)
    (s : guac_vnc_client) : guac_vnc_client :=
  {| settings := settings s; rfb_client := v; rfb_MallocFrameBuffer :=
     rfb_MallocFrameBuffer s; display := display s; copy_rect_used :=
     copy_rect_used s; clipboard_reader := clipboard_reader s;
     clipboard_writer := clipboard_writer s; client_thread := client_thread
     s |}.

Definition with_rfb_MallocFrameBuffer (v : option callback)
    (s : guac_vnc_client) : guac_vnc_client :=
  {| settings := settings s; rfb_client := rfb_client s;
     rfb_MallocFrameBuffer := v; display := display s; copy_rect_used :=
     copy_rect_used s; clipboard_reader := clipboard_reader s;
     clipboard_writer := clipboard_writer s; client_thread := client_thread
     s |}.

Definition with_display (v : option guac_common_display)
    (s : guac_vnc_client) : guac_vnc_client :=
  {| settings := settings s; rfb_client := rfb_client s;
     rfb_MallocFrameBuffer := rfb_MallocFrameBuffer s; display := v;
     copy_rect_used := copy_rect_used s; clipboard_reader :=
     clipboard_reader s; clipboard_writer := clipboard_writer s;
     client_thread := client_thread s |}.

Definition with_copy_rect_used (v : Z)
    (s : guac_vnc_client) : guac_vnc_client :=
  {| settings := settings s; rfb_client := rfb_client s;
     rfb_MallocFrameBuffer := rfb_MallocFrameBuffer s; display := display s;
     copy_rect_used := v; clipboard_reader := clipboard_reader s;
     clipboard_writer := clipboard_writer s; client_thread := client_thread
     s |}.

Definition with_clipboard_reader (v : option guac_iconv_read)
    (s : guac_vnc_client) : guac_vnc_client :=
  {| settings := settings s; rfb_client := rfb_client s;
     rfb_MallocFrameBuffer := rfb_MallocFrameBuffer s; display := display s;
     copy_rect_used := copy_rect_used s; clipboard_reader := v;
     clipboard_writer := clipboard_writer s; client_thread := client_thread
     s |}.

Definition with_clipboard_writer (v : option guac_iconv_write)
    (s : guac_vnc_client) : guac_vnc_client :=
  {| settings := settings s; rfb_client := rfb_client s;
     rfb_MallocFrameBuffer := rfb_MallocFrameBuffer s; display := display s;
     copy_rect_used := copy_rect_used s; clipboard_reader :=
     clipboard_reader s; clipboard_writer := v; client_thread :=
     client_thread s |}.

Definition with_client_thread (v : option nat)
    (s : guac_vnc_client) : guac_vnc_client :=
  {| settings := settings s; rfb_client := rfb_client s;
     rfb_MallocFrameBuffer := rfb_MallocFrameBuffer s; display := display s;
     copy_rect_used := copy_rect_used s; clipboard_reader :=
     clipboard_reader s; clipboard_writer := clipboard_writer s;
     client_thread := v |}.

(** ** Effects *)

(** Calls that leave the component, in the order they are made. *)
Inductive event :=
| SurfaceDraw (surface : nat) (x y w h : Z) (pixels : list (list Z))
| SurfaceCopy (surface : nat) (src_x src_y w h dest_x dest_y : Z)
| CursorSetArgb (x y : Z) (pixels : list (list Z)) (w h : Z)
| FreeMask
| DisplayDup (user : user_id) (socket : socket_id)
| SocketFlush (socket : socket_id)
| SendPointerEvent (x y mask : Z)
| SendKeyEvent (keysym pressed : Z)
| SendClientCutText (text : list byte)
| PthreadCreate
| LogInfo (message : string)
| LogWarning (message : string)
| LogError (message : string)
| HandleRFBServerMessage
| ClientAbort (message : string)
| WaitForMessage (usecs : Z).

(** What a procedure leaves behind: a return value, the session data and
    the calls it made, or a crash. *)
Inductive outcome (A : Type) : Type :=
| Done (a : A) (s : guac_vnc_client) (tr : list event)
| Crash.
Arguments Done {A} a s tr.
Arguments Crash {A}.

(** Procedures over the session data. *)
Definition M (A : Type) : Type := guac_vnc_client -> outcome A.

Definition ret {A : Type} (a : A) : M A := fun s => Done a s [].

Definition bind {A B : Type} (m : M A) (k : A -> M B) : M B :=
  fun s =>
    match m s with
    | Done a s1 tr1 =>
        match k a s1 with
        | Done b s2 tr2 => Done b s2 (tr1 ++ tr2)
        | Crash => Crash
        end
    | Crash => Crash
    end.

Definition get : M guac_vnc_client := fun s => Done s s [].

Definition modify (f : guac_vnc_client -> guac_vnc_client) : M unit :=
  fun s => Done tt (f s) [].

Definition emit (e : event) : M unit := fun s => Done tt s [e].

Definition lift {A : Type} (r : result A) : M A :=
  fun s =>
    match r with
    | Ok a => Done a s []
    | Fault => Crash
    end.

Declare Scope proc_scope.
Delimit Scope proc_scope with proc.
Notation "x <- m ;; k" := (bind m (fun x => k))
  (at level 61, m at next level, right associativity) : proc_scope.
Notation "m ;; k" := (bind m (fun _ => k))
  (at level 61, right associativity) : proc_scope.

(** ** Channel extraction *)

(** The right-hand side of
    [red = (v >> redShift) * 0x100 / (redMax + 1)]: [v] is an
    [unsigned int], so the product is taken modulo 2^32 and the division is
    unsigned. *)
Definition channel_expr (v shift max : Z) : Z :=
  u32 (Z.shiftr v shift * 0x100) / (max + 1).

(** The value that reaches the [unsigned char] variable. *)
Definition channel (v shift max : Z) : Z := u8 (channel_expr v shift max).

(** ** Pixel translation *)

(** The [switch (bpp)] that reads the current pixel. *)
Definition read_pixel (host : byte_order) (bpp : Z) (buf : list byte)
    (fb_current : Z) : result Z :=
  if bpp =? 4 then load32 host buf fb_current
  else if bpp =? 2 then load16 host buf fb_current
  else load8 buf fb_current.

(** The number of bytes a pixel read touches. *)
Definition pixel_bytes (bpp : Z) : Z :=
  if bpp =? 4 then 4 else if bpp =? 2 then 2 else 1.

(** [(hi << 16) | (green << 8) | lo] stored through an [unsigned int*]. *)
Definition pack_rgb (hi green lo : Z) : Z :=
  u32 (Z.lor (Z.lor (Z.shiftl hi 16) (Z.shiftl green 8)) lo).

(** [(alpha << 24) | (hi << 16) | (green << 8) | lo] stored through an
    [unsigned int*]. *)
Definition pack_argb (alpha hi green lo : Z) : Z :=
  u32 (Z.lor (Z.lor (Z.lor (Z.shiftl alpha 24) (Z.shiftl hi 16))
                    (Z.shiftl green 8)) lo).

(** The output word of one framebuffer pixel: translate the value to RGB,
    then write red and blue in the order the swap setting asks for. *)
Definition rgb_pixel (fmt : rfbPixelFormat) (swap : bool) (v : Z) : Z :=
  let red := channel v (redShift fmt) (redMax fmt) in
  let green := channel v (greenShift fmt) (greenMax fmt) in
  let blue := channel v (blueShift fmt) (blueMax fmt) in
  if swap then pack_rgb blue green red
  else pack_rgb red green blue.

(** The output word of one cursor pixel. *)
Definition argb_pixel (fmt : rfbPixelFormat) (swap : bool) (alpha v : Z) : Z :=
  let red := channel v (redShift fmt) (redMax fmt) in
  let green := channel v (greenShift fmt) (greenMax fmt) in
  let blue := channel v (blueShift fmt) (blueMax fmt) in
  if swap then pack_argb alpha blue green red
  else pack_argb alpha red green blue.

Section Translator.

Variable host : byte_order.
Variable fmt : rfbPixelFormat.
Variable settings_ptr : option guac_vnc_settings.

(** The inner loop of [guac_vnc_update]: [n] pixels starting at
    [fb_current]. *)
Fixpoint update_row (bpp : Z) (fb : list byte) (n : nat) (fb_current : Z)
  : result (list Z) :=
  match n with
  | O => Ok []
  | S n' =>
      (v <- read_pixel host bpp fb fb_current ;;
       st <- deref settings_ptr ;;
       rest <- update_row bpp fb n' (fb_current + bpp) ;;
       Ok (rgb_pixel fmt (swap_red_blue st) v :: rest))%result
  end.

(** The outer loop of [guac_vnc_update]: [n] rows of [w] pixels. *)
Fixpoint update_rows (bpp fb_stride : Z) (fb : list byte) (w : nat) (n : nat)
    (fb_row_current : Z) : result (list (list Z)) :=
  match n with
  | O => Ok []
  | S n' =>
      (row <- update_row bpp fb w fb_row_current ;;
       rest <- update_rows bpp fb_stride fb w n' (fb_row_current + fb_stride) ;;
       Ok (row :: rest))%result
  end.

(** The inner loop of [guac_vnc_cursor]; the mask pointer advances by one
    byte for every pixel and is handed on to the next row. *)
Fixpoint cursor_row (bpp : Z) (src mask : list byte) (n : nat)
    (fb_current fb_mask : Z) : result (list Z * Z) :=
  match n with
  | O => Ok ([], fb_mask)
  | S n' =>
      (v <- read_pixel host bpp src fb_current ;;
       m <- load8 mask fb_mask ;;
       let alpha := if m =? 0 then 0x00 else 0xFF in
       st <- deref settings_ptr ;;
       ' (rest, fb_mask') <- cursor_row bpp src mask n' (fb_current + bpp)
                                         (fb_mask + 1) ;;
       Ok (argb_pixel fmt (swap_red_blue st) alpha v :: rest, fb_mask'))%result
  end.

(** The outer loop of [guac_vnc_cursor]. *)
Fixpoint cursor_rows (bpp fb_stride : Z) (src mask : list byte) (w : nat)
    (n : nat) (fb_row_current fb_mask : Z) : result (list (list Z)) :=
  match n with
  | O => Ok []
  | S n' =>
      (' (row, fb_mask') <- cursor_row bpp src mask w fb_row_current fb_mask ;;
       rest <- cursor_rows bpp fb_stride src mask w n'
                           (fb_row_current + fb_stride) fb_mask' ;;
       Ok (row :: rest))%result
  end.

End Translator.

(** The image [guac_vnc_update] builds for the rectangle [(x, y, w, h)] of
    the framebuffer of [client]. *)
Definition update_image (host : byte_order) (settings_ptr : option guac_vnc_settings)
    (client : rfbClient) (x y w h : Z) : result (list (list Z)) :=
  let bpp := bitsPerPixel (format client) / 8 in
  let fb_stride := u32 (bpp * width client) in
  let fb_row_current := u32 (y * fb_stride) + u32 (x * bpp) in
  update_rows host (format client) settings_ptr bpp fb_stride
              (frameBuffer client) (Z.to_nat w) (Z.to_nat h) fb_row_current.

(** The image [guac_vnc_cursor] builds from [rcSource] and [rcMask]. *)
Definition cursor_image (host : byte_order) (settings_ptr : option guac_vnc_settings)
    (client : rfbClient) (w h bpp : Z) : result (list (list Z)) :=
  let fb_stride := u32 (bpp * w) in
  cursor_rows host (format client) settings_ptr bpp fb_stride
              (rcSource client) (rcMask client) (Z.to_nat w) (Z.to_nat h) 0 0.

(** ** Callbacks of the RFB adapter *)

Section Callbacks.

Variable host : byte_order.

Definition guac_vnc_update (client : rfbClient) (x y w h : Z) : M unit :=
  (vnc_client <- get ;;
   (* Ignore extra update if already handled by copyrect *)
   if negb (copy_rect_used vnc_client =? 0) then
     modify (with_copy_rect_used 0)
   else
     buffer <- lift (update_image host (settings vnc_client) client x y w h) ;;
     (* Draw directly to default layer *)
     d <- lift (deref (display vnc_client)) ;;
     emit (SurfaceDraw (default_surface d) x y w h buffer))%proc.

Definition guac_vnc_copyrect (client : rfbClient)
    (src_x src_y w h dest_x dest_y : Z) : M unit :=
  (vnc_client <- get ;;
   (* Copy specified rectangle within default layer *)
   d <- lift (deref (display vnc_client)) ;;
   emit (SurfaceCopy (default_surface d) src_x src_y w h dest_x dest_y) ;;
   modify (with_copy_rect_used 1))%proc.

Definition guac_vnc_cursor (client : rfbClient) (x y w h bpp : Z) : M unit :=
  (vnc_client <- get ;;
   buffer <- lift (cursor_image host (settings vnc_client) client w h bpp) ;;
   (* Update stored cursor information *)
   _ <- lift (deref (display vnc_client)) ;;
   emit (CursorSetArgb x y buffer w h) ;;
   (* libvncclient does not free rcMask as it does rcSource *)
   emit FreeMask)%proc.

(** Messages the library decodes into callbacks while it handles a server
    message. *)
Inductive rfb_callback :=
| GotFrameBufferUpdate_call (x y w h : Z)
| GotCopyRect_call (src_x src_y w h dest_x dest_y : Z)
| GotCursorShape_call (x y w h bpp : Z).

Definition invoke (client : rfbClient) (c : rfb_callback) : M unit :=
  match c with
  | GotFrameBufferUpdate_call x y w h => guac_vnc_update client x y w h
  | GotCopyRect_call sx sy w h dx dy => guac_vnc_copyrect client sx sy w h dx dy
  | GotCursorShape_call x y w h bpp => guac_vnc_cursor client x y w h bpp
  end.

Fixpoint invoke_all (client : rfbClient) (cs : list rfb_callback) : M unit :=
  match cs with
  | [] => ret tt
  | c :: cs' => (invoke client c ;; invoke_all client cs')%proc
  end.

End Callbacks.

(** ** Setting up the libvncclient handle *)

Section GetClient.

(** What libvncclient provides: the handle [rfbGetClient(8, 3, 4)] returns,
    the outcome of listening for a reverse connection and of
    [rfbInitClient]; and the two build options of [config.h]. *)
Variable rfbGetClient : rfbClient.
Variable listenForIncomingConnectionsNoFork : rfbClient -> Z -> Z.
Variable rfbInitClient : rfbClient -> bool.
Variable ENABLE_VNC_REPEATER : bool.
Variable ENABLE_VNC_LISTEN : bool.

(** The callbacks and options [guac_vnc_get_client] puts into the handle
    before it listens or connects. *)
Definition configure_callbacks (vnc_settings : guac_vnc_settings)
    (client_id : nat) (rfb_client : rfbClient) : rfbClient :=
  (* Store Guac client in rfb client *)
  let rfb_client :=
    set_clientData (("GUAC_VNC"%string, client_id) :: clientData rfb_client)
                   rfb_client in
  (* Framebuffer update handler *)
  let rfb_client := set_GotFrameBufferUpdate (Some guac_vnc_update_proc) rfb_client in
  let rfb_client := set_GotCopyRect (Some guac_vnc_copyrect_proc) rfb_client in
  (* Do not handle clipboard and local cursor if read-only *)
  let rfb_client :=
    if negb (read_only vnc_settings) then
      (* Clipboard *)
      let rfb_client := set_GotXCutText (Some guac_vnc_cut_text_proc) rfb_client in
      (* Set remote cursor *)
      if remote_cursor vnc_settings then
        set_useRemoteCursor false rfb_client
      else
        (* Enable client-side cursor *)
        let rfb_client := set_useRemoteCursor true rfb_client in
        set_GotCursorShape (Some guac_vnc_cursor_proc) rfb_client
    else rfb_client in
  (* Password *)
  let rfb_client := set_GetPassword (Some guac_vnc_get_password_proc) rfb_client in
  (* Depth *)
  set_format (guac_vnc_set_pixel_format (format rfb_client)
                                        (color_depth vnc_settings)) rfb_client.

Definition guac_vnc_get_client (client_id : nat) : M (option rfbClient) :=
  (vnc_client <- get ;;
   vnc_settings <- lift (deref (settings vnc_client)) ;;
   let rfb_client := configure_callbacks vnc_settings client_id rfbGetClient in
   (* Hook into allocation so we can handle resize. *)
   modify (with_rfb_MallocFrameBuffer (MallocFrameBuffer rfb_client)) ;;
   let rfb_client :=
     set_MallocFrameBuffer (Some guac_vnc_malloc_framebuffer_proc) rfb_client in
   let rfb_client := set_canHandleNewFBSize 1 rfb_client in
   (* Set hostname and port *)
   let rfb_client := set_serverHost (Some (hostname vnc_settings)) rfb_client in
   let rfb_client := set_serverPort (port vnc_settings) rfb_client in
   (* Set repeater parameters if specified *)
   let rfb_client :=
     match ENABLE_VNC_REPEATER, dest_host vnc_settings with
     | true, Some h =>
         set_destPort (dest_port vnc_settings) (set_destHost (Some h) rfb_client)
     | _, _ => rfb_client
     end in
   (* If reverse connection enabled, start listening *)
   let listening := ENABLE_VNC_LISTEN && reverse_connect vnc_settings in
   (if listening then emit (LogInfo "Listening for connections on port %i")
    else ret tt) ;;
   let rfb_client :=
     if listening then set_listenPort (port vnc_settings) rfb_client
     else rfb_client in
   (* Listen for connection from server *)
   if listening
      && (listenForIncomingConnectionsNoFork rfb_client
            (s32 (listen_timeout vnc_settings * 1000)) <=? 0)
   then ret None
   else
     (* Set encodings if provided *)
     let rfb_client :=
       match encodings vnc_settings with
       | Some e => set_encodingsString (Some e) rfb_client
       | None => rfb_client
       end in
     (* Connect *)
     if rfbInitClient rfb_client then ret (Some rfb_client)
     (* If connection fails, return NULL *)
     else ret None)%proc.

End GetClient.

(** ** Clipboard encoding *)

Definition guac_vnc_set_clipboard_encoding (name : option string) : M Z :=
  let use (r : guac_iconv_read) (w : guac_iconv_write) : M unit :=
    (modify (with_clipboard_reader (Some r)) ;;
     modify (with_clipboard_writer (Some w)))%proc in
  match name with
  (* Use ISO8859-1 if explicitly selected or NULL *)
  | None => (use GUAC_READ_ISO8859_1 GUAC_WRITE_ISO8859_1 ;; ret 0)%proc
  | Some n =>
      if String.eqb n "ISO8859-1" then
        (use GUAC_READ_ISO8859_1 GUAC_WRITE_ISO8859_1 ;; ret 0)%proc
      else if String.eqb n "UTF-8" then
        (use GUAC_READ_UTF8 GUAC_WRITE_UTF8 ;; ret 1)%proc
      else if String.eqb n "UTF-16" then
        (use GUAC_READ_UTF16 GUAC_WRITE_UTF16 ;; ret 1)%proc
      else if String.eqb n "CP1252" then
        (use GUAC_READ_CP1252 GUAC_WRITE_CP1252 ;; ret 1)%proc
      else
        (* If encoding unrecognized, warn and default to ISO8859-1 *)
        (emit (LogWarning "Encoding '%s' is invalid. Defaulting to ISO8859-1.") ;;
         use GUAC_READ_ISO8859_1 GUAC_WRITE_ISO8859_1 ;;
         ret 0)%proc
  end.

(** ** The frame loop of the session thread *)

Section FrameLoop.

(** Constants of [vnc.h], in milliseconds. *)
Variable GUAC_VNC_FRAME_DURATION : Z.
Variable GUAC_VNC_FRAME_TIMEOUT : Z.

(** [guac_vnc_wait_for_messages]: [buffered] is the library's count of
    bytes already read, [wait_result] what [WaitForMessage] will answer. *)
Definition guac_vnc_wait_for_messages (buffered : Z) (wait_result : Z)
    (timeout : Z) : Z * list event :=
  (* Do not explicitly wait while data is on the buffer *)
  if negb (buffered =? 0) then (1, [])
  (* If no data on buffer, wait for data on socket *)
  else (wait_result, [WaitForMessage timeout]).

(** What the surroundings answer during one pass through the [do ... while]
    body: whether [HandleRFBServerMessage] succeeded, the clock after it,
    the buffered byte count and the answer of [WaitForMessage]. *)
Record pass := mkPass {
  handled     : bool;
  clock       : Z;
  buffered_in : Z;
  wait_answer : Z
}.

(** How one pass ends. *)
Inductive pass_end :=
| AbortUpstreamError
| Waited (timeout_usec : Z) (wait_result : Z)
| FrameOver.

(** The time the client needs to catch up, as the body computes it. *)
Definition required_wait_of (processing_lag last_frame_end frame_end : Z) : Z :=
  let time_elapsed := s32 (frame_end - last_frame_end) in
  s32 (processing_lag - time_elapsed).

(** The body of the [do ... while] loop. *)
Definition frame_pass (processing_lag frame_start last_frame_end : Z)
    (p : pass) : pass_end * list event :=
  (* Handle any message received *)
  if negb (handled p) then
    (AbortUpstreamError,
     [HandleRFBServerMessage;
      ClientAbort "Error handling message from VNC server."])
  else
    (* Calculate time remaining in frame *)
    let frame_end := clock p in
    let frame_remaining :=
      s32 (frame_start + GUAC_VNC_FRAME_DURATION - frame_end) in
    (* Calculate time that client needs to catch up *)
    let required_wait := required_wait_of processing_lag last_frame_end frame_end in
    (* Increase the duration of this frame if client is lagging *)
    if required_wait >? GUAC_VNC_FRAME_TIMEOUT then
      let '(r, tr) := guac_vnc_wait_for_messages (buffered_in p) (wait_answer p)
                        (s32 (required_wait * 1000)) in
      (Waited (s32 (required_wait * 1000)) r, HandleRFBServerMessage :: tr)
    (* Wait again if frame remaining *)
    else if frame_remaining >? 0 then
      let '(r, tr) := guac_vnc_wait_for_messages (buffered_in p) (wait_answer p)
                        (s32 (GUAC_VNC_FRAME_TIMEOUT * 1000)) in
      (Waited (s32 (GUAC_VNC_FRAME_TIMEOUT * 1000)) r, HandleRFBServerMessage :: tr)
    else (FrameOver, [HandleRFBServerMessage]).

(** The [do ... while (wait_result > 0)] loop over the passes the
    surroundings allow; the result is the last [wait_result] (unchanged when
    the loop is left by [break]) and the calls made. *)
Fixpoint frame_loop (processing_lag frame_start last_frame_end : Z)
    (wait_result : Z) (passes : list pass) : Z * list event :=
  match passes with
  | [] => (wait_result, [])
  | p :: rest =>
      match frame_pass processing_lag frame_start last_frame_end p with
      | (AbortUpstreamError, tr) => (wait_result, tr)
      | (FrameOver, tr) => (wait_result, tr)
      | (Waited _ r, tr) =>
          if r >? 0 then
            let '(r', tr') := frame_loop processing_lag frame_start
                                         last_frame_end r rest in
            (r', tr ++ tr')
          else (r, tr)
      end
  end.

End FrameLoop.

(** ** Viewer handlers *)

(** Handlers a viewer can have installed. *)
Inductive user_handler :=
| guac_vnc_user_mouse_handler_proc
| guac_vnc_user_key_handler_proc
| guac_vnc_clipboard_handler_proc.

(** The fields of [guac_user] the handlers touch. *)
Record guac_user := mkUser {
  user_ident        : user_id;
  owner             : bool;
  socket            : socket_id;
  data              : option guac_vnc_settings;
  mouse_handler     : option user_handler;
  key_handler       : option user_handler;
  clipboard_handler : option user_handler
}.

Definition with_data (v : option guac_vnc_settings) (u : guac_user) : guac_user :=
  {| user_ident := user_ident u; owner := owner u; socket := socket u;
     data := v; mouse_handler := mouse_handler u;
     key_handler := key_handler u; clipboard_handler := clipboard_handler u |}.

Definition with_handlers (m k c : option user_handler) (u : guac_user) : guac_user :=
  {| user_ident := user_ident u; owner := owner u; socket := socket u;
     data := data u; mouse_handler := m; key_handler := k;
     clipboard_handler := c |}.

(** Handler for Guacamole user mouse events. *)
Definition guac_vnc_user_mouse_handler (user : guac_user) (x y mask : Z) : M Z :=
  (vnc_client <- get ;;
   let rfb_client := rfb_client vnc_client in
   (* Store current mouse location/state *)
   d <- lift (deref (display vnc_client)) ;;
   modify (with_display
             (Some (with_cursor
                      (guac_common_cursor_update (cursor d) (user_ident user)
                                                 x y mask) d))) ;;
   (* Send VNC event only if finished connecting *)
   match rfb_client with
   | Some _ => emit (SendPointerEvent x y mask)
   | None => ret tt
   end ;;
   ret 0)%proc.

(** Handler for Guacamole user key events. *)
Definition guac_vnc_user_key_handler (user : guac_user) (keysym pressed : Z) : M Z :=
  (vnc_client <- get ;;
   let rfb_client := rfb_client vnc_client in
   (* Send VNC event only if finished connecting *)
   match rfb_client with
   | Some _ => emit (SendKeyEvent keysym pressed)
   | None => ret tt
   end ;;
   ret 0)%proc.

Section Clipboard.

(** The transcoding of [guac_iconv], from UTF-8 to the encoding of the
    given writer. *)
Variable guac_iconv : guac_iconv_write -> list byte -> list byte.

(** Modelled from the spec: the viewer clipboard handler of [clipboard.c],
    which is not among the sources. Section 4.6 gives it as: transcode via
    the clipboard writer, emit RFB cut-text; and until the upstream handle
    is non-null, input handlers silently drop events. *)
Definition guac_vnc_clipboard_handler (user : guac_user) (text : list byte) : M Z :=
  (vnc_client <- get ;;
   match rfb_client vnc_client with
   | Some _ =>
       w <- lift (deref (clipboard_writer vnc_client)) ;;
       emit (SendClientCutText (guac_iconv w text))
   | None => ret tt
   end ;;
   ret 0)%proc.

End Clipboard.

Section Join.

(** [guac_vnc_parse_args] of [settings.c], and whether [pthread_create]
    fails (non-zero) for this session. *)
Variable guac_vnc_parse_args : guac_user -> list string -> option guac_vnc_settings.
Variable pthread_create : guac_vnc_client -> Z.

Definition guac_vnc_user_join_handler (user : guac_user) (argv : list string)
  : M (Z * guac_user) :=
  (vnc_client <- get ;;
   (* Parse provided arguments *)
   match guac_vnc_parse_args user argv with
   (* Fail if settings cannot be parsed *)
   | None =>
       emit (LogInfo "Badly formatted client arguments.") ;;
       ret (1, user)
   | Some st =>
       (* Store settings at user level *)
       let user := with_data (Some st) user in
       let install :=
         (* Only handle events if not read-only *)
         if negb (read_only st) then
           with_handlers (Some guac_vnc_user_mouse_handler_proc)
                         (Some guac_vnc_user_key_handler_proc)
                         (Some guac_vnc_clipboard_handler_proc) user
         else user in
       (* Connect via VNC if owner *)
       if owner user then
         (* Store owner's settings at client level *)
         modify (with_settings (Some st)) ;;
         (* Start client thread *)
         emit PthreadCreate ;;
         if negb (pthread_create vnc_client =? 0) then
           emit (LogError "Unable to start VNC client thread.") ;;
           ret (1, user)
         else
           modify (with_client_thread (Some O)) ;;
           ret (0, install)
       (* If not owner, synchronize with current state *)
       else
         (* Synchronize with current display *)
         match display vnc_client with
         | Some _ => emit (DisplayDup (user_ident user) (socket user))
         | None => ret tt
         end ;;
         emit (SocketFlush (socket user)) ;;
         ret (0, install)
   end)%proc.

End Join.

(** ** The session thread and the procedures around it *)

(** Status codes passed to [guac_client_abort]. *)
Inductive guac_protocol_status :=
| GUAC_PROTOCOL_STATUS_UPSTREAM_NOT_FOUND
| GUAC_PROTOCOL_STATUS_UPSTREAM_ERROR.

(** Calls made by the session thread, the allocator hook and the leave
    handler; [Core] carries the calls the callbacks and the join and input
    handlers make as well. *)
Inductive thread_call :=
| Core (e : event)
| Msleep (msec : Z)
| Abort (status : guac_protocol_status) (message : string)
| DisplayAlloc (w h : Z)
| CursorSetDot
| CursorSetPointer
| SurfaceFlush (surface : nat)
| EndFrame
| ClientStop
| SurfaceResize (surface : nat) (w h : Z)
| CallProc (proc : callback)
| CursorRemoveUser (user : user_id)
| SettingsFree (user : user_id).

Inductive thread_outcome (A : Type) : Type :=
| Finished (a : A) (s : guac_vnc_client) (tr : list thread_call)
| Crashed.
Arguments Finished {A} a s tr.
Arguments Crashed {A}.

(** Procedures of the session thread. *)
Definition T (A : Type) : Type := guac_vnc_client -> thread_outcome A.

Definition tret {A : Type} (a : A) : T A := fun s => Finished a s [].

Definition tbind {A B : Type} (m : T A) (k : A -> T B) : T B :=
  fun s =>
    match m s with
    | Finished a s1 tr1 =>
        match k a s1 with
        | Finished b s2 tr2 => Finished b s2 (tr1 ++ tr2)
        | Crashed => Crashed
        end
    | Crashed => Crashed
    end.

Definition tget : T guac_vnc_client := fun s => Finished s s [].

Definition tmodify (f : guac_vnc_client -> guac_vnc_client) : T unit :=
  fun s => Finished tt (f s) [].

Definition tcall (c : thread_call) : T unit := fun s => Finished tt s [c].

Definition tcalls (cs : list thread_call) : T unit := fun s => Finished tt s cs.

Definition tlift {A : Type} (r : result A) : T A :=
  fun s =>
    match r with
    | Ok a => Finished a s []
    | Fault => Crashed
    end.

(** A procedure of the callbacks' kind, run by the thread. *)
Definition core {A : Type} (m : M A) : T A :=
  fun s =>
    match m s with
    | Done a s' tr => Finished a s' (map Core tr)
    | Crash => Crashed
    end.

Declare Scope thread_scope.
Delimit Scope thread_scope with thread.
Notation "x <- m ;; k" := (tbind m (fun x => k))
  (at level 61, m at next level, right associativity) : thread_scope.
Notation "m ;; k" := (tbind m (fun _ => k))
  (at level 61, right associativity) : thread_scope.

Section AllocatorHook.

(** What calling a procedure of the handle returns ([rfbBool]). *)
Variable run_proc : callback -> rfbClient -> Z.

(** [guac_vnc_malloc_framebuffer], installed over the library's
    allocator. *)
Definition guac_vnc_malloc_framebuffer (rfb_client : rfbClient) : T Z :=
  (vnc_client <- tget ;;
   (* Resize surface *)
   match display vnc_client with
   | Some d =>
       tcall (SurfaceResize (default_surface d) (width rfb_client)
                            (height rfb_client))
   | None => tret tt
   end ;;
   (* Use original, wrapped proc *)
   proc <- tlift (deref (rfb_MallocFrameBuffer vnc_client)) ;;
   tcall (CallProc proc) ;;
   tret (run_proc proc rfb_client))%thread.

End AllocatorHook.

(** [guac_vnc_get_password]. *)
Definition guac_vnc_get_password (vnc_client : guac_vnc_client)
  : result (option string) :=
  (st <- deref (settings vnc_client) ;; Ok (password st))%result.

(** [guac_vnc_user_leave_handler]. *)
Definition guac_vnc_user_leave_handler (user : guac_user) : T Z :=
  (vnc_client <- tget ;;
   match display vnc_client with
   | Some _ =>
       (* Update shared cursor state *)
       tcall (CursorRemoveUser (user_ident user))
   | None => tret tt
   end ;;
   (* Free settings if not owner (owner settings will be freed with client) *)
   (if negb (owner user) then tcall (SettingsFree (user_ident user))
    else tret tt) ;;
   tret 0)%thread.

Section ClientThread.

(** Constants of [vnc.h]: milliseconds, but for the frame start timeout,
    which is passed to the wait as it is. *)
Variable GUAC_VNC_CONNECT_INTERVAL : Z.
Variable GUAC_VNC_FRAME_START_TIMEOUT : Z.
Variable GUAC_VNC_FRAME_DURATION : Z.
Variable GUAC_VNC_FRAME_TIMEOUT : Z.

(** Build options, the broadcast socket of the client and its number. *)
Variable ENABLE_VNC_REPEATER : bool.
Variable ENABLE_VNC_LISTEN : bool.
Variable client_socket : socket_id.
Variable client_id : nat.

(** What libvncclient answers at one connection attempt. *)
Record library_answer := mkAnswer {
  fresh_handle  : rfbClient;
  listen_answer : rfbClient -> Z -> Z;
  init_answer   : rfbClient -> bool
}.

(** The answers of the successive attempts, and the display the encoder
    allocates. *)
Variable library : nat -> library_answer.
Variable guac_common_display_alloc : Z -> Z -> guac_common_display.

(** The [k]-th call of [guac_vnc_get_client]. *)
Definition connect_attempt (k : nat) : T (option rfbClient) :=
  core (guac_vnc_get_client (fresh_handle (library k))
          (listen_answer (library k)) (init_answer (library k))
          ENABLE_VNC_REPEATER ENABLE_VNC_LISTEN client_id).

(** The retry loop, entered after a failed attempt: the next attempt is
    the [k]-th. *)
Fixpoint retry_connect (k : nat) (retries_remaining : nat)
  : T (option rfbClient) :=
  match retries_remaining with
  | O => tret None
  | S n =>
      (tcall (Core (LogInfo "Connect failed. Waiting %ims before retrying...")) ;;
       (* Wait for given interval then retry *)
       tcall (Msleep GUAC_VNC_CONNECT_INTERVAL) ;;
       rfb_client <- connect_attempt k ;;
       match rfb_client with
       | Some c => tret (Some c)
       | None => retry_connect (S k) n
       end)%thread
  end.

(** The first attempt and the retry loop: [rfb_client] after them, with
    [retries_remaining] starting at [settings->retries]. *)
Definition connect_with_retries (retries : Z) : T (option rfbClient) :=
  (rfb_client <- connect_attempt 0 ;;
   match rfb_client with
   | Some c => tret (Some c)
   | None => retry_connect 1 (Z.to_nat retries)
   end)%thread.

(** What the surroundings answer during one pass through the outer loop:
    buffered bytes and the answer of [WaitForMessage] at the start of the
    frame, the processing lag, the clock at the start of the frame and the
    passes of the inner loop. *)
Record frame_env := mkFrame {
  start_buffered : Z;
  start_answer   : Z;
  lag            : Z;
  start_clock    : Z;
  passes         : list pass
}.

(** The body of the outer loop; the result is the new [last_frame_end].
    The calls are those the thread makes itself. The callbacks that the
    library runs inside [HandleRFBServerMessage] are the subject of
    [invoke_all]; what they draw and what they write to [copy_rect_used]
    is not repeated here. *)
Definition session_iteration (last_frame_end : Z) (f : frame_env) : T Z :=
  (vnc_client <- tget ;;
   (* Wait for start of frame *)
   let '(wait_result, tr) :=
     guac_vnc_wait_for_messages (start_buffered f) (start_answer f)
                                GUAC_VNC_FRAME_START_TIMEOUT in
   tcalls (map Core tr) ;;
   ends <-
     (if wait_result >? 0 then
        let processing_lag := lag f in
        let frame_start := start_clock f in
        (* Read server messages until frame is built *)
        let '(wait_result, tr) :=
          frame_loop GUAC_VNC_FRAME_DURATION GUAC_VNC_FRAME_TIMEOUT
                     processing_lag frame_start last_frame_end wait_result
                     (passes f) in
        tcalls (map Core tr) ;;
        (* Record end of frame, excluding server-side rendering time *)
        tret (wait_result, frame_start)
      else tret (wait_result, last_frame_end)) ;;
   (* If an error occurs, log it and fail *)
   (if fst ends <? 0 then
      tcall (Abort GUAC_PROTOCOL_STATUS_UPSTREAM_ERROR "Connection closed.")
    else tret tt) ;;
   (* Flush frame *)
   d <- tlift (deref (display vnc_client)) ;;
   tcall (SurfaceFlush (default_surface d)) ;;
   tcall EndFrame ;;
   tcall (Core (SocketFlush client_socket)) ;;
   tret (snd ends))%thread.

(** The outer loop, for as many frames as the client stays running. *)
Fixpoint session_loop (last_frame_end : Z) (frames : list frame_env) : T unit :=
  match frames with
  | [] => tret tt
  | f :: frames' =>
      (last_frame_end <- session_iteration last_frame_end f ;;
       session_loop last_frame_end frames')%thread
  end.

(** [guac_vnc_client_thread]; [now] is the clock when the loop is
    entered. The assignments of the library's two logging hooks are left
    out. *)
Definition guac_vnc_client_thread (now : Z) (frames : list frame_env) : T unit :=
  (vnc_client <- tget ;;
   st <- tlift (deref (settings vnc_client)) ;;
   (* Configure clipboard encoding *)
   nonstandard <- core (guac_vnc_set_clipboard_encoding (clipboard_encoding st)) ;;
   (if negb (nonstandard =? 0) then
      tcall (Core (LogInfo "Using non-standard VNC clipboard encoding: '%s'."))
    else tret tt) ;;
   (* Attempt connection; if unsuccessful, retry as many times as
      specified *)
   rfb_client <- connect_with_retries (retries st) ;;
   match rfb_client with
   (* If the final connect attempt fails, return error *)
   | None =>
       tcall (Abort GUAC_PROTOCOL_STATUS_UPSTREAM_NOT_FOUND
                    "Unable to connect to VNC server.")
   | Some rfb_client =>
       (* Set remaining client data *)
       tmodify (with_rfb_client (Some rfb_client)) ;;
       (* Create display *)
       tcall (DisplayAlloc (width rfb_client) (height rfb_client)) ;;
       tmodify (with_display
                  (Some (guac_common_display_alloc (width rfb_client)
                                                   (height rfb_client)))) ;;
       (* If not read-only, set an appropriate cursor *)
       (if negb (read_only st) then
          if remote_cursor st then tcall CursorSetDot
          else tcall CursorSetPointer
        else tret tt) ;;
       tcall (Core (SocketFlush client_socket)) ;;
       (* Handle messages from VNC server while client is running *)
       session_loop now frames ;;
       (* Kill client and finish connection *)
       tcall ClientStop ;;
       tcall (Core (LogInfo "Internal VNC client disconnected"))
   end)%thread.

End ClientThread.

(** ** Vocabulary of the properties *)

(** Byte [k] of a 32-bit word, byte 0 being the least significant. *)
Definition byte_of (k : Z) (word : Z) : Z := Z.land (Z.shiftr word (8 * k)) 0xFF.

(** The word with its bytes 0 and 2 exchanged. *)
Definition swap_bytes_0_2 (word : Z) : Z :=
  Z.lor (Z.lor (Z.lor (Z.shiftl (byte_of 3 word) 24)
                      (Z.shiftl (byte_of 0 word) 16))
               (Z.shiftl (byte_of 1 word) 8))
        (byte_of 2 word).

(** The rectangle lies in the framebuffer of the handle, and the
    framebuffer holds [width * height] pixels of at least one byte. *)
Definition rect_in_framebuffer (client : rfbClient) (x y w h : Z) : Prop :=
  let bpp := bitsPerPixel (format client) / 8 in
  1 <= bpp
  /\ 0 <= x /\ 0 <= y /\ 0 <= w /\ 0 <= h
  /\ x + w <= width client /\ y + h <= height client
  /\ bpp * width client * height client
     <= Z.of_nat (List.length (frameBuffer client)) < 2 ^ 32.

(** The cursor source holds [w * h] pixels of [bpp] bytes and the mask
    holds [w * h] bytes. *)
Definition cursor_buffers_hold (client : rfbClient) (w h bpp : Z) : Prop :=
  1 <= bpp /\ 0 <= w /\ 0 <= h
  /\ bpp * w < 2 ^ 32
  /\ bpp * w * h <= Z.of_nat (List.length (rcSource client))
  /\ w * h <= Z.of_nat (List.length (rcMask client)).

(** Element [dx] of row [dy]. *)
Definition pixel_at (rows : list (list Z)) (dx dy : Z) : option Z :=
  match nth_error rows (Z.to_nat dy) with
  | Some row => nth_error row (Z.to_nat dx)
  | None => None
  end.

(** [word] is what the cursor loop writes for the pixel read at [off] of
    the source with the mask byte read at [moff]. *)
Definition cursor_word_at (host : byte_order) (fmt : rfbPixelFormat)
    (st : guac_vnc_settings) (bpp : Z) (src mask : list byte)
    (off moff : Z) (word : Z) : Prop :=
  exists v m,
    read_pixel host bpp src off = Ok v
    /\ load8 mask moff = Ok m
    /\ word = argb_pixel fmt (swap_red_blue st) (if m =? 0 then 0x00 else 0xFF) v.

(** The mask bit of pixel [(dx, dy)] when the mask is read as one bit per
    pixel, rows of [(w + 7) / 8] bytes, most significant bit first. This is
    the reading of the specification, kept for comparison with the byte the
    code reads. *)
Definition mask_bit_msb_first (mask : list byte) (w dx dy : Z) : result bool :=
  (b <- load8 mask (dy * ((w + 7) / 8) + dx / 8) ;;
   Ok (Z.testbit b (7 - dx mod 8)))%result.

(** The session data the callbacks need: settings and display exist. *)
Definition ready (st : guac_vnc_settings) (d : guac_common_display)
    (s : guac_vnc_client) : Prop :=
  settings s = Some st /\ display s = Some d.

(** Draw and copy calls on a trace. *)
Definition is_draw (e : event) : bool :=
  match e with SurfaceDraw _ _ _ _ _ _ => true | _ => false end.

Definition is_copy (e : event) : bool :=
  match e with SurfaceCopy _ _ _ _ _ _ _ => true | _ => false end.

Definition draws (tr : list event) : nat := List.length (filter is_draw tr).
Definition copies (tr : list event) : nat := List.length (filter is_copy tr).

(** Update callbacks of a sequence that do not come directly after a
    CopyRect callback; [after_copy] tells whether a CopyRect precedes the
    sequence. *)
Fixpoint unsuppressed_updates (after_copy : bool) (cs : list rfb_callback) : nat :=
  match cs with
  | [] => O
  | GotFrameBufferUpdate_call _ _ _ _ :: cs' =>
      ((if after_copy then 0 else 1) + unsuppressed_updates false cs')%nat
  | GotCopyRect_call _ _ _ _ _ _ :: cs' => unsuppressed_updates true cs'
  | GotCursorShape_call _ _ _ _ _ :: cs' => unsuppressed_updates after_copy cs'
  end.

Definition copyrects (cs : list rfb_callback) : nat :=
  List.length (filter (fun c => match c with
                                | GotCopyRect_call _ _ _ _ _ _ => true
                                | _ => false
                                end) cs).

(** The buffers a callback reads are large enough for its arguments. *)
Definition callback_in_bounds (client : rfbClient) (c : rfb_callback) : Prop :=
  match c with
  | GotFrameBufferUpdate_call x y w h => rect_in_framebuffer client x y w h
  | GotCopyRect_call _ _ _ _ _ _ => True
  | GotCursorShape_call _ _ w h bpp => cursor_buffers_hold client w h bpp
  end.

(** ** Sample sessions *)

(** The 2x1 framebuffer of the scenario, with the format requested for
    depth 32 and no server-side change of it. *)
Definition two_pixel_client (base : rfbClient) : rfbClient :=
  {| format := guac_vnc_set_pixel_format (format base) 32;
     width := 2; height := 1;
     frameBuffer := [x00; x00; xff; xff; x00; xff; x00; xff];
     rcSource := rcSource base; rcMask := rcMask base;
     buffered := buffered base; clientData := clientData base;
     GotFrameBufferUpdate := GotFrameBufferUpdate base;
     GotCopyRect := GotCopyRect base; GotXCutText := GotXCutText base;
     GotCursorShape := GotCursorShape base; GetPassword := GetPassword base;
     MallocFrameBuffer := MallocFrameBuffer base;
     useRemoteCursor := useRemoteCursor base;
     encodingsString := encodingsString base;
     canHandleNewFBSize := canHandleNewFBSize base;
     serverHost := serverHost base; serverPort := serverPort base;
     destHost := destHost base; destPort := destPort base;
     listenPort := listenPort base |}.

Definition blank_format : rfbPixelFormat :=
  {| bigEndian := 0; bitsPerPixel := 0; depth := 0; trueColour := 0;
     redMax := 0; greenMax := 0; blueMax := 0;
     redShift := 0; greenShift := 0; blueShift := 0 |}.

Definition blank_client : rfbClient :=
  {| format := blank_format; width := 0; height := 0; frameBuffer := [];
     rcSource := []; rcMask := []; buffered := 0; clientData := [];
     GotFrameBufferUpdate := None; GotCopyRect := None; GotXCutText := None;
     GotCursorShape := None; GetPassword := None; MallocFrameBuffer := None;
     useRemoteCursor := false; encodingsString := None;
     canHandleNewFBSize := 0; serverHost := None; serverPort := 0;
     destHost := None; destPort := 0; listenPort := 0 |}.

Definition plain_settings : guac_vnc_settings :=
  {| hostname := "localhost"; port := 5900; password := None;
     encodings := None; swap_red_blue := false; color_depth := 32;
     read_only := false; dest_host := None; dest_port := 0; retries := 0;
     reverse_connect := false; listen_timeout := 5000;
     remote_cursor := false; clipboard_encoding := None |}.

Definition origin_cursor : guac_common_cursor :=
  {| cursor_user := None; cursor_x := 0; cursor_y := 0;
     cursor_button_mask := 0 |}.

Definition plain_display : guac_common_display :=
  {| default_surface := 0%nat; cursor := origin_cursor |}.

(** A session that has connected and allocated its display. *)
Definition running_session : guac_vnc_client :=
  {| settings := Some plain_settings;
     rfb_client := Some blank_client;
     rfb_MallocFrameBuffer := None;
     display := Some plain_display;
     copy_rect_used := 0;
     clipboard_reader := Some GUAC_READ_ISO8859_1;
     clipboard_writer := Some GUAC_WRITE_ISO8859_1;
     client_thread := Some 0%nat |}.

(** A 2x1 cursor image at 32 bpp whose mask bytes are 0x01 and 0x00. *)
Definition two_pixel_cursor : rfbClient :=
  {| format := guac_vnc_set_pixel_format blank_format 32;
     width := 0; height := 0; frameBuffer := [];
     rcSource := [x11; x22; x33; x00; x44; x55; x66; x00];
     rcMask := [x01; x00];
     buffered := 0; clientData := [];
     GotFrameBufferUpdate := None; GotCopyRect := None; GotXCutText := None;
     GotCursorShape := None; GetPassword := None; MallocFrameBuffer := None;
     useRemoteCursor := true; encodingsString := None;
     canHandleNewFBSize := 0; serverHost := None; serverPort := 0;
     destHost := None; destPort := 0; listenPort := 0 |}.

(** ** Vocabulary of the further properties *)

(** A cursor word is fully transparent or fully opaque. *)
Definition opaque_or_clear (word : Z) : Prop :=
  0 <= word < 2 ^ 32 /\ (byte_of 3 word = 0x00 \/ byte_of 3 word = 0xFF).

(** [s'] is [s] but for the [copy_rect_used] flag. *)
Definition same_but_flag (s s' : guac_vnc_client) : Prop :=
  settings s' = settings s
  /\ rfb_client s' = rfb_client s
  /\ rfb_MallocFrameBuffer s' = rfb_MallocFrameBuffer s
  /\ display s' = display s
  /\ clipboard_reader s' = clipboard_reader s
  /\ clipboard_writer s' = clipboard_writer s
  /\ client_thread s' = client_thread s.

(** Calls of one kind on a trace. *)
Definition is_handle (e : event) : bool :=
  match e with HandleRFBServerMessage => true | _ => false end.

Definition is_wait (e : event) : bool :=
  match e with WaitForMessage _ => true | _ => false end.

Definition is_abort (e : event) : bool :=
  match e with ClientAbort _ => true | _ => false end.

Definition count_calls (f : event -> bool) (tr : list event) : nat :=
  List.length (filter f tr).

(** The three input handlers of a viewer. *)
Definition handlers_of (u : guac_user)
  : option user_handler * option user_handler * option user_handler :=
  (mouse_handler u, key_handler u, clipboard_handler u).

Definition all_handlers
  : option user_handler * option user_handler * option user_handler :=
  (Some guac_vnc_user_mouse_handler_proc, Some guac_vnc_user_key_handler_proc,
   Some guac_vnc_clipboard_handler_proc).

(** [s'] is [s] but for the saved allocator. *)
Definition same_but_hook (s s' : guac_vnc_client) : Prop :=
  settings s' = settings s
  /\ rfb_client s' = rfb_client s
  /\ display s' = display s
  /\ copy_rect_used s' = copy_rect_used s
  /\ clipboard_reader s' = clipboard_reader s
  /\ clipboard_writer s' = clipboard_writer s
  /\ client_thread s' = client_thread s.

(** The sleeps on a trace of the thread. *)
Definition is_msleep (c : thread_call) : bool :=
  match c with Msleep _ => true | _ => false end.

Definition sleeps (tr : list thread_call) : list thread_call :=
  filter is_msleep tr.

(** Calls the thread makes while it is still connecting. *)
Definition connecting_call (c : thread_call) : Prop :=
  match c with
  | Core (LogInfo _) | Core (LogWarning _) | Msleep _ => True
  | _ => False
  end.



(** The three calls that close a frame. *)
Definition frame_closing (d : guac_common_display) (sock : socket_id)
  : list thread_call :=
  [SurfaceFlush (default_surface d); EndFrame; Core (SocketFlush sock)].

(** ** Sample surroundings of the session thread *)

(** Settings that allow two retries. *)
Definition patient_settings : guac_vnc_settings :=
  {| hostname := "localhost"; port := 5900; password := None;
     encodings := None; swap_red_blue := false; color_depth := 32;
     read_only := false; dest_host := None; dest_port := 0; retries := 2;
     reverse_connect := false; listen_timeout := 5000;
     remote_cursor := false; clipboard_encoding := Some "UTF-8"%string |}.

(** A library whose every connection attempt fails. *)
Definition refusing_library (k : nat) : library_answer :=
  mkAnswer blank_client (fun _ _ => 0) (fun _ => false).

(** A library whose second attempt (attempt 1) succeeds. *)
Definition late_library (k : nat) : library_answer :=
  mkAnswer (two_pixel_client blank_client) (fun _ _ => 0)
           (fun _ => Nat.eqb k 1).

(** A session before the thread has run. *)
Definition joined_session : guac_vnc_client :=
  {| settings := Some patient_settings;
     rfb_client := None;
     rfb_MallocFrameBuffer := None;
     display := None;
     copy_rect_used := 0;
     clipboard_reader := None;
     clipboard_writer := None;
     client_thread := Some 0%nat |}.

(** Runs [guac_vnc_get_client] through every branch of its settings. *)
Ltac run_get_client st repeater listening :=
  unfold guac_vnc_get_client, bind, get, lift, modify, emit, ret;
  cbn [settings with_settings deref];
  destruct (listening && reverse_connect st); cbn [andb];
  destruct repeater; destruct (dest_host st); destruct (encodings st);
  repeat match goal with
         | |- context [if ?b then _ else _] => destruct b eqn:?
         end.

(** ** Theorems *)

(** *** Machine integers *)

Lemma u8_range x : 0 <= u8 x < 256.
Proof. unfold u8. change (2 ^ 8) with 256. apply Z.mod_pos_bound. lia. Qed.

Lemma u32_range x : 0 <= u32 x < 2 ^ 32.
Proof. unfold u32. apply Z.mod_pos_bound. lia. Qed.

Lemma u8_small x : 0 <= x < 256 -> u8 x = x.
Proof. intros H. unfold u8. change (2 ^ 8) with 256. now apply Z.mod_small. Qed.

Lemma u32_small x : 0 <= x < 2 ^ 32 -> u32 x = x.
Proof. intros H. unfold u32. now apply Z.mod_small. Qed.

Lemma s32_small x : - 2 ^ 31 <= x < 2 ^ 31 -> s32 x = x.
Proof. intros H. unfold s32. rewrite Z.mod_small; lia. Qed.

(** *** Channel extraction *)

(** C1 (as stated, refuted): with the blue channel of the 32-bpp format
    (shift 0, max 255) and the pure-green raw pixel 0x0000FF00, the
    expression [(v >> shift) * 256 / (max + 1)] is 65280, outside [0, 256);
    no wrap-around is involved, the exact integer value is the same. *)
Lemma channel_expr_exceeds_byte :
  ~ (forall v shift max, 1 <= max ->
       0 <= channel_expr v shift max < 256)
  /\ channel_expr 0xFF00 0 255 = 65280
  /\ Z.shiftr 0xFF00 0 * 256 / (255 + 1) = 65280.
Proof.
  split; [| split; reflexivity].
  intros H. specialize (H 0xFF00 0 255 ltac:(lia)).
  vm_compute in H. destruct H as [_ H]. discriminate H.
Qed.

(** C1 (amended): the channel stored in the [unsigned char] is the
    expression reduced modulo 256, hence always in [0, 256); and whenever
    the field selected by the shift does not exceed the channel maximum
    ([v >> shift <= max], [max >= 1]), the expression itself is in
    [0, 256), nothing wraps, and the stored channel is the exact quotient. *)
Theorem channel_in_byte_range (v shift max : Z) :
  0 <= channel v shift max < 256
  /\ channel v shift max = channel_expr v shift max mod 256
  /\ (0 <= v < 2 ^ 32 -> 0 <= shift < 32 -> 1 <= max < 2 ^ 16 ->
      Z.shiftr v shift <= max ->
      0 <= channel_expr v shift max < 256
      /\ channel v shift max = Z.shiftr v shift * 256 / (max + 1)).
Proof.
  split; [apply u8_range | split; [reflexivity |]].
  intros Hv Hs Hm Hle.
  assert (H0 : 0 <= Z.shiftr v shift) by (apply Z.shiftr_nonneg; lia).
  assert (Hexpr : channel_expr v shift max = Z.shiftr v shift * 256 / (max + 1)).
  { unfold channel_expr. rewrite u32_small; [reflexivity |].
    change (2 ^ 16) with 65536 in Hm. change (2 ^ 32) with 4294967296. nia. }
  assert (Hr : 0 <= channel_expr v shift max < 256).
  { rewrite Hexpr. split.
    - apply Z.div_pos; lia.
    - apply Z.div_lt_upper_bound; nia. }
  split; [exact Hr |].
  unfold channel. rewrite u8_small by exact Hr. exact Hexpr.
Qed.

Lemma channel_in_byte_range_witness :
  0 <= channel_expr 0x00FF8040 16 255 < 256
  /\ channel 0x00FF8040 16 255 = Z.shiftr 0x00FF8040 16 * 256 / (255 + 1).
Proof.
  apply (proj2 (proj2 (channel_in_byte_range 0x00FF8040 16 255)));
    [lia | lia | lia | vm_compute; discriminate].
Defined.

(** The three channels of the 16-bpp pixel 0xFFFF: each expression but the
    first exceeds a byte before it is narrowed. *)
Example channels_of_16bpp_white :
  channel_expr 0xFFFF 11 0x1F = 248 /\ channel 0xFFFF 11 0x1F = 248
  /\ channel_expr 0xFFFF 5 0x3F = 8188 /\ channel 0xFFFF 5 0x3F = 252
  /\ channel_expr 0xFFFF 0 0x1F = 524280 /\ channel 0xFFFF 0 0x1F = 248.
Proof. repeat split; reflexivity. Qed.

(** *** A framebuffer update of two pixels *)

(** C2 (as stated, refuted): on a little-endian host the update
    [(0, 0, 2, 1)] over the bytes 00 00 FF FF 00 FF 00 FF, with swap
    disabled, draws the words 0xFF0000 and 0x00FF00; the first word is not
    0x0000FF. *)
Lemma update_two_pixels_not_0000FF :
  guac_vnc_update LittleEndian (two_pixel_client blank_client) 0 0 2 1
                  running_session
  <> Done tt running_session
          [SurfaceDraw 0 0 0 2 1 [[0x0000FF; 0x00FF00]]]
  /\ guac_vnc_update LittleEndian (two_pixel_client blank_client) 0 0 2 1
                     running_session
     = Done tt running_session
            [SurfaceDraw 0 0 0 2 1 [[0xFF0000; 0x00FF00]]].
Proof.
  split; [vm_compute; discriminate | vm_compute; reflexivity].
Qed.

(** C2 (amended): with the 32-bpp format (shifts 16/8/0, maxes 255), swap
    disabled and the flag clear, the update [(0, 0, 2, 1)] over a
    little-endian framebuffer that starts with 00 00 FF FF 00 FF 00 FF
    issues exactly one draw, of the words 0xFF0000 and 0x00FF00, whatever
    the rest of the framebuffer and the framebuffer width. *)
Theorem update_two_pixels (client : rfbClient) (vnc_client : guac_vnc_client)
    (st : guac_vnc_settings) (d : guac_common_display)
    (f : rfbPixelFormat) (tail : list byte) :
  format client = guac_vnc_set_pixel_format f 32 ->
  frameBuffer client = [x00; x00; xff; xff; x00; xff; x00; xff] ++ tail ->
  settings vnc_client = Some st -> swap_red_blue st = false ->
  display vnc_client = Some d ->
  copy_rect_used vnc_client = 0 ->
  guac_vnc_update LittleEndian client 0 0 2 1 vnc_client
  = Done tt vnc_client
         [SurfaceDraw (default_surface d) 0 0 2 1 [[0xFF0000; 0x00FF00]]].
Proof.
  intros Hf Hfb Hst Hsw Hd Hc.
  unfold guac_vnc_update, bind, get, lift, emit, update_image.
  destruct st; cbn in Hsw; subst.
  rewrite Hc, Hf, Hfb, Hst, Hd.
  vm_compute. reflexivity.
Qed.

Lemma update_two_pixels_witness :
  guac_vnc_update LittleEndian (two_pixel_client blank_client) 0 0 2 1
                  running_session
  = Done tt running_session
         [SurfaceDraw (default_surface plain_display) 0 0 2 1
                      [[0xFF0000; 0x00FF00]]].
Proof.
  apply (update_two_pixels (two_pixel_client blank_client) running_session
           plain_settings plain_display blank_format []); reflexivity.
Defined.

(** *** Clipboard encoding *)

(** C8: [guac_vnc_set_clipboard_encoding] always returns; it returns 0
    exactly when the reader/writer pair it leaves is the ISO8859-1 pair,
    which is the case for NULL, for "ISO8859-1" and for every unrecognised
    name (then with one warning); it returns non-zero and leaves the
    matching pair for "UTF-8", "UTF-16" and "CP1252". Nothing else of the
    session data changes. *)
Theorem set_clipboard_encoding_result (name : option string)
    (s : guac_vnc_client) :
  exists r rd wr tr,
    guac_vnc_set_clipboard_encoding name s
    = Done r (with_clipboard_writer (Some wr)
                (with_clipboard_reader (Some rd) s)) tr
    /\ (r = 0 <-> rd = GUAC_READ_ISO8859_1 /\ wr = GUAC_WRITE_ISO8859_1)
    /\ match name with
       | None => r = 0 /\ tr = []
       | Some n =>
           if String.eqb n "ISO8859-1" then r = 0 /\ tr = []
           else if String.eqb n "UTF-8" then
             r <> 0 /\ rd = GUAC_READ_UTF8 /\ wr = GUAC_WRITE_UTF8 /\ tr = []
           else if String.eqb n "UTF-16" then
             r <> 0 /\ rd = GUAC_READ_UTF16 /\ wr = GUAC_WRITE_UTF16 /\ tr = []
           else if String.eqb n "CP1252" then
             r <> 0 /\ rd = GUAC_READ_CP1252 /\ wr = GUAC_WRITE_CP1252 /\ tr = []
           else
             r = 0
             /\ tr = [LogWarning "Encoding '%s' is invalid. Defaulting to ISO8859-1."]
       end.
Proof.
  unfold guac_vnc_set_clipboard_encoding.
  destruct name as [n|];
    [ destruct (String.eqb n "ISO8859-1");
      [| destruct (String.eqb n "UTF-8");
         [| destruct (String.eqb n "UTF-16");
            [| destruct (String.eqb n "CP1252")]]] |];
    do 4 eexists; (split; [reflexivity |]); repeat split;
    first [ reflexivity | discriminate
          | intros H; first [ reflexivity | discriminate H
                            | destruct H as [H _]; discriminate H ] ].
Qed.

Example set_clipboard_encoding_utf8 (s : guac_vnc_client) :
  guac_vnc_set_clipboard_encoding (Some "UTF-8"%string) s
  = Done 1 (with_clipboard_writer (Some GUAC_WRITE_UTF8)
              (with_clipboard_reader (Some GUAC_READ_UTF8) s)) [].
Proof. reflexivity. Qed.

Example set_clipboard_encoding_unknown (s : guac_vnc_client) :
  guac_vnc_set_clipboard_encoding (Some "EBCDIC"%string) s
  = Done 0 (with_clipboard_writer (Some GUAC_WRITE_ISO8859_1)
              (with_clipboard_reader (Some GUAC_READ_ISO8859_1) s))
         [LogWarning "Encoding '%s' is invalid. Defaulting to ISO8859-1."].
Proof. reflexivity. Qed.

(** *** Callbacks installed in the handle *)

Section GetClientFacts.

Variable fresh : rfbClient.
Variable listen : rfbClient -> Z -> Z.
Variable init : rfbClient -> bool.
Variables repeater listening : bool.

(** The steps of [guac_vnc_get_client] after the callbacks are configured
    leave the clipboard and cursor-shape slots alone. *)
Lemma get_client_keeps_slots (client_id : nat) (st : guac_vnc_settings)
    (s : guac_vnc_client) :
  settings s = Some st ->
  match guac_vnc_get_client fresh listen init repeater listening client_id s with
  | Done (Some rc) _ _ =>
      GotXCutText rc = GotXCutText (configure_callbacks st client_id fresh)
      /\ GotCursorShape rc
         = GotCursorShape (configure_callbacks st client_id fresh)
  | Done None _ _ => True
  | Crash => False
  end.
Proof.
  intros Hst.
  unfold guac_vnc_get_client, bind, get, lift, modify, emit, ret.
  rewrite Hst. cbn [deref].
  destruct (listening && reverse_connect st); cbn [andb];
    destruct repeater; destruct (dest_host st); destruct (encodings st);
    repeat match goal with
           | |- context [if ?b then _ else _] => destruct b
           end;
    cbn; auto.
Qed.

(** C10: the callback slots of the handle after [guac_vnc_get_client] has
    configured it. [GotXCutText] holds [guac_vnc_cut_text] only when the
    settings are not read-only, and is otherwise what [rfbGetClient] left
    there; [GotCursorShape] holds [guac_vnc_cursor] only when the settings
    are neither read-only nor remote-cursor, and is otherwise what
    [rfbGetClient] left there. The handle the function returns has the
    same two slots, and the function crashes only on null settings. *)
Theorem read_only_installs_no_clipboard_or_cursor (client_id : nat)
    (st : guac_vnc_settings) (s : guac_vnc_client) :
  let configured := configure_callbacks st client_id fresh in
  GotXCutText configured
  = (if read_only st then GotXCutText fresh
     else Some guac_vnc_cut_text_proc)
  /\ GotCursorShape configured
     = (if read_only st || remote_cursor st then GotCursorShape fresh
        else Some guac_vnc_cursor_proc)
  /\ match guac_vnc_get_client fresh listen init repeater listening client_id
                               (with_settings (Some st) s) with
     | Done (Some rc) _ _ =>
         GotXCutText rc = GotXCutText configured
         /\ GotCursorShape rc = GotCursorShape configured
     | Done None _ _ => True
     | Crash => False
     end.
Proof.
  cbv zeta. split; [| split].
  - unfold configure_callbacks.
    destruct (read_only st), (remote_cursor st); reflexivity.
  - unfold configure_callbacks.
    destruct (read_only st), (remote_cursor st); reflexivity.
  - apply get_client_keeps_slots. reflexivity.
Qed.

End GetClientFacts.

(** *** Viewers joining *)

Section JoinFacts.

Variable parse : guac_user -> list string -> option guac_vnc_settings.
Variable thread_create : guac_vnc_client -> Z.

(** C9: a viewer that is not the owner and whose arguments parse joins
    without a crash and without a change to the session data. When the
    display pointer is null the replay is skipped and the viewer's socket
    is still flushed; when the display exists it is replayed onto the
    viewer's socket, and the socket is then flushed. *)
Theorem guest_join_skips_replay_without_display (user : guac_user)
    (argv : list string) (st : guac_vnc_settings) (s : guac_vnc_client) :
  owner user = false ->
  parse user argv = Some st ->
  exists user',
    guac_vnc_user_join_handler parse thread_create user argv s
    = Done (0, user') s
           (match display s with
            | None => [SocketFlush (socket user)]
            | Some _ => [DisplayDup (user_ident user) (socket user);
                         SocketFlush (socket user)]
            end)
    /\ data user' = Some st.
Proof.
  intros Hown Hparse.
  unfold guac_vnc_user_join_handler, bind, get, emit, ret.
  rewrite Hparse. cbn [owner with_data]. rewrite Hown.
  destruct (display s); destruct (read_only st);
    eexists; split; reflexivity.
Qed.

End JoinFacts.

Lemma guest_join_skips_replay_without_display_witness :
  exists user',
    guac_vnc_user_join_handler (fun _ _ => Some plain_settings) (fun _ => 0)
      (mkUser 7%nat false 3%nat None None None None) []
      (with_display None running_session)
    = Done (0, user') (with_display None running_session) [SocketFlush 3%nat]
    /\ data user' = Some plain_settings.
Proof.
  apply (guest_join_skips_replay_without_display
           (fun _ _ => Some plain_settings) (fun _ => 0)
           (mkUser 7%nat false 3%nat None None None None) []
           plain_settings (with_display None running_session));
    reflexivity.
Defined.

(** *** Input before the connection is established *)

(** The owner's join on a session that has not connected, with settings
    that are not read-only: the settings are stored, the thread is started,
    the mouse handler is installed, and neither the upstream handle nor the
    display exists yet. A mouse event of the owner that arrives in this
    state makes the mouse handler dereference the null display. *)
Lemma owner_mouse_event_while_connecting
    (parse : guac_user -> list string -> option guac_vnc_settings)
    (thread_create : guac_vnc_client -> Z)
    (user : guac_user) (argv : list string) (st : guac_vnc_settings)
    (s : guac_vnc_client) (x y mask : Z) :
  owner user = true -> parse user argv = Some st -> read_only st = false ->
  thread_create s = 0 ->
  rfb_client s = None -> display s = None ->
  exists user' s',
    guac_vnc_user_join_handler parse thread_create user argv s
    = Done (0, user') s' [PthreadCreate]
    /\ mouse_handler user' = Some guac_vnc_user_mouse_handler_proc
    /\ settings s' = Some st /\ rfb_client s' = None /\ display s' = None
    /\ guac_vnc_user_mouse_handler user' x y mask s' = Crash.
Proof.
  intros Hown Hparse Hro Hthread Hrfb Hd.
  unfold guac_vnc_user_join_handler, bind, get, emit, modify, ret.
  rewrite Hparse. cbn [owner with_data]. rewrite Hown, Hthread, Hro.
  cbn. eexists _, _. split; [reflexivity |].
  cbn. repeat split; try assumption.
  unfold guac_vnc_user_mouse_handler, bind, get, lift, modify, emit, ret.
  cbn. rewrite Hd. reflexivity.
Qed.

Section InputFacts.

Variable iconv : guac_iconv_write -> list byte -> list byte.

(** C4: input while the session thread is still connecting. The thread
    stores the upstream handle before it allocates the display, so that as
    long as the handle is null the display is null as well. In that state
    the key handler drops the event (no call, the session data unchanged),
    as does the clipboard handler as the specification describes it; the
    mouse handler does not: it reads the cursor through the display
    pointer before it looks at the handle, and dereferences null. *)
Theorem input_before_connect (user : guac_user) (s : guac_vnc_client)
    (x y mask keysym pressed : Z) (text : list byte) :
  rfb_client s = None -> display s = None ->
  guac_vnc_user_key_handler user keysym pressed s = Done 0 s []
  /\ guac_vnc_clipboard_handler iconv user text s = Done 0 s []
  /\ guac_vnc_user_mouse_handler user x y mask s = Crash.
Proof.
  intros Hrfb Hd.
  unfold guac_vnc_user_key_handler, guac_vnc_clipboard_handler,
    guac_vnc_user_mouse_handler, bind, get, lift, modify, emit, ret.
  rewrite Hrfb, Hd. cbn. repeat split; reflexivity.
Qed.

End InputFacts.

Lemma input_before_connect_witness :
  let u := mkUser 7%nat true 3%nat (Some patient_settings)
                  (Some guac_vnc_user_mouse_handler_proc)
                  (Some guac_vnc_user_key_handler_proc)
                  (Some guac_vnc_clipboard_handler_proc) in
  guac_vnc_user_key_handler u 65 1 joined_session = Done 0 joined_session []
  /\ guac_vnc_clipboard_handler (fun _ t => t) u [x41] joined_session
     = Done 0 joined_session []
  /\ guac_vnc_user_mouse_handler u 10 20 1 joined_session = Crash.
Proof.
  apply (input_before_connect (fun _ t => t)
           (mkUser 7%nat true 3%nat (Some patient_settings)
                   (Some guac_vnc_user_mouse_handler_proc)
                   (Some guac_vnc_user_key_handler_proc)
                   (Some guac_vnc_clipboard_handler_proc))
           joined_session 10 20 1 65 1 [x41]);
    reflexivity.
Defined.

(** *** Frame pacing *)

Section FrameLoopFacts.

Variables frame_duration frame_timeout : Z.

(** C7: in a pass of the inner loop whose message was handled, let
    [required_wait = processing_lag - (frame_end - last_frame_end)]. If
    [required_wait > GUAC_VNC_FRAME_TIMEOUT], the pass asks
    [guac_vnc_wait_for_messages] for a wait of [required_wait]
    milliseconds (passed as [required_wait * 1000] microseconds) and not
    for the default timeout; with no data buffered in the library this is
    the [WaitForMessage] call the loop issues next. *)
Theorem lagging_pass_stretches_wait (processing_lag frame_start last_frame_end : Z)
    (p : pass) (rest : list pass) (wait_result : Z) :
  let required_wait := processing_lag - (clock p - last_frame_end) in
  handled p = true ->
  - 2 ^ 31 <= clock p - last_frame_end < 2 ^ 31 ->
  - 2 ^ 31 <= required_wait * 1000 < 2 ^ 31 ->
  required_wait > frame_timeout ->
  required_wait_of processing_lag last_frame_end (clock p) = required_wait
  /\ fst (frame_pass frame_duration frame_timeout processing_lag frame_start
                     last_frame_end p)
     = Waited (required_wait * 1000)
              (if buffered_in p =? 0 then wait_answer p else 1)
  /\ (buffered_in p = 0 ->
      exists r tr,
        frame_loop frame_duration frame_timeout processing_lag frame_start
                   last_frame_end wait_result (p :: rest)
        = (r, HandleRFBServerMessage
                :: WaitForMessage (required_wait * 1000) :: tr)).
Proof.
  cbv zeta. intros Hh He Hus Hgt.
  assert (Hrw : required_wait_of processing_lag last_frame_end (clock p)
                = processing_lag - (clock p - last_frame_end)).
  { unfold required_wait_of.
    rewrite (s32_small (clock p - last_frame_end)) by exact He.
    apply s32_small. change (2 ^ 31) with 2147483648 in *. lia. }
  apply s32_small in Hus.
  assert (Hpass : frame_pass frame_duration frame_timeout processing_lag
                    frame_start last_frame_end p
                  = (Waited ((processing_lag - (clock p - last_frame_end)) * 1000)
                            (if buffered_in p =? 0 then wait_answer p else 1),
                     HandleRFBServerMessage
                       :: (if buffered_in p =? 0
                           then [WaitForMessage
                                   ((processing_lag - (clock p - last_frame_end))
                                    * 1000)]
                           else []))).
  { unfold frame_pass. rewrite Hh, Hrw, Hus. cbn [negb].
    destruct (Z.gtb_spec (processing_lag - (clock p - last_frame_end))
                         frame_timeout) as [_ | Hle]; [| lia].
    unfold guac_vnc_wait_for_messages.
    destruct (buffered_in p =? 0); reflexivity. }
  split; [exact Hrw | split].
  - rewrite Hpass. reflexivity.
  - intros Hb. cbn [frame_loop]. rewrite Hpass, Hb. cbn [Z.eqb].
    destruct (wait_answer p >? 0).
    + destruct (frame_loop frame_duration frame_timeout processing_lag
                           frame_start last_frame_end (wait_answer p) rest)
        as [r' tr'].
      exists r', tr'. reflexivity.
    + exists (wait_answer p), []. reflexivity.
Qed.

End FrameLoopFacts.

(** The scenario of the specification: a lag of 500 ms with 100 ms elapsed
    since the last frame, frame duration 40 ms and frame timeout 0 ms,
    gives a wait of 400 ms. *)
Lemma lagging_pass_stretches_wait_witness :
  required_wait_of 500 1000 1100 = 400
  /\ fst (frame_pass 40 0 500 1090 1000 (mkPass true 1100 0 0))
     = Waited 400000 0
  /\ (0 = 0 ->
      exists r tr,
        frame_loop 40 0 500 1090 1000 1 [mkPass true 1100 0 0]
        = (r, HandleRFBServerMessage :: WaitForMessage 400000 :: tr)).
Proof.
  apply (lagging_pass_stretches_wait 40 0 500 1090 1000
           (mkPass true 1100 0 0) [] 1); cbn; lia.
Defined.

(** *** Reading pixels *)

Lemma byte_val_range (b : byte) : 0 <= byte_val b < 256.
Proof.
  unfold byte_val. pose proof (Byte.to_N_bounded b). lia.
Qed.

Lemma load8_ok (buf : list byte) (off : Z) :
  0 <= off < Z.of_nat (List.length buf) ->
  exists b, load8 buf off = Ok b /\ 0 <= b < 256.
Proof.
  intros [Hlo Hhi]. unfold load8.
  destruct (Z.ltb_spec off 0) as [Hneg | _]; [lia |].
  destruct (nth_error buf (Z.to_nat off)) as [b |] eqn:Hnth.
  - exists (byte_val b). split; [reflexivity | apply byte_val_range].
  - apply nth_error_None in Hnth. lia.
Qed.

Lemma pixel_bytes_le (bpp : Z) : 1 <= bpp -> 1 <= pixel_bytes bpp <= bpp.
Proof.
  intros H. unfold pixel_bytes.
  destruct (Z.eqb_spec bpp 4); [lia |].
  destruct (Z.eqb_spec bpp 2); lia.
Qed.

Lemma read_pixel_ok (host : byte_order) (bpp : Z) (buf : list byte) (off : Z) :
  0 <= off -> off + pixel_bytes bpp <= Z.of_nat (List.length buf) ->
  exists v, read_pixel host bpp buf off = Ok v /\ 0 <= v < 2 ^ 32.
Proof.
  intros Hoff Hlen. unfold read_pixel, pixel_bytes in *.
  destruct (bpp =? 4).
  - unfold load32.
    destruct (load8_ok buf off) as (b0 & -> & H0); [lia |].
    destruct (load8_ok buf (off + 1)) as (b1 & -> & H1); [lia |].
    destruct (load8_ok buf (off + 2)) as (b2 & -> & H2); [lia |].
    destruct (load8_ok buf (off + 3)) as (b3 & -> & H3); [lia |].
    cbn [rbind]. eexists. split; [reflexivity |].
    change (2 ^ 8) with 256. change (2 ^ 16) with 65536.
    change (2 ^ 24) with 16777216. change (2 ^ 32) with 4294967296.
    destruct host; lia.
  - destruct (bpp =? 2).
    + unfold load16.
      destruct (load8_ok buf off) as (b0 & -> & H0); [lia |].
      destruct (load8_ok buf (off + 1)) as (b1 & -> & H1); [lia |].
      cbn [rbind]. eexists. split; [reflexivity |].
      change (2 ^ 8) with 256. change (2 ^ 32) with 4294967296.
      destruct host; lia.
    + destruct (load8_ok buf off) as (b0 & -> & H0); [lia |].
      exists b0. split; [reflexivity |].
      change (2 ^ 32) with 4294967296. lia.
Qed.

(** *** The translation loops terminate with an image *)

Section TranslatorFacts.

Variable host : byte_order.
Variable fmt : rfbPixelFormat.
Variable st : guac_vnc_settings.

Lemma update_row_ok (bpp : Z) (fb : list byte) (n : nat) :
  forall off,
    1 <= bpp -> 0 <= off ->
    off + Z.of_nat n * bpp <= Z.of_nat (List.length fb) ->
    exists row, update_row host fmt (Some st) bpp fb n off = Ok row.
Proof.
  induction n as [| n IH]; intros off Hbpp Hoff Hlen.
  - exists []. reflexivity.
  - pose proof (pixel_bytes_le bpp Hbpp) as Hpb.
    destruct (read_pixel_ok host bpp fb off) as (v & Hv & _); [lia | nia |].
    destruct (IH (off + bpp)) as (rest & Hrest); [lia | lia | nia |].
    cbn [update_row]. rewrite Hv. cbn [rbind deref]. rewrite Hrest.
    cbn [rbind]. eexists. reflexivity.
Qed.

Lemma update_rows_ok (bpp fb_stride : Z) (fb : list byte) (w : nat) (n : nat) :
  forall off,
    1 <= bpp -> 0 <= fb_stride -> 0 <= off ->
    (n <> O ->
     off + (Z.of_nat n - 1) * fb_stride + Z.of_nat w * bpp
     <= Z.of_nat (List.length fb)) ->
    exists rows,
      update_rows host fmt (Some st) bpp fb_stride fb w n off = Ok rows.
Proof.
  induction n as [| n IH]; intros off Hbpp Hstride Hoff Hlen.
  - exists []. reflexivity.
  - specialize (Hlen ltac:(discriminate)).
    destruct (update_row_ok bpp fb w off) as (row & Hrow); [lia | lia | nia |].
    destruct (IH (off + fb_stride)) as (rest & Hrest); [lia | lia | lia | |].
    { intros Hn. nia. }
    cbn [update_rows]. rewrite Hrow. cbn [rbind]. rewrite Hrest.
    cbn [rbind]. eexists. reflexivity.
Qed.

End TranslatorFacts.

Lemma update_image_ok (host : byte_order) (st : guac_vnc_settings)
    (client : rfbClient) (x y w h : Z) :
  rect_in_framebuffer client x y w h ->
  exists img, update_image host (Some st) client x y w h = Ok img.
Proof.
  unfold rect_in_framebuffer, update_image. cbv zeta.
  set (bpp := bitsPerPixel (format client) / 8).
  intros (Hbpp & Hx & Hy & Hw & Hh & Hxw & Hyh & Hlen & Hmax).
  destruct (Z.eq_dec h 0) as [-> | Hh0].
  - exists []. reflexivity.
  - change (2 ^ 32) with 4294967296 in Hmax.
    set (len := Z.of_nat (List.length (frameBuffer client))) in *.
    set (S := bpp * width client).
    assert (HS0 : 0 <= S) by (unfold S; nia).
    assert (HSh : S * height client <= len) by (unfold S; lia).
    assert (HyS : y * S + h * S <= S * height client) by nia.
    assert (HhS : S <= h * S) by nia.
    assert (HxS : x * bpp + w * bpp <= S) by (unfold S; nia).
    assert (Hwb : 0 <= w * bpp) by nia.
    assert (Hxb : 0 <= x * bpp) by nia.
    assert (HyS0 : 0 <= y * S) by nia.
    rewrite (u32_small S) by (change (2 ^ 32) with 4294967296; lia).
    rewrite (u32_small (y * S)) by (change (2 ^ 32) with 4294967296; lia).
    rewrite (u32_small (x * bpp)) by (change (2 ^ 32) with 4294967296; lia).
    apply update_rows_ok; lia.
Qed.

(** *** Packing bytes into a word *)

Lemma lor_mul_pow2_add (m lo k : Z) :
  0 <= k -> 0 <= lo < 2 ^ k -> Z.lor (m * 2 ^ k) lo = m * 2 ^ k + lo.
Proof.
  intros Hk Hlo.
  assert (Hland : Z.land (m * 2 ^ k) lo = 0).
  { apply Z.bits_inj'. intros n Hn.
    rewrite Z.land_spec, Z.bits_0.
    destruct (Z.lt_ge_cases n k) as [Hlt | Hge].
    - rewrite Z.mul_pow2_bits_low by exact Hlt. reflexivity.
    - rewrite <- (Z.mod_small lo (2 ^ k)) by exact Hlo.
      rewrite Z.mod_pow2_bits_high by lia. apply andb_false_r. }
  pose proof (Z.add_lor_land (m * 2 ^ k) lo) as Hadd.
  rewrite Hland in Hadd. lia.
Qed.

Lemma lor_bytes_sum (a r g b : Z) :
  0 <= a < 256 -> 0 <= r < 256 -> 0 <= g < 256 -> 0 <= b < 256 ->
  Z.lor (Z.lor (Z.lor (Z.shiftl a 24) (Z.shiftl r 16)) (Z.shiftl g 8)) b
  = a * 2 ^ 24 + r * 2 ^ 16 + g * 2 ^ 8 + b.
Proof.
  intros Ha Hr Hg Hb.
  rewrite !Z.shiftl_mul_pow2 by lia.
  rewrite (lor_mul_pow2_add a (r * 2 ^ 16) 24) by lia.
  replace (a * 2 ^ 24 + r * 2 ^ 16) with ((a * 2 ^ 8 + r) * 2 ^ 16) by ring.
  rewrite (lor_mul_pow2_add _ (g * 2 ^ 8) 16) by lia.
  replace ((a * 2 ^ 8 + r) * 2 ^ 16 + g * 2 ^ 8)
    with (((a * 2 ^ 8 + r) * 2 ^ 8 + g) * 2 ^ 8) by ring.
  rewrite (lor_mul_pow2_add _ b 8) by lia.
  ring.
Qed.

Lemma pack_argb_sum (a r g b : Z) :
  0 <= a < 256 -> 0 <= r < 256 -> 0 <= g < 256 -> 0 <= b < 256 ->
  pack_argb a r g b = a * 2 ^ 24 + r * 2 ^ 16 + g * 2 ^ 8 + b.
Proof.
  intros Ha Hr Hg Hb. unfold pack_argb.
  rewrite lor_bytes_sum by assumption.
  apply u32_small.
  change (2 ^ 32) with 4294967296. change (2 ^ 24) with 16777216.
  change (2 ^ 16) with 65536. change (2 ^ 8) with 256. lia.
Qed.

Lemma pack_rgb_sum (r g b : Z) :
  0 <= r < 256 -> 0 <= g < 256 -> 0 <= b < 256 ->
  pack_rgb r g b = r * 2 ^ 16 + g * 2 ^ 8 + b.
Proof.
  intros Hr Hg Hb. unfold pack_rgb.
  rewrite !Z.shiftl_mul_pow2 by lia.
  rewrite (lor_mul_pow2_add r (g * 2 ^ 8) 16) by lia.
  replace (r * 2 ^ 16 + g * 2 ^ 8) with ((r * 2 ^ 8 + g) * 2 ^ 8) by ring.
  rewrite (lor_mul_pow2_add _ b 8) by lia.
  rewrite u32_small; [ring |].
  change (2 ^ 32) with 4294967296. change (2 ^ 8) with 256. lia.
Qed.

(** The cursor word is the alpha byte on top of the RGB word. *)
Lemma pack_argb_alpha_over_rgb (a r g b : Z) :
  0 <= a < 256 -> 0 <= r < 256 -> 0 <= g < 256 -> 0 <= b < 256 ->
  pack_argb a r g b = Z.lor (Z.shiftl a 24) (pack_rgb r g b).
Proof.
  intros Ha Hr Hg Hb.
  rewrite pack_argb_sum, pack_rgb_sum by assumption.
  rewrite Z.shiftl_mul_pow2 by lia.
  rewrite lor_mul_pow2_add; [ring | lia |].
  change (2 ^ 24) with 16777216. change (2 ^ 16) with 65536.
  change (2 ^ 8) with 256. lia.
Qed.

Lemma byte_of_sum (a r g b : Z) :
  0 <= a < 256 -> 0 <= r < 256 -> 0 <= g < 256 -> 0 <= b < 256 ->
  let word := a * 2 ^ 24 + r * 2 ^ 16 + g * 2 ^ 8 + b in
  byte_of 3 word = a /\ byte_of 2 word = r
  /\ byte_of 1 word = g /\ byte_of 0 word = b.
Proof.
  intros Ha Hr Hg Hb. cbv zeta. unfold byte_of.
  change 0xFF with (Z.ones 8).
  rewrite !Z.land_ones by lia. rewrite !Z.shiftr_div_pow2 by lia.
  change (8 * 3) with 24. change (8 * 2) with 16.
  change (8 * 1) with 8. change (8 * 0) with 0.
  change (2 ^ 24) with 16777216. change (2 ^ 16) with 65536.
  change (2 ^ 8) with 256. change (2 ^ 0) with 1.
  repeat split; Z.div_mod_to_equations; lia.
Qed.

Lemma swap_bytes_pack_argb (a r g b : Z) :
  0 <= a < 256 -> 0 <= r < 256 -> 0 <= g < 256 -> 0 <= b < 256 ->
  swap_bytes_0_2 (pack_argb a r g b) = pack_argb a b g r.
Proof.
  intros Ha Hr Hg Hb.
  rewrite (pack_argb_sum a r g b) by assumption.
  destruct (byte_of_sum a r g b Ha Hr Hg Hb) as (H3 & H2 & H1 & H0).
  unfold swap_bytes_0_2. rewrite H3, H2, H1, H0.
  rewrite lor_bytes_sum, pack_argb_sum by assumption.
  reflexivity.
Qed.

Lemma swap_bytes_pack_rgb (r g b : Z) :
  0 <= r < 256 -> 0 <= g < 256 -> 0 <= b < 256 ->
  swap_bytes_0_2 (pack_rgb r g b) = pack_rgb b g r.
Proof.
  intros Hr Hg Hb.
  exact (swap_bytes_pack_argb 0 r g b ltac:(lia) Hr Hg Hb).
Qed.

Lemma channel_range (v shift max : Z) : 0 <= channel v shift max < 256.
Proof. apply u8_range. Qed.

(** *** Swapping red and blue *)

Lemma swap_rgb_pixel (fmt : rfbPixelFormat) (swap : bool) (v : Z) :
  swap_bytes_0_2 (rgb_pixel fmt swap v) = rgb_pixel fmt (negb swap) v.
Proof.
  unfold rgb_pixel.
  destruct swap; cbn [negb]; apply swap_bytes_pack_rgb; apply channel_range.
Qed.

Lemma swap_argb_pixel (fmt : rfbPixelFormat) (swap : bool) (alpha v : Z) :
  0 <= alpha < 256 ->
  swap_bytes_0_2 (argb_pixel fmt swap alpha v) = argb_pixel fmt (negb swap) alpha v.
Proof.
  intros Ha. unfold argb_pixel.
  destruct swap; cbn [negb];
    apply swap_bytes_pack_argb; try apply channel_range; exact Ha.
Qed.

Section SwapFacts.

Variable host : byte_order.
Variable fmt : rfbPixelFormat.
Variable st : guac_vnc_settings.
Variable swap : bool.

Let swapped := Some (with_swap_red_blue swap st).
Let unswapped := Some (with_swap_red_blue (negb swap) st).

Lemma update_row_swap (bpp : Z) (fb : list byte) (n : nat) :
  forall off,
    rmap (map swap_bytes_0_2) (update_row host fmt swapped bpp fb n off)
    = update_row host fmt unswapped bpp fb n off.
Proof.
  induction n as [| n IH]; intros off; [reflexivity |].
  cbn [update_row]. rewrite <- IH.
  destruct (read_pixel host bpp fb off) as [v |]; [| reflexivity].
  cbn [rbind deref swapped unswapped with_swap_red_blue swap_red_blue].
  destruct (update_row host fmt swapped bpp fb n (off + bpp)) as [rest |];
    [| reflexivity].
  cbn [rbind rmap map]. rewrite swap_rgb_pixel. reflexivity.
Qed.

Lemma update_rows_swap (bpp fb_stride : Z) (fb : list byte) (w n : nat) :
  forall off,
    rmap (map (map swap_bytes_0_2))
         (update_rows host fmt swapped bpp fb_stride fb w n off)
    = update_rows host fmt unswapped bpp fb_stride fb w n off.
Proof.
  induction n as [| n IH]; intros off; [reflexivity |].
  cbn [update_rows]. rewrite <- IH, <- update_row_swap.
  destruct (update_row host fmt swapped bpp fb w off) as [row |];
    [| reflexivity].
  cbn [rbind rmap].
  destruct (update_rows host fmt swapped bpp fb_stride fb w n (off + fb_stride))
    as [rest |]; reflexivity.
Qed.

Lemma cursor_row_swap (bpp : Z) (src mask : list byte) (n : nat) :
  forall off moff,
    rmap (fun rm => (map swap_bytes_0_2 (fst rm), snd rm))
         (cursor_row host fmt swapped bpp src mask n off moff)
    = cursor_row host fmt unswapped bpp src mask n off moff.
Proof.
  induction n as [| n IH]; intros off moff; [reflexivity |].
  cbn [cursor_row]. rewrite <- IH.
  destruct (read_pixel host bpp src off) as [v |]; [| reflexivity].
  cbn [rbind].
  destruct (load8 mask moff) as [m |]; [| reflexivity].
  cbn [rbind deref swapped unswapped with_swap_red_blue swap_red_blue].
  destruct (cursor_row host fmt swapped bpp src mask n (off + bpp) (moff + 1))
    as [[rest moff'] |]; [| reflexivity].
  cbn [rbind rmap map fst snd]. rewrite swap_argb_pixel; [reflexivity |].
  destruct (m =? 0); lia.
Qed.

Lemma cursor_rows_swap (bpp fb_stride : Z) (src mask : list byte) (w n : nat) :
  forall off moff,
    rmap (map (map swap_bytes_0_2))
         (cursor_rows host fmt swapped bpp fb_stride src mask w n off moff)
    = cursor_rows host fmt unswapped bpp fb_stride src mask w n off moff.
Proof.
  induction n as [| n IH]; intros off moff; [reflexivity |].
  cbn [cursor_rows]. rewrite <- cursor_row_swap.
  destruct (cursor_row host fmt swapped bpp src mask w off moff)
    as [[row moff'] |]; [| reflexivity].
  cbn [rbind rmap fst snd]. rewrite <- IH.
  destruct (cursor_rows host fmt swapped bpp fb_stride src mask w n
                        (off + fb_stride) moff') as [rest |]; reflexivity.
Qed.

End SwapFacts.

(** C6: for every pixel format, host byte order, handle and rectangle,
    translating with one value of [swap_red_blue] and then exchanging bytes
    0 and 2 of every output word gives exactly the translation with the
    other value, for framebuffer updates and for cursor images; with
    [swap = true] this is the claim, with [swap = false] its converse. A
    translation that reads outside its buffer does so for both values. *)
Theorem swap_red_blue_symmetry (host : byte_order) (st : guac_vnc_settings)
    (swap : bool) (client : rfbClient) (x y w h bpp : Z) :
  rmap (map (map swap_bytes_0_2))
       (update_image host (Some (with_swap_red_blue swap st)) client x y w h)
  = update_image host (Some (with_swap_red_blue (negb swap) st)) client x y w h
  /\ rmap (map (map swap_bytes_0_2))
          (cursor_image host (Some (with_swap_red_blue swap st)) client w h bpp)
     = cursor_image host (Some (with_swap_red_blue (negb swap) st)) client w h bpp.
Proof.
  split.
  - unfold update_image. apply update_rows_swap.
  - unfold cursor_image. apply cursor_rows_swap.
Qed.

(** *** Cursor images *)

Lemma argb_pixel_alpha_over_rgb (fmt : rfbPixelFormat) (swap : bool) (alpha v : Z) :
  0 <= alpha < 256 ->
  argb_pixel fmt swap alpha v = Z.lor (Z.shiftl alpha 24) (rgb_pixel fmt swap v).
Proof.
  intros Ha. unfold argb_pixel, rgb_pixel.
  destruct swap; apply pack_argb_alpha_over_rgb;
    try apply channel_range; exact Ha.
Qed.

Section CursorFacts.

Variable host : byte_order.
Variable fmt : rfbPixelFormat.
Variable st : guac_vnc_settings.
Variable bpp : Z.
Variables src mask : list byte.

Hypothesis bpp_pos : 1 <= bpp.

Lemma cursor_row_spec (n : nat) :
  forall off moff,
    0 <= off -> 0 <= moff ->
    off + Z.of_nat n * bpp <= Z.of_nat (List.length src) ->
    moff + Z.of_nat n <= Z.of_nat (List.length mask) ->
    exists row,
      cursor_row host fmt (Some st) bpp src mask n off moff
      = Ok (row, moff + Z.of_nat n)
      /\ forall i, (i < n)%nat ->
           exists word,
             nth_error row i = Some word
             /\ cursor_word_at host fmt st bpp src mask
                               (off + Z.of_nat i * bpp) (moff + Z.of_nat i) word.
Proof.
  induction n as [| n IH]; intros off moff Hoff Hmoff Hsrc Hmask.
  - exists []. split.
    + cbn [cursor_row]. rewrite Z.add_0_r. reflexivity.
    + intros i Hi. lia.
  - pose proof (pixel_bytes_le bpp bpp_pos) as Hpb.
    destruct (read_pixel_ok host bpp src off) as (v & Hv & _); [lia | nia |].
    destruct (load8_ok mask moff) as (m & Hm & _); [lia |].
    destruct (IH (off + bpp) (moff + 1)) as (rest & Hrest & Hnth);
      [lia | lia | nia | lia |].
    eexists. split.
    + cbn [cursor_row]. rewrite Hv. cbn [rbind]. rewrite Hm.
      cbn [rbind deref]. rewrite Hrest. cbn [rbind].
      replace (moff + 1 + Z.of_nat n) with (moff + Z.of_nat (S n)) by lia.
      reflexivity.
    + intros [| i] Hi.
      * eexists. split; [reflexivity |].
        exists v, m. cbn [Z.of_nat]. rewrite Z.mul_0_l, !Z.add_0_r.
        repeat split; assumption.
      * destruct (Hnth i) as (word & Hword & Hat); [lia |].
        exists word. split; [exact Hword |].
        replace (off + Z.of_nat (S i) * bpp)
          with (off + bpp + Z.of_nat i * bpp) by lia.
        replace (moff + Z.of_nat (S i)) with (moff + 1 + Z.of_nat i) by lia.
        exact Hat.
Qed.

Lemma cursor_rows_spec (fb_stride : Z) (w n : nat) :
  forall off moff,
    0 <= fb_stride -> 0 <= off -> 0 <= moff ->
    (n <> O ->
     off + (Z.of_nat n - 1) * fb_stride + Z.of_nat w * bpp
     <= Z.of_nat (List.length src)) ->
    moff + Z.of_nat n * Z.of_nat w <= Z.of_nat (List.length mask) ->
    exists rows,
      cursor_rows host fmt (Some st) bpp fb_stride src mask w n off moff = Ok rows
      /\ forall j i, (j < n)%nat -> (i < w)%nat ->
           exists row word,
             nth_error rows j = Some row
             /\ nth_error row i = Some word
             /\ cursor_word_at host fmt st bpp src mask
                               (off + Z.of_nat j * fb_stride + Z.of_nat i * bpp)
                               (moff + Z.of_nat j * Z.of_nat w + Z.of_nat i)
                               word.
Proof.
  induction n as [| n IH]; intros off moff Hstride Hoff Hmoff Hsrc Hmask.
  - exists []. split; [reflexivity |]. intros j i Hj. lia.
  - specialize (Hsrc ltac:(discriminate)).
    destruct (cursor_row_spec w off moff) as (row & Hrow & Hrow_nth);
      [lia | lia | nia | nia |].
    destruct (IH (off + fb_stride) (moff + Z.of_nat w))
      as (rest & Hrest & Hrest_nth); [lia | lia | lia | | nia |].
    { intros Hn. nia. }
    eexists. split.
    + cbn [cursor_rows]. rewrite Hrow. cbn [rbind]. rewrite Hrest.
      cbn [rbind]. reflexivity.
    + intros [| j] i Hj Hi.
      * destruct (Hrow_nth i Hi) as (word & Hword & Hat).
        exists row, word. repeat split; [exact Hword |].
        cbn [Z.of_nat]. rewrite !Z.mul_0_l, !Z.add_0_r. exact Hat.
      * destruct (Hrest_nth j i) as (row' & word & Hr & Hword & Hat);
          [lia | exact Hi |].
        exists row', word. repeat split; [exact Hr | exact Hword |].
        replace (off + Z.of_nat (S j) * fb_stride + Z.of_nat i * bpp)
          with (off + fb_stride + Z.of_nat j * fb_stride + Z.of_nat i * bpp)
          by lia.
        replace (moff + Z.of_nat (S j) * Z.of_nat w + Z.of_nat i)
          with (moff + Z.of_nat w + Z.of_nat j * Z.of_nat w + Z.of_nat i)
          by lia.
        exact Hat.
Qed.

End CursorFacts.

(** C5 (as stated, refuted): for the 2x1 cursor whose mask bytes are 0x01
    and 0x00, the one-bit-per-pixel, most-significant-bit-first reading
    gives mask bit 0 for pixel 0 (bit 7 of the first byte), yet the code
    writes alpha 0xFF for pixel 0, because its mask byte 0x01 is non-zero;
    pixel 1 gets alpha 0x00 from the second mask byte. *)
Lemma cursor_mask_is_not_bit_packed :
  mask_bit_msb_first (rcMask two_pixel_cursor) 2 0 0 = Ok false
  /\ cursor_image LittleEndian (Some plain_settings) two_pixel_cursor 2 1 4
     = Ok [[0xFF332211; 0x00665544]]
  /\ byte_of 3 0xFF332211 = 0xFF
  /\ load8 (rcMask two_pixel_cursor) 0 = Ok 0x01
  /\ load8 (rcMask two_pixel_cursor) 1 = Ok 0x00.
Proof.
  repeat split; vm_compute; reflexivity.
Qed.

(** C5 (amended): when the cursor source holds [w * h] pixels and the mask
    holds [w * h] bytes, the translation returns an image, and for every
    pixel [(dx, dy)] of it the output word is [(alpha << 24) | rest], where
    [rest] is the RGB word of the source pixel and alpha is 0xFF when the
    mask byte of that pixel, the byte at index [dy * w + dx] (one byte per
    pixel, row-major), is non-zero, and 0x00 otherwise. *)
Theorem cursor_alpha_from_mask_bytes (host : byte_order)
    (st : guac_vnc_settings) (client : rfbClient) (w h bpp dx dy : Z) :
  cursor_buffers_hold client w h bpp ->
  0 <= dx < w -> 0 <= dy < h ->
  exists rows v m,
    cursor_image host (Some st) client w h bpp = Ok rows
    /\ read_pixel host bpp (rcSource client) (dy * (bpp * w) + dx * bpp) = Ok v
    /\ load8 (rcMask client) (dy * w + dx) = Ok m
    /\ pixel_at rows dx dy
       = Some (Z.lor (Z.shiftl (if m =? 0 then 0x00 else 0xFF) 24)
                     (rgb_pixel (format client) (swap_red_blue st) v))
    /\ forall s d x y,
         settings s = Some st -> display s = Some d ->
         guac_vnc_cursor host client x y w h bpp s
         = Done tt s [CursorSetArgb x y rows w h; FreeMask].
Proof.
  intros (Hbpp & Hw & Hh & Hstride & Hsrc & Hmask) Hdx Hdy.
  unfold cursor_image.
  assert (Hbw : 0 <= bpp * w) by nia.
  rewrite (u32_small (bpp * w)) by lia.
  assert (Hrow : bpp * w <= bpp * w * h) by nia.
  assert (Hlast : (h - 1) * (bpp * w) + w * bpp <= bpp * w * h) by nia.
  destruct (cursor_rows_spec host (format client) st bpp (rcSource client)
              (rcMask client) Hbpp (bpp * w) (Z.to_nat w) (Z.to_nat h) 0 0)
    as (rows & Hrows & Hnth); try lia.
  destruct (Hnth (Z.to_nat dy) (Z.to_nat dx)) as (row & word & Hr & Hwd & Hat);
    [lia | lia |].
  destruct Hat as (v & m & Hv & Hm & Hword).
  rewrite !Z2Nat.id in Hv by lia. rewrite !Z2Nat.id in Hm by lia.
  cbn [Z.add] in Hv, Hm.
  exists rows, v, m.
  split; [exact Hrows | split; [exact Hv | split; [exact Hm | split]]].
  - unfold pixel_at. rewrite Hr, Hwd, Hword.
    rewrite argb_pixel_alpha_over_rgb; [reflexivity |].
    destruct (m =? 0); lia.
  - intros s d x y Hst Hd.
    unfold guac_vnc_cursor, bind, get, lift, emit, cursor_image.
    rewrite Hst, (u32_small (bpp * w)) by lia.
    rewrite Hrows, Hd. reflexivity.
Qed.

Lemma cursor_alpha_from_mask_bytes_witness :
  exists rows v m,
    cursor_image LittleEndian (Some plain_settings) two_pixel_cursor 2 1 4
    = Ok rows
    /\ read_pixel LittleEndian 4 (rcSource two_pixel_cursor) (0 * (4 * 2) + 1 * 4)
       = Ok v
    /\ load8 (rcMask two_pixel_cursor) (0 * 2 + 1) = Ok m
    /\ pixel_at rows 1 0
       = Some (Z.lor (Z.shiftl (if m =? 0 then 0x00 else 0xFF) 24)
                     (rgb_pixel (format two_pixel_cursor)
                                (swap_red_blue plain_settings) v))
    /\ forall s d x y,
         settings s = Some plain_settings -> display s = Some d ->
         guac_vnc_cursor LittleEndian two_pixel_cursor x y 2 1 4 s
         = Done tt s [CursorSetArgb x y rows 2 1; FreeMask].
Proof.
  apply (cursor_alpha_from_mask_bytes LittleEndian plain_settings
           two_pixel_cursor 2 1 4 1 0).
  - unfold cursor_buffers_hold. cbn. lia.
  - lia.
  - lia.
Defined.

Lemma cursor_image_ok (host : byte_order) (st : guac_vnc_settings)
    (client : rfbClient) (w h bpp : Z) :
  cursor_buffers_hold client w h bpp ->
  exists rows, cursor_image host (Some st) client w h bpp = Ok rows.
Proof.
  intros (Hbpp & Hw & Hh & Hstride & Hsrc & Hmask).
  unfold cursor_image.
  assert (Hbw : 0 <= bpp * w) by nia.
  rewrite (u32_small (bpp * w)) by lia.
  destruct (Z.eq_dec h 0) as [-> | Hh0]; [exists []; reflexivity |].
  assert (Hlast : (h - 1) * (bpp * w) + w * bpp <= bpp * w * h) by nia.
  destruct (cursor_rows_spec host (format client) st bpp (rcSource client)
              (rcMask client) Hbpp (bpp * w) (Z.to_nat w) (Z.to_nat h) 0 0)
    as (rows & Hrows & _); try lia.
  exists rows. exact Hrows.
Qed.

(** *** CopyRect followed by an update *)

Lemma draws_app (tr1 tr2 : list event) :
  draws (tr1 ++ tr2) = (draws tr1 + draws tr2)%nat.
Proof. unfold draws. rewrite filter_app, List.length_app. reflexivity. Qed.

Lemma copies_app (tr1 tr2 : list event) :
  copies (tr1 ++ tr2) = (copies tr1 + copies tr2)%nat.
Proof. unfold copies. rewrite filter_app, List.length_app. reflexivity. Qed.

Section CopyRectFacts.

Variable host : byte_order.
Variable client : rfbClient.
Variable st : guac_vnc_settings.
Variable d : guac_common_display.

Lemma copyrect_sets_flag (s : guac_vnc_client) (sx sy w h dx dy : Z) :
  ready st d s ->
  guac_vnc_copyrect client sx sy w h dx dy s
  = Done tt (with_copy_rect_used 1 s)
         [SurfaceCopy (default_surface d) sx sy w h dx dy].
Proof.
  intros [_ Hd]. unfold guac_vnc_copyrect, bind, get, lift, emit, modify.
  rewrite Hd. reflexivity.
Qed.

Lemma update_after_copyrect_is_dropped (s : guac_vnc_client) (x y w h : Z) :
  copy_rect_used s <> 0 ->
  guac_vnc_update host client x y w h s = Done tt (with_copy_rect_used 0 s) [].
Proof.
  intros Hflag. unfold guac_vnc_update, bind, get, modify.
  destruct (Z.eqb_spec (copy_rect_used s) 0) as [H0 | _]; [contradiction |].
  reflexivity.
Qed.

Lemma update_without_copyrect_draws (s : guac_vnc_client) (x y w h : Z) :
  ready st d s -> copy_rect_used s = 0 ->
  rect_in_framebuffer client x y w h ->
  exists img,
    update_image host (Some st) client x y w h = Ok img
    /\ guac_vnc_update host client x y w h s
       = Done tt s [SurfaceDraw (default_surface d) x y w h img].
Proof.
  intros [Hst Hd] Hflag Hrect.
  destruct (update_image_ok host st client x y w h Hrect) as (img & Himg).
  exists img. split; [exact Himg |].
  unfold guac_vnc_update, bind, get, lift, emit.
  rewrite Hflag, Hst, Himg, Hd. reflexivity.
Qed.

Lemma cursor_keeps_session (s : guac_vnc_client) (x y w h bpp : Z) :
  ready st d s -> cursor_buffers_hold client w h bpp ->
  exists img,
    guac_vnc_cursor host client x y w h bpp s
    = Done tt s [CursorSetArgb x y img w h; FreeMask].
Proof.
  intros [Hst Hd] Hbuf.
  destruct (cursor_image_ok host st client w h bpp Hbuf) as (img & Himg).
  exists img. unfold guac_vnc_cursor, bind, get, lift, emit.
  rewrite Hst, Himg, Hd. reflexivity.
Qed.

Lemma invoke_all_counts (cs : list rfb_callback) :
  forall s,
    ready st d s ->
    Forall (callback_in_bounds client) cs ->
    exists s' tr,
      invoke_all host client cs s = Done tt s' tr
      /\ ready st d s'
      /\ draws tr = unsuppressed_updates (negb (copy_rect_used s =? 0)) cs
      /\ copies tr = copyrects cs.
Proof.
  induction cs as [| c cs IH]; intros s Hready Hall.
  - exists s, []. repeat split; try reflexivity; apply Hready.
  - inversion Hall as [| c' cs' Hc Hcs]; subst.
    cbn [invoke_all]. unfold bind at 1.
    destruct c as [x y w h | sx sy w h dx dy | x y w h bpp]; cbn [invoke].
    + destruct (Z.eqb_spec (copy_rect_used s) 0) as [H0 | Hn0].
      * destruct (update_without_copyrect_draws s x y w h Hready H0 Hc)
          as (img & _ & ->).
        destruct (IH s Hready Hcs) as (s' & tr & -> & Hr & Hdraws & Hcopies).
        exists s', ([SurfaceDraw (default_surface d) x y w h img] ++ tr).
        repeat split; try apply Hr.
        -- rewrite draws_app, Hdraws.
           destruct (Z.eqb_spec (copy_rect_used s) 0); [reflexivity | lia].
        -- rewrite copies_app, Hcopies. reflexivity.
      * rewrite (update_after_copyrect_is_dropped s x y w h Hn0).
        destruct (IH (with_copy_rect_used 0 s)) as (s' & tr & -> & Hr & Hdraws & Hcopies);
          [split; apply Hready | exact Hcs |].
        exists s', ([] ++ tr).
        repeat split; try apply Hr; [exact Hdraws | exact Hcopies].
    + rewrite (copyrect_sets_flag s sx sy w h dx dy Hready).
      destruct (IH (with_copy_rect_used 1 s)) as (s' & tr & -> & Hr & Hdraws & Hcopies);
        [split; apply Hready | exact Hcs |].
      exists s', ([SurfaceCopy (default_surface d) sx sy w h dx dy] ++ tr).
      repeat split; try apply Hr.
      * rewrite draws_app, Hdraws. reflexivity.
      * rewrite copies_app, Hcopies. reflexivity.
    + destruct (cursor_keeps_session s x y w h bpp Hready Hc) as (img & ->).
      destruct (IH s Hready Hcs) as (s' & tr & -> & Hr & Hdraws & Hcopies).
      exists s', ([CursorSetArgb x y img w h; FreeMask] ++ tr).
      repeat split; try apply Hr.
      * rewrite draws_app, Hdraws. reflexivity.
      * rewrite copies_app, Hcopies. reflexivity.
Qed.

End CopyRectFacts.

(** C3: with settings and display in place, (1) a GotCopyRect performs one
    surface copy and sets [copy_rect_used]; (2) an update that finds the flag
    set clears it and draws nothing, so that (3) a CopyRect directly followed
    by an update issues the copy and no draw; (4) an update that finds the
    flag clear leaves it clear and issues exactly one draw; and (5) over
    every sequence of callbacks started with the flag clear, the callbacks
    all return, the surface copies are as many as the CopyRects and the
    draws as many as the updates that do not directly follow a CopyRect. *)
Theorem copyrect_suppresses_next_update (host : byte_order)
    (client : rfbClient) (st : guac_vnc_settings) (d : guac_common_display)
    (s : guac_vnc_client) :
  ready st d s ->
  (forall sx sy w h dx dy,
      guac_vnc_copyrect client sx sy w h dx dy s
      = Done tt (with_copy_rect_used 1 s)
             [SurfaceCopy (default_surface d) sx sy w h dx dy])
  /\ (forall x y w h,
         copy_rect_used s <> 0 ->
         guac_vnc_update host client x y w h s
         = Done tt (with_copy_rect_used 0 s) [])
  /\ (forall sx sy w h dx dy x' y' w' h',
         invoke_all host client
           [GotCopyRect_call sx sy w h dx dy;
            GotFrameBufferUpdate_call x' y' w' h'] s
         = Done tt (with_copy_rect_used 0 s)
                [SurfaceCopy (default_surface d) sx sy w h dx dy])
  /\ (forall x y w h,
         copy_rect_used s = 0 ->
         rect_in_framebuffer client x y w h ->
         exists img,
           guac_vnc_update host client x y w h s
           = Done tt s [SurfaceDraw (default_surface d) x y w h img])
  /\ (forall cs,
         copy_rect_used s = 0 ->
         Forall (callback_in_bounds client) cs ->
         exists s' tr,
           invoke_all host client cs s = Done tt s' tr
           /\ draws tr = unsuppressed_updates false cs
           /\ copies tr = copyrects cs).
Proof.
  intros Hready. repeat apply conj.
  - intros. apply copyrect_sets_flag with (st := st). exact Hready.
  - intros. apply update_after_copyrect_is_dropped. assumption.
  - intros. cbn [invoke_all invoke]. unfold bind.
    rewrite (copyrect_sets_flag client st d s sx sy w h dx dy Hready).
    rewrite update_after_copyrect_is_dropped by (cbn; discriminate).
    reflexivity.
  - intros x y w h Hflag Hrect.
    destruct (update_without_copyrect_draws host client st d s x y w h
                Hready Hflag Hrect) as (img & _ & Hupd).
    exists img. exact Hupd.
  - intros cs Hflag Hall.
    destruct (invoke_all_counts host client st d cs s Hready Hall)
      as (s' & tr & Hrun & _ & Hdraws & Hcopies).
    exists s', tr. rewrite Hflag in Hdraws. auto.
Qed.

Lemma copyrect_suppresses_next_update_witness :
  let cs := [GotFrameBufferUpdate_call 0 0 2 1;
             GotCopyRect_call 0 0 1 1 1 0;
             GotFrameBufferUpdate_call 1 0 1 1;
             GotFrameBufferUpdate_call 0 0 1 1] in
  exists s' tr,
    invoke_all LittleEndian (two_pixel_client blank_client) cs running_session
    = Done tt s' tr
    /\ draws tr = unsuppressed_updates false cs
    /\ copies tr = copyrects cs.
Proof.
  cbv zeta.
  destruct (copyrect_suppresses_next_update LittleEndian
              (two_pixel_client blank_client) plain_settings plain_display
              running_session (conj eq_refl eq_refl))
    as (_ & _ & _ & _ & Hseq).
  apply Hseq; [reflexivity |].
  repeat constructor; cbn; lia.
Defined.

Example copyrect_then_updates_trace :
  invoke_all LittleEndian (two_pixel_client blank_client)
    [GotFrameBufferUpdate_call 0 0 2 1;
     GotCopyRect_call 0 0 1 1 1 0;
     GotFrameBufferUpdate_call 1 0 1 1;
     GotFrameBufferUpdate_call 0 0 1 1] running_session
  = Done tt running_session
         [SurfaceDraw 0 0 0 2 1 [[0xFF0000; 0x00FF00]];
          SurfaceCopy 0 0 0 1 1 1 0;
          SurfaceDraw 0 0 0 1 1 [[0xFF0000]]].
Proof. vm_compute. reflexivity. Qed.

(** *** Channels of power-of-two ranges *)

Lemma shiftr_range (v shift : Z) :
  0 <= v < 2 ^ 32 -> 0 <= shift -> 0 <= Z.shiftr v shift < 2 ^ 32.
Proof.
  intros Hv Hs. rewrite Z.shiftr_div_pow2 by exact Hs.
  assert (Hp : 0 < 2 ^ shift) by (apply Z.pow_pos_nonneg; lia).
  split.
  - apply Z.div_pos; lia.
  - apply Z.le_lt_trans with v; [| lia].
    apply Z.div_le_upper_bound; nia.
Qed.

Lemma channel_of_field (v shift k : Z) :
  0 <= v < 2 ^ 32 -> 0 <= shift -> 0 <= k <= 8 ->
  channel v shift (2 ^ k - 1) = Z.shiftr v shift mod 2 ^ k * 2 ^ (8 - k).
Proof.
  intros Hv Hs Hk.
  pose proof (shiftr_range v shift Hv Hs) as Hx.
  unfold channel, channel_expr, u8, u32.
  set (x := Z.shiftr v shift) in *.
  replace (2 ^ k - 1 + 1) with (2 ^ k) by lia.
  change (2 ^ 32) with 4294967296 in *. change (2 ^ 8) with 256.
  assert (Hcases : k = 0 \/ k = 1 \/ k = 2 \/ k = 3 \/ k = 4 \/ k = 5
                   \/ k = 6 \/ k = 7 \/ k = 8) by lia.
  destruct Hcases as [-> | [-> | [-> | [-> | [-> | [-> | [-> | [-> | ->]]]]]]]];
    cbn [Z.sub Z.opp Z.add Z.pos_sub Pos.pred_double Z.succ_double
         Z.pred_double Z.double Z.pow Z.pow_pos Pos.iter Z.mul Pos.mul
         Pos.add Pos.succ];
    Z.div_mod_to_equations; lia.
Qed.

Lemma channel_of_masked_field (v shift max k : Z) :
  0 <= v < 2 ^ 32 -> 0 <= shift -> 0 <= k <= 8 -> max = 2 ^ k - 1 ->
  channel v shift max = Z.land (Z.shiftr v shift) max * (256 / (max + 1)).
Proof.
  intros Hv Hs Hk ->.
  rewrite channel_of_field by assumption.
  replace (2 ^ k - 1) with (Z.ones k) by (rewrite Z.ones_equiv; lia).
  rewrite Z.land_ones by lia.
  replace (Z.ones k + 1) with (2 ^ k) by (rewrite Z.ones_equiv; lia).
  f_equal.
  assert (Hcases : k = 0 \/ k = 1 \/ k = 2 \/ k = 3 \/ k = 4 \/ k = 5
                   \/ k = 6 \/ k = 7 \/ k = 8) by lia.
  destruct Hcases as [-> | [-> | [-> | [-> | [-> | [-> | [-> | [-> | ->]]]]]]]];
    reflexivity.
Qed.

(** X1: for a channel whose range is a power of two ([max = 2^k - 1],
    [k <= 8]) and whose shift is a shift of a 32-bit value
    ([0 <= shift < 32], outside of which the C shift is undefined), the
    unmasked arithmetic of the translator isolates the channel: whatever
    lies above the field in the raw pixel, the stored channel is the field
    masked with [max] and scaled to eight bits. *)
Theorem channel_masks_power_of_two_range (v shift k : Z) :
  0 <= v < 2 ^ 32 -> 0 <= shift < 32 -> 0 <= k <= 8 ->
  channel v shift (2 ^ k - 1)
  = Z.land (Z.shiftr v shift) (2 ^ k - 1) * 2 ^ (8 - k).
Proof.
  intros Hv [Hs _] Hk.
  rewrite channel_of_field by assumption.
  replace (2 ^ k - 1) with (Z.ones k) by (rewrite Z.ones_equiv; lia).
  rewrite Z.land_ones by lia. reflexivity.
Qed.

Lemma channel_masks_power_of_two_range_witness :
  channel 0xFFFF 5 (2 ^ 6 - 1) = Z.land (Z.shiftr 0xFFFF 5) (2 ^ 6 - 1) * 2 ^ (8 - 6).
Proof.
  apply (channel_masks_power_of_two_range 0xFFFF 5 6); lia.
Defined.

(** X2: whatever depth is asked for, the format that
    [guac_vnc_set_pixel_format] requests is a true-colour format of 1, 2 or
    4 whole bytes per pixel, and under it each channel of a 32-bit raw value
    is the channel's field masked with its maximum and scaled to eight
    bits. *)
Theorem requested_format_translates_exactly (f : rfbPixelFormat)
    (color_depth v : Z) :
  0 <= v < 2 ^ 32 ->
  let fmt := guac_vnc_set_pixel_format f color_depth in
  let bpp := bitsPerPixel fmt / 8 in
  trueColour fmt = 1 /\ bigEndian fmt = bigEndian f
  /\ (bpp = 1 \/ bpp = 2 \/ bpp = 4) /\ pixel_bytes bpp = bpp
  /\ channel v (redShift fmt) (redMax fmt)
     = Z.land (Z.shiftr v (redShift fmt)) (redMax fmt) * (256 / (redMax fmt + 1))
  /\ channel v (greenShift fmt) (greenMax fmt)
     = Z.land (Z.shiftr v (greenShift fmt)) (greenMax fmt)
       * (256 / (greenMax fmt + 1))
  /\ channel v (blueShift fmt) (blueMax fmt)
     = Z.land (Z.shiftr v (blueShift fmt)) (blueMax fmt)
       * (256 / (blueMax fmt + 1)).
Proof.
  intros Hv. cbv zeta. unfold guac_vnc_set_pixel_format.
  destruct (color_depth =? 8); [| destruct (color_depth =? 16)];
    cbn [trueColour bigEndian bitsPerPixel redShift redMax greenShift greenMax
         blueShift blueMax];
    (split; [reflexivity |]); (split; [reflexivity |]);
    (split; [vm_compute; auto |]); (split; [reflexivity |]).
  - repeat split.
    + apply (channel_of_masked_field v 0 7 3); [lia | lia | lia | reflexivity].
    + apply (channel_of_masked_field v 3 7 3); [lia | lia | lia | reflexivity].
    + apply (channel_of_masked_field v 6 3 2); [lia | lia | lia | reflexivity].
  - repeat split.
    + apply (channel_of_masked_field v 11 0x1f 5); [lia | lia | lia | reflexivity].
    + apply (channel_of_masked_field v 5 0x3f 6); [lia | lia | lia | reflexivity].
    + apply (channel_of_masked_field v 0 0x1f 5); [lia | lia | lia | reflexivity].
  - repeat split.
    + apply (channel_of_masked_field v 16 0xff 8); [lia | lia | lia | reflexivity].
    + apply (channel_of_masked_field v 8 0xff 8); [lia | lia | lia | reflexivity].
    + apply (channel_of_masked_field v 0 0xff 8); [lia | lia | lia | reflexivity].
Qed.

Lemma requested_format_translates_exactly_witness :
  let fmt := guac_vnc_set_pixel_format blank_format 16 in
  let bpp := bitsPerPixel fmt / 8 in
  trueColour fmt = 1 /\ bigEndian fmt = bigEndian blank_format
  /\ (bpp = 1 \/ bpp = 2 \/ bpp = 4) /\ pixel_bytes bpp = bpp
  /\ channel 0xF81F (redShift fmt) (redMax fmt)
     = Z.land (Z.shiftr 0xF81F (redShift fmt)) (redMax fmt)
       * (256 / (redMax fmt + 1))
  /\ channel 0xF81F (greenShift fmt) (greenMax fmt)
     = Z.land (Z.shiftr 0xF81F (greenShift fmt)) (greenMax fmt)
       * (256 / (greenMax fmt + 1))
  /\ channel 0xF81F (blueShift fmt) (blueMax fmt)
     = Z.land (Z.shiftr 0xF81F (blueShift fmt)) (blueMax fmt)
       * (256 / (blueMax fmt + 1)).
Proof.
  apply (requested_format_translates_exactly blank_format 16 0xF81F). lia.
Defined.

Lemma channels_of_32bpp (v : Z) :
  0 <= v < 2 ^ 32 ->
  channel v 16 255 = v / 2 ^ 16 mod 256
  /\ channel v 8 255 = v / 2 ^ 8 mod 256
  /\ channel v 0 255 = v mod 256.
Proof.
  intros Hv.
  change 255 with (2 ^ 8 - 1).
  rewrite !channel_of_field by lia.
  rewrite !Z.shiftr_div_pow2 by lia.
  change (2 ^ (8 - 8)) with 1. change (2 ^ 0) with 1. change (2 ^ 8) with 256.
  rewrite !Z.mul_1_r, Z.div_1_r. repeat split; reflexivity.
Qed.

(** X3: under the 32-bpp format that [guac_vnc_set_pixel_format] requests
    for depth 24, 32 and every depth other than 8 and 16, the translator
    copies a pixel: the output word is the raw value with its top byte
    cleared, and with [swap_red_blue] it is that word with bytes 0 and 2
    exchanged. *)
Theorem native_32bpp_pixel_is_copied (f : rfbPixelFormat) (color_depth v : Z) :
  0 <= v < 2 ^ 32 -> color_depth <> 8 -> color_depth <> 16 ->
  rgb_pixel (guac_vnc_set_pixel_format f color_depth) false v
  = Z.land v 0xFFFFFF
  /\ rgb_pixel (guac_vnc_set_pixel_format f color_depth) true v
     = swap_bytes_0_2 (Z.land v 0xFFFFFF).
Proof.
  intros Hv H8 H16.
  assert (Hplain : rgb_pixel (guac_vnc_set_pixel_format f color_depth) false v
                   = Z.land v 0xFFFFFF).
  { unfold guac_vnc_set_pixel_format.
    destruct (Z.eqb_spec color_depth 8) as [E | _]; [contradiction |].
    destruct (Z.eqb_spec color_depth 16) as [E | _]; [contradiction |].
    unfold rgb_pixel. cbn [redShift redMax greenShift greenMax blueShift blueMax].
    destruct (channels_of_32bpp v Hv) as (-> & -> & ->).
    rewrite pack_rgb_sum by (apply Z.mod_pos_bound; lia).
    change 0xFFFFFF with (Z.ones 24). rewrite Z.land_ones by lia.
    change (2 ^ 16) with 65536. change (2 ^ 8) with 256.
    change (2 ^ 24) with 16777216. change (2 ^ 32) with 4294967296 in Hv.
    Z.div_mod_to_equations. lia. }
  split; [exact Hplain |].
  rewrite <- Hplain. rewrite swap_rgb_pixel. reflexivity.
Qed.

Lemma native_32bpp_pixel_is_copied_witness :
  rgb_pixel (guac_vnc_set_pixel_format blank_format 24) false 0xFF123456
  = Z.land 0xFF123456 0xFFFFFF
  /\ rgb_pixel (guac_vnc_set_pixel_format blank_format 24) true 0xFF123456
     = swap_bytes_0_2 (Z.land 0xFF123456 0xFFFFFF).
Proof.
  apply (native_32bpp_pixel_is_copied blank_format 24 0xFF123456); lia.
Defined.

(** *** The image of a framebuffer update *)

Lemma rgb_pixel_range (fmt : rfbPixelFormat) (swap : bool) (v : Z) :
  0 <= rgb_pixel fmt swap v < 2 ^ 24.
Proof.
  unfold rgb_pixel.
  pose proof (channel_range v (redShift fmt) (redMax fmt)) as Hr.
  pose proof (channel_range v (greenShift fmt) (greenMax fmt)) as Hg.
  pose proof (channel_range v (blueShift fmt) (blueMax fmt)) as Hb.
  destruct swap; rewrite pack_rgb_sum by assumption;
    change (2 ^ 24) with 16777216; change (2 ^ 16) with 65536;
    change (2 ^ 8) with 256; lia.
Qed.

Section UpdateFacts.

Variable host : byte_order.
Variable fmt : rfbPixelFormat.
Variable st : guac_vnc_settings.
Variable bpp : Z.
Variable fb : list byte.

Hypothesis bpp_pos : 1 <= bpp.

Lemma update_row_spec (n : nat) :
  forall off,
    0 <= off ->
    off + Z.of_nat n * bpp <= Z.of_nat (List.length fb) ->
    exists row,
      update_row host fmt (Some st) bpp fb n off = Ok row
      /\ List.length row = n
      /\ Forall (fun word => 0 <= word < 2 ^ 24) row
      /\ forall i, (i < n)%nat ->
           exists v,
             read_pixel host bpp fb (off + Z.of_nat i * bpp) = Ok v
             /\ nth_error row i = Some (rgb_pixel fmt (swap_red_blue st) v).
Proof.
  induction n as [| n IH]; intros off Hoff Hlen.
  - exists []. repeat split; [constructor | intros i Hi; lia].
  - pose proof (pixel_bytes_le bpp bpp_pos) as Hpb.
    destruct (read_pixel_ok host bpp fb off) as (v & Hv & _); [lia | nia |].
    destruct (IH (off + bpp)) as (rest & Hrest & Hl & Hrange & Hnth);
      [lia | nia |].
    eexists. split; [| split; [| split]].
    + cbn [update_row]. rewrite Hv. cbn [rbind deref]. rewrite Hrest.
      cbn [rbind]. reflexivity.
    + cbn [List.length]. rewrite Hl. reflexivity.
    + constructor; [apply rgb_pixel_range | exact Hrange].
    + intros [| i] Hi.
      * exists v. cbn [Z.of_nat]. rewrite Z.mul_0_l, Z.add_0_r.
        split; [exact Hv | reflexivity].
      * destruct (Hnth i) as (v' & Hv' & Hi'); [lia |].
        exists v'. split; [| exact Hi'].
        replace (off + Z.of_nat (S i) * bpp)
          with (off + bpp + Z.of_nat i * bpp) by lia.
        exact Hv'.
Qed.

Lemma update_rows_spec (fb_stride : Z) (w n : nat) :
  forall off,
    0 <= fb_stride -> 0 <= off ->
    (n <> O ->
     off + (Z.of_nat n - 1) * fb_stride + Z.of_nat w * bpp
     <= Z.of_nat (List.length fb)) ->
    exists rows,
      update_rows host fmt (Some st) bpp fb_stride fb w n off = Ok rows
      /\ List.length rows = n
      /\ Forall (fun row => List.length row = w
                            /\ Forall (fun word => 0 <= word < 2 ^ 24) row) rows
      /\ forall j i, (j < n)%nat -> (i < w)%nat ->
           exists row v,
             nth_error rows j = Some row
             /\ read_pixel host bpp fb
                  (off + Z.of_nat j * fb_stride + Z.of_nat i * bpp) = Ok v
             /\ nth_error row i = Some (rgb_pixel fmt (swap_red_blue st) v).
Proof.
  induction n as [| n IH]; intros off Hstride Hoff Hlen.
  - exists []. repeat split; [constructor | intros j i Hj; lia].
  - specialize (Hlen ltac:(discriminate)).
    destruct (update_row_spec w off) as (row & Hrow & Hl & Hrange & Hnth);
      [lia | nia |].
    destruct (IH (off + fb_stride)) as (rest & Hrest & Hlr & Hshape & Hrnth);
      [lia | lia | |].
    { intros Hn. nia. }
    eexists. split; [| split; [| split]].
    + cbn [update_rows]. rewrite Hrow. cbn [rbind]. rewrite Hrest.
      cbn [rbind]. reflexivity.
    + cbn [List.length]. rewrite Hlr. reflexivity.
    + constructor; [split; assumption | exact Hshape].
    + intros [| j] i Hj Hi.
      * destruct (Hnth i Hi) as (v & Hv & Hword).
        exists row, v. cbn [Z.of_nat]. rewrite Z.mul_0_l, Z.add_0_r.
        repeat split; assumption.
      * destruct (Hrnth j i) as (row' & v & Hr & Hv & Hword); [lia | exact Hi |].
        exists row', v. repeat split; [exact Hr | | exact Hword].
        replace (off + Z.of_nat (S j) * fb_stride + Z.of_nat i * bpp)
          with (off + fb_stride + Z.of_nat j * fb_stride + Z.of_nat i * bpp)
          by lia.
        exact Hv.
Qed.

End UpdateFacts.

(** The offsets of [update_image] without wrap-around, for a rectangle
    inside the framebuffer. *)
Lemma update_image_in_bounds (host : byte_order)
    (settings_ptr : option guac_vnc_settings) (client : rfbClient)
    (x y w h : Z) :
  rect_in_framebuffer client x y w h -> 0 < h ->
  let bpp := bitsPerPixel (format client) / 8 in
  update_image host settings_ptr client x y w h
  = update_rows host (format client) settings_ptr bpp (bpp * width client)
                (frameBuffer client) (Z.to_nat w) (Z.to_nat h)
                (y * (bpp * width client) + x * bpp)
  /\ 0 <= bpp * width client
  /\ 0 <= y * (bpp * width client) + x * bpp
  /\ y * (bpp * width client) + x * bpp + (h - 1) * (bpp * width client)
     + w * bpp <= Z.of_nat (List.length (frameBuffer client)).
Proof.
  unfold rect_in_framebuffer, update_image. cbv zeta.
  set (bpp := bitsPerPixel (format client) / 8).
  intros (Hbpp & Hx & Hy & Hw & Hh & Hxw & Hyh & Hlen & Hmax) Hpos.
  change (2 ^ 32) with 4294967296 in Hmax.
  set (len := Z.of_nat (List.length (frameBuffer client))) in *.
  set (S := bpp * width client).
  assert (HS0 : 0 <= S) by (unfold S; nia).
  assert (HSh : S * height client <= len) by (unfold S; lia).
  assert (HyS : y * S + h * S <= S * height client) by nia.
  assert (HhS : S <= h * S) by nia.
  assert (HxS : x * bpp + w * bpp <= S) by (unfold S; nia).
  assert (Hwb : 0 <= w * bpp) by nia.
  assert (Hxb : 0 <= x * bpp) by nia.
  assert (HyS0 : 0 <= y * S) by nia.
  rewrite (u32_small S) by (change (2 ^ 32) with 4294967296; lia).
  rewrite (u32_small (y * S)) by (change (2 ^ 32) with 4294967296; lia).
  rewrite (u32_small (x * bpp)) by (change (2 ^ 32) with 4294967296; lia).
  repeat split; lia.
Qed.

Lemma update_image_spec (host : byte_order) (st : guac_vnc_settings)
    (client : rfbClient) (x y w h : Z) :
  rect_in_framebuffer client x y w h ->
  let bpp := bitsPerPixel (format client) / 8 in
  exists img,
    update_image host (Some st) client x y w h = Ok img
    /\ List.length img = Z.to_nat h
    /\ Forall (fun row => List.length row = Z.to_nat w
                          /\ Forall (fun word => 0 <= word < 2 ^ 24) row) img
    /\ forall dx dy,
         0 <= dx < w -> 0 <= dy < h ->
         exists v,
           read_pixel host bpp (frameBuffer client)
             ((y + dy) * (bpp * width client) + (x + dx) * bpp) = Ok v
           /\ pixel_at img dx dy
              = Some (rgb_pixel (format client) (swap_red_blue st) v).
Proof.
  intros Hrect. cbv zeta.
  destruct (Z.le_gt_cases h 0) as [Hh0 | Hpos].
  - exists []. unfold update_image.
    replace (Z.to_nat h) with O by lia.
    repeat split; [constructor | intros dx dy _ Hdy; lia].
  - destruct (update_image_in_bounds host (Some st) client x y w h Hrect Hpos)
      as (-> & Hs0 & Hoff & Hlen).
    destruct Hrect as (Hbpp & Hx & Hy & Hw & _).
    destruct (update_rows_spec host (format client) st
                (bitsPerPixel (format client) / 8) (frameBuffer client) Hbpp
                (bitsPerPixel (format client) / 8 * width client)
                (Z.to_nat w) (Z.to_nat h)
                (y * (bitsPerPixel (format client) / 8 * width client)
                 + x * (bitsPerPixel (format client) / 8)))
      as (img & Himg & Hl & Hshape & Hnth); [lia | lia | intros _; lia |].
    exists img. repeat split; [exact Himg | exact Hl | exact Hshape |].
    intros dx dy Hdx Hdy.
    destruct (Hnth (Z.to_nat dy) (Z.to_nat dx)) as (row & v & Hr & Hv & Hword);
      [lia | lia |].
    exists v. split.
    + rewrite !Z2Nat.id in Hv by lia. rewrite <- Hv. f_equal. ring.
    + unfold pixel_at. rewrite Hr. exact Hword.
Qed.

(** X4: for a rectangle inside the framebuffer, the image that
    [guac_vnc_update] draws has at position [(dx, dy)] the translation of
    the framebuffer pixel at column [x + dx] of row [y + dy], read at byte
    offset [(y + dy) * bpp * width + (x + dx) * bpp]. *)
Theorem update_image_pixel_from_framebuffer (host : byte_order)
    (st : guac_vnc_settings) (client : rfbClient) (x y w h dx dy : Z) :
  rect_in_framebuffer client x y w h ->
  0 <= dx < w -> 0 <= dy < h ->
  let bpp := bitsPerPixel (format client) / 8 in
  exists img v,
    update_image host (Some st) client x y w h = Ok img
    /\ read_pixel host bpp (frameBuffer client)
         ((y + dy) * (bpp * width client) + (x + dx) * bpp) = Ok v
    /\ pixel_at img dx dy
       = Some (rgb_pixel (format client) (swap_red_blue st) v).
Proof.
  intros Hrect Hdx Hdy. cbv zeta.
  destruct (update_image_spec host st client x y w h Hrect)
    as (img & Himg & _ & _ & Hpix).
  destruct (Hpix dx dy Hdx Hdy) as (v & Hv & Hword).
  exists img, v. repeat split; assumption.
Qed.

Lemma update_image_pixel_from_framebuffer_witness :
  let client := two_pixel_client blank_client in
  let bpp := bitsPerPixel (format client) / 8 in
  exists img v,
    update_image LittleEndian (Some plain_settings) client 1 0 1 1 = Ok img
    /\ read_pixel LittleEndian bpp (frameBuffer client)
         ((0 + 0) * (bpp * width client) + (1 + 0) * bpp) = Ok v
    /\ pixel_at img 0 0
       = Some (rgb_pixel (format client) (swap_red_blue plain_settings) v).
Proof.
  apply (update_image_pixel_from_framebuffer LittleEndian plain_settings
           (two_pixel_client blank_client) 1 0 1 1 0 0).
  - unfold rect_in_framebuffer. cbn. lia.
  - lia.
  - lia.
Defined.

(** X5: for a rectangle inside the framebuffer, the image that
    [guac_vnc_update] draws has exactly [h] rows of exactly [w] words, and
    every word is below 2^24: the fourth byte of each 32-bit output word,
    unused by the RGB24 format, is zero. *)
Theorem update_image_shape (host : byte_order) (st : guac_vnc_settings)
    (client : rfbClient) (x y w h : Z) :
  rect_in_framebuffer client x y w h ->
  exists img,
    update_image host (Some st) client x y w h = Ok img
    /\ List.length img = Z.to_nat h
    /\ Forall (fun row => List.length row = Z.to_nat w
                          /\ Forall (fun word => 0 <= word < 2 ^ 24) row) img.
Proof.
  intros Hrect.
  destruct (update_image_spec host st client x y w h Hrect)
    as (img & Himg & Hl & Hshape & _).
  exists img. repeat split; assumption.
Qed.

Lemma update_image_shape_witness :
  exists img,
    update_image LittleEndian (Some plain_settings)
                 (two_pixel_client blank_client) 0 0 2 1 = Ok img
    /\ List.length img = Z.to_nat 1
    /\ Forall (fun row => List.length row = Z.to_nat 2
                          /\ Forall (fun word => 0 <= word < 2 ^ 24) row) img.
Proof.
  apply (update_image_shape LittleEndian plain_settings
           (two_pixel_client blank_client) 0 0 2 1).
  unfold rect_in_framebuffer. cbn. lia.
Defined.

Lemma update_rows_no_columns (host : byte_order) (fmt : rfbPixelFormat)
    (settings_ptr : option guac_vnc_settings) (bpp fb_stride : Z)
    (fb : list byte) (n : nat) :
  forall off,
    update_rows host fmt settings_ptr bpp fb_stride fb O n off
    = Ok (repeat [] n).
Proof.
  induction n as [| n IH]; intros off; [reflexivity |].
  cbn [update_rows update_row rbind]. rewrite IH. reflexivity.
Qed.

(** X6: an update for a rectangle of zero width or zero height reads
    neither the framebuffer nor the settings: whatever they hold (a null
    settings pointer, an empty framebuffer), the callback issues one draw,
    of [h] empty rows, and leaves the session data as it was. *)
Theorem empty_update_reads_nothing (host : byte_order) (client : rfbClient)
    (s : guac_vnc_client) (d : guac_common_display) (x y w h : Z) :
  display s = Some d -> copy_rect_used s = 0 ->
  0 <= w -> 0 <= h -> w = 0 \/ h = 0 ->
  guac_vnc_update host client x y w h s
  = Done tt s [SurfaceDraw (default_surface d) x y w h
                           (repeat [] (Z.to_nat h))].
Proof.
  intros Hd Hflag Hw Hh Hempty.
  assert (Himg : update_image host (settings s) client x y w h
                 = Ok (repeat [] (Z.to_nat h))).
  { unfold update_image. destruct Hempty as [-> | ->].
    - apply update_rows_no_columns.
    - reflexivity. }
  unfold guac_vnc_update, bind, get, lift, emit.
  rewrite Hflag, Himg, Hd. reflexivity.
Qed.

Lemma empty_update_reads_nothing_witness :
  guac_vnc_update BigEndian blank_client 5 6 0 3
                  (with_settings None running_session)
  = Done tt (with_settings None running_session)
         [SurfaceDraw (default_surface plain_display) 5 6 0 3
                      (repeat [] (Z.to_nat 3))].
Proof.
  apply (empty_update_reads_nothing BigEndian blank_client
           (with_settings None running_session) plain_display 5 6 0 3);
    try reflexivity; lia.
Defined.

(** *** The image of a cursor *)

Lemma argb_pixel_alpha_byte (fmt : rfbPixelFormat) (swap : bool) (alpha v : Z) :
  0 <= alpha < 256 ->
  byte_of 3 (argb_pixel fmt swap alpha v) = alpha
  /\ 0 <= argb_pixel fmt swap alpha v < 2 ^ 32.
Proof.
  intros Ha. unfold argb_pixel.
  pose proof (channel_range v (redShift fmt) (redMax fmt)) as Hr.
  pose proof (channel_range v (greenShift fmt) (greenMax fmt)) as Hg.
  pose proof (channel_range v (blueShift fmt) (blueMax fmt)) as Hb.
  destruct swap; rewrite pack_argb_sum by assumption.
  - split; [apply (byte_of_sum alpha _ _ _ Ha Hb Hg Hr) |].
    change (2 ^ 32) with 4294967296. change (2 ^ 24) with 16777216.
    change (2 ^ 16) with 65536. change (2 ^ 8) with 256. lia.
  - split; [apply (byte_of_sum alpha _ _ _ Ha Hr Hg Hb) |].
    change (2 ^ 32) with 4294967296. change (2 ^ 24) with 16777216.
    change (2 ^ 16) with 65536. change (2 ^ 8) with 256. lia.
Qed.

Section CursorShape.

Variable host : byte_order.
Variable fmt : rfbPixelFormat.
Variable settings_ptr : option guac_vnc_settings.
Variable bpp : Z.
Variables src mask : list byte.

Lemma cursor_row_shape (n : nat) :
  forall off moff row moff',
    cursor_row host fmt settings_ptr bpp src mask n off moff = Ok (row, moff') ->
    List.length row = n /\ Forall opaque_or_clear row
    /\ moff' = moff + Z.of_nat n.
Proof.
  induction n as [| n IH]; intros off moff row moff' Hrun.
  - cbn [cursor_row] in Hrun. injection Hrun as <- <-.
    repeat split; [constructor | lia].
  - cbn [cursor_row] in Hrun.
    destruct (read_pixel host bpp src off) as [v |]; [| discriminate].
    cbn [rbind] in Hrun.
    destruct (load8 mask moff) as [m |]; [| discriminate].
    cbn [rbind] in Hrun.
    destruct settings_ptr as [st |]; [| discriminate].
    cbn [rbind deref] in Hrun.
    destruct (cursor_row host fmt (Some st) bpp src mask n (off + bpp) (moff + 1))
      as [[rest m1] |] eqn:Hrest; [| discriminate].
    cbn [rbind] in Hrun. injection Hrun as <- <-.
    destruct (IH _ _ _ _ Hrest) as (Hl & Hall & ->).
    repeat split.
    + cbn [List.length]. rewrite Hl. reflexivity.
    + constructor; [| exact Hall].
      assert (Ha : 0 <= (if m =? 0 then 0x00 else 0xFF) < 256)
        by (destruct (m =? 0); lia).
      destruct (argb_pixel_alpha_byte fmt (swap_red_blue st) _ v Ha) as [Hb Hr].
      split; [exact Hr |]. rewrite Hb. destruct (m =? 0); auto.
    + lia.
Qed.

Lemma cursor_rows_shape (fb_stride : Z) (w n : nat) :
  forall off moff rows,
    cursor_rows host fmt settings_ptr bpp fb_stride src mask w n off moff
    = Ok rows ->
    List.length rows = n
    /\ Forall (fun row => List.length row = w /\ Forall opaque_or_clear row) rows.
Proof.
  induction n as [| n IH]; intros off moff rows Hrun.
  - cbn [cursor_rows] in Hrun. injection Hrun as <-.
    split; [reflexivity | constructor].
  - cbn [cursor_rows] in Hrun.
    destruct (cursor_row host fmt settings_ptr bpp src mask w off moff)
      as [[row m1] |] eqn:Hrow; [| discriminate].
    cbn [rbind] in Hrun.
    destruct (cursor_rows host fmt settings_ptr bpp fb_stride src mask w n
                          (off + fb_stride) m1) as [rest |] eqn:Hrest;
      [| discriminate].
    cbn [rbind] in Hrun. injection Hrun as <-.
    destruct (cursor_row_shape w _ _ _ _ Hrow) as (Hl & Hall & _).
    destruct (IH _ _ _ Hrest) as (Hlr & Hshape).
    split.
    + cbn [List.length]. rewrite Hlr. reflexivity.
    + constructor; [split; assumption | exact Hshape].
Qed.

End CursorShape.

(** X7: when the cursor source holds [w * h] pixels and the mask [w * h]
    bytes, the image handed to the shared cursor has exactly [h] rows of
    exactly [w] words, and the alpha byte of every word is 0x00 or 0xFF:
    the translation never produces partial transparency. *)
Theorem cursor_image_shape (host : byte_order) (st : guac_vnc_settings)
    (client : rfbClient) (w h bpp : Z) :
  cursor_buffers_hold client w h bpp ->
  exists rows,
    cursor_image host (Some st) client w h bpp = Ok rows
    /\ List.length rows = Z.to_nat h
    /\ Forall (fun row => List.length row = Z.to_nat w
                          /\ Forall opaque_or_clear row) rows.
Proof.
  intros Hbuf.
  destruct (cursor_image_ok host st client w h bpp Hbuf) as (rows & Hrows).
  exists rows. split; [exact Hrows |].
  unfold cursor_image in Hrows.
  exact (cursor_rows_shape host (format client) (Some st) bpp
           (rcSource client) (rcMask client) _ _ _ _ _ _ Hrows).
Qed.

Lemma cursor_image_shape_witness :
  exists rows,
    cursor_image LittleEndian (Some plain_settings) two_pixel_cursor 2 1 4
    = Ok rows
    /\ List.length rows = Z.to_nat 1
    /\ Forall (fun row => List.length row = Z.to_nat 2
                          /\ Forall opaque_or_clear row) rows.
Proof.
  apply (cursor_image_shape LittleEndian plain_settings two_pixel_cursor 2 1 4).
  unfold cursor_buffers_hold. cbn. lia.
Defined.

(** *** What a sequence of callbacks leaves behind *)

Lemma same_but_flag_refl (s : guac_vnc_client) : same_but_flag s s.
Proof. repeat split. Qed.

Lemma same_but_flag_set (s s' : guac_vnc_client) (flag : Z) :
  same_but_flag s s' -> same_but_flag s (with_copy_rect_used flag s').
Proof. intros H. exact H. Qed.

Lemma invoke_all_app (host : byte_order) (client : rfbClient)
    (cs1 cs2 : list rfb_callback) (s : guac_vnc_client) :
  invoke_all host client (cs1 ++ cs2) s
  = match invoke_all host client cs1 s with
    | Done _ s1 tr1 =>
        match invoke_all host client cs2 s1 with
        | Done u s2 tr2 => Done u s2 (tr1 ++ tr2)
        | Crash => Crash
        end
    | Crash => Crash
    end.
Proof.
  revert s. induction cs1 as [| c cs1 IH]; intros s.
  - cbn [app invoke_all ret].
    destruct (invoke_all host client cs2 s) as [[] s2 tr2 |]; reflexivity.
  - cbn [app invoke_all]. unfold bind.
    destruct (invoke host client c s) as [[] s1 tr1 |]; [| reflexivity].
    rewrite IH.
    destruct (invoke_all host client cs1 s1) as [[] s2 tr2 |]; [| reflexivity].
    destruct (invoke_all host client cs2 s2) as [[] s3 tr3 |]; [| reflexivity].
    rewrite app_assoc. reflexivity.
Qed.

Lemma invoke_all_frame (host : byte_order) (client : rfbClient)
    (st : guac_vnc_settings) (d : guac_common_display)
    (cs : list rfb_callback) :
  forall s,
    ready st d s ->
    Forall (callback_in_bounds client) cs ->
    exists s' tr,
      invoke_all host client cs s = Done tt s' tr
      /\ ready st d s' /\ same_but_flag s s'.
Proof.
  induction cs as [| c cs IH]; intros s Hready Hall.
  - exists s, []. repeat split; apply Hready.
  - inversion Hall as [| c' cs' Hc Hcs]; subst.
    cbn [invoke_all]. unfold bind at 1.
    destruct c as [x y w h | sx sy w h dx dy | x y w h bpp]; cbn [invoke].
    + destruct (Z.eqb_spec (copy_rect_used s) 0) as [H0 | Hn0].
      * destruct (update_without_copyrect_draws host client st d s x y w h
                    Hready H0 Hc) as (img & _ & ->).
        destruct (IH s Hready Hcs) as (s' & tr & -> & Hr & Hsame).
        eexists _, _. split; [reflexivity | split; assumption].
      * rewrite (update_after_copyrect_is_dropped host client s x y w h Hn0).
        destruct (IH (with_copy_rect_used 0 s)) as (s' & tr & -> & Hr & Hsame);
          [split; apply Hready | exact Hcs |].
        eexists _, _. split; [reflexivity | split; assumption].
    + rewrite (copyrect_sets_flag client st d s sx sy w h dx dy Hready).
      destruct (IH (with_copy_rect_used 1 s)) as (s' & tr & -> & Hr & Hsame);
        [split; apply Hready | exact Hcs |].
      eexists _, _. split; [reflexivity | split; assumption].
    + destruct (cursor_keeps_session host client st d s x y w h bpp Hready Hc)
        as (img & ->).
      destruct (IH s Hready Hcs) as (s' & tr & -> & Hr & Hsame).
      eexists _, _. split; [reflexivity | split; assumption].
Qed.

(** X8: with settings and display in place and every callback in bounds,
    a sequence of update, CopyRect and cursor callbacks always returns and
    changes nothing of the session data but the [copy_rect_used] flag; the
    flag ends set when the sequence ends with a CopyRect and clear when it
    ends with an update. *)
Theorem callbacks_change_only_the_flag (host : byte_order)
    (client : rfbClient) (st : guac_vnc_settings) (d : guac_common_display)
    (cs : list rfb_callback) (s : guac_vnc_client) :
  ready st d s ->
  Forall (callback_in_bounds client) cs ->
  exists s' tr,
    invoke_all host client cs s = Done tt s' tr
    /\ same_but_flag s s'
    /\ (forall cs0 sx sy w h dx dy,
           cs = cs0 ++ [GotCopyRect_call sx sy w h dx dy] ->
           copy_rect_used s' = 1)
    /\ (forall cs0 x y w h,
           cs = cs0 ++ [GotFrameBufferUpdate_call x y w h] ->
           copy_rect_used s' = 0).
Proof.
  intros Hready Hall.
  destruct (invoke_all_frame host client st d cs s Hready Hall)
    as (s' & tr & Hrun & _ & Hsame).
  exists s', tr. split; [exact Hrun | split; [exact Hsame | split]].
  - intros cs0 sx sy w h dx dy ->.
    apply Forall_app in Hall. destruct Hall as [Hall0 _].
    destruct (invoke_all_frame host client st d cs0 s Hready Hall0)
      as (s0 & tr0 & Hrun0 & Hready0 & _).
    rewrite invoke_all_app, Hrun0 in Hrun.
    cbn [invoke_all invoke] in Hrun. unfold bind, ret in Hrun.
    rewrite (copyrect_sets_flag client st d s0 sx sy w h dx dy Hready0) in Hrun.
    injection Hrun as <- _. reflexivity.
  - intros cs0 x y w h ->.
    apply Forall_app in Hall. destruct Hall as [Hall0 Hlast].
    inversion Hlast as [| c cs' Hc _]; subst.
    destruct (invoke_all_frame host client st d cs0 s Hready Hall0)
      as (s0 & tr0 & Hrun0 & Hready0 & _).
    rewrite invoke_all_app, Hrun0 in Hrun.
    cbn [invoke_all invoke] in Hrun. unfold bind, ret in Hrun.
    destruct (Z.eqb_spec (copy_rect_used s0) 0) as [H0 | Hn0].
    + destruct (update_without_copyrect_draws host client st d s0 x y w h
                  Hready0 H0 Hc) as (img & _ & Hupd).
      rewrite Hupd in Hrun. injection Hrun as <- _. exact H0.
    + rewrite (update_after_copyrect_is_dropped host client s0 x y w h Hn0)
        in Hrun.
      injection Hrun as <- _. reflexivity.
Qed.

Lemma callbacks_change_only_the_flag_witness :
  let cs := [GotFrameBufferUpdate_call 0 0 2 1; GotCopyRect_call 0 0 1 1 1 0] in
  exists s' tr,
    invoke_all LittleEndian (two_pixel_client blank_client) cs running_session
    = Done tt s' tr
    /\ same_but_flag running_session s'
    /\ (forall cs0 sx sy w h dx dy,
           cs = cs0 ++ [GotCopyRect_call sx sy w h dx dy] ->
           copy_rect_used s' = 1)
    /\ (forall cs0 x y w h,
           cs = cs0 ++ [GotFrameBufferUpdate_call x y w h] ->
           copy_rect_used s' = 0).
Proof.
  cbv zeta.
  apply (callbacks_change_only_the_flag LittleEndian
           (two_pixel_client blank_client) plain_settings plain_display).
  - split; reflexivity.
  - repeat constructor; cbn; lia.
Defined.

(** *** The handle returned by [guac_vnc_get_client] *)

Section GetClientMore.

Variable fresh : rfbClient.
Variable listen : rfbClient -> Z -> Z.
Variable init : rfbClient -> bool.
Variables repeater listening : bool.


(** X10: when the handle is not returned. If [rfbInitClient] refuses, the
    result is NULL; if the build listens for reverse connections, the
    settings ask for one and no server connects in time, the result is NULL
    whatever [rfbInitClient] would have answered; and if [rfbInitClient]
    accepts and, where listening applies, a server has connected, a handle
    is returned. The function itself fails in no case. *)
Theorem get_client_fails_with_null (client_id : nat)
    (st : guac_vnc_settings) (s : guac_vnc_client) :
  let run := guac_vnc_get_client fresh listen init repeater listening client_id
                                 (with_settings (Some st) s) in
  ((forall c, init c = false) -> exists s' tr, run = Done None s' tr)
  /\ (listening = true -> reverse_connect st = true ->
      (forall c t, listen c t <= 0) ->
      exists s', run = Done None s'
                         [LogInfo "Listening for connections on port %i"])
  /\ ((forall c, init c = true) ->
      (listening && reverse_connect st = false \/ forall c t, 0 < listen c t) ->
      exists rc s' tr, run = Done (Some rc) s' tr).
Proof.
  cbv zeta. split; [| split].
  - intros Hinit.
    run_get_client st repeater listening; cbn;
      try (eexists _, _; reflexivity);
      match goal with
      | H : init ?c = true |- _ => rewrite Hinit in H; discriminate H
      end.
  - intros -> Hrev Hlisten.
    unfold guac_vnc_get_client, bind, get, lift, modify, emit, ret.
    cbn [settings with_settings deref]. rewrite Hrev. cbn [andb].
    destruct repeater; destruct (dest_host st);
      match goal with
      | |- context [listen ?c ?t <=? 0] =>
          destruct (Z.leb_spec (listen c t) 0) as [_ | Hgt];
            [| specialize (Hlisten c t); lia]
      end;
      cbn; eexists; reflexivity.
  - intros Hinit Hl.
    unfold guac_vnc_get_client, bind, get, lift, modify, emit, ret.
    cbn [settings with_settings deref].
    destruct (listening && reverse_connect st) eqn:Hboth; cbn [andb].
    + destruct Hl as [Hoff | Hconn]; [discriminate Hoff |].
      destruct repeater; destruct (dest_host st); destruct (encodings st);
        match goal with
        | |- context [listen ?c ?t <=? 0] =>
            destruct (Z.leb_spec (listen c t) 0) as [Hle | _];
              [specialize (Hconn c t); lia |]
        end;
        rewrite Hinit; cbn; eexists _, _, _; reflexivity.
    + destruct repeater; destruct (dest_host st); destruct (encodings st);
        rewrite Hinit; cbn; eexists _, _, _; reflexivity.
Qed.

End GetClientMore.

Lemma get_client_fails_with_null_witness :
  exists s' tr,
    guac_vnc_get_client blank_client (fun _ _ => 1) (fun _ => false)
      true true 0%nat (with_settings (Some plain_settings) running_session)
    = Done None s' tr.
Proof.
  apply (proj1 (get_client_fails_with_null blank_client (fun _ _ => 1)
                  (fun _ => false) true true 0%nat plain_settings
                  running_session)).
  reflexivity.
Defined.

(** *** The frame loop *)

Section FrameLoopMore.

Variables frame_duration frame_timeout : Z.

Lemma required_wait_exact (processing_lag last_frame_end frame_end : Z) :
  - 2 ^ 31 <= frame_end - last_frame_end < 2 ^ 31 ->
  - 2 ^ 31 <= processing_lag - (frame_end - last_frame_end) < 2 ^ 31 ->
  required_wait_of processing_lag last_frame_end frame_end
  = processing_lag - (frame_end - last_frame_end).
Proof.
  intros He Hr. unfold required_wait_of.
  rewrite (s32_small (frame_end - last_frame_end)) by exact He.
  apply s32_small. exact Hr.
Qed.

(** X11: a pass without lag. When the message was handled and the client
    needs no catching up ([required_wait <= GUAC_VNC_FRAME_TIMEOUT]), the
    frame ends as soon as its duration has passed: the loop handles that
    one message, waits for nothing, ignores what the surroundings would
    answer next and keeps [wait_result]. Before that point the pass asks
    for the short wait of [GUAC_VNC_FRAME_TIMEOUT] milliseconds. *)
Theorem frame_ends_when_time_is_up (processing_lag frame_start last_frame_end : Z)
    (p : pass) (rest : list pass) (wait_result : Z) :
  let required_wait := processing_lag - (clock p - last_frame_end) in
  let frame_remaining := frame_start + frame_duration - clock p in
  handled p = true ->
  - 2 ^ 31 <= clock p - last_frame_end < 2 ^ 31 ->
  - 2 ^ 31 <= required_wait < 2 ^ 31 ->
  - 2 ^ 31 <= frame_remaining < 2 ^ 31 ->
  required_wait <= frame_timeout ->
  (frame_remaining <= 0 ->
   frame_loop frame_duration frame_timeout processing_lag frame_start
              last_frame_end wait_result (p :: rest)
   = (wait_result, [HandleRFBServerMessage]))
  /\ (0 < frame_remaining ->
      fst (frame_pass frame_duration frame_timeout processing_lag frame_start
                      last_frame_end p)
      = Waited (s32 (frame_timeout * 1000))
               (if buffered_in p =? 0 then wait_answer p else 1)).
Proof.
  cbv zeta. intros Hh He Hr Hf Hle.
  pose proof (required_wait_exact processing_lag last_frame_end (clock p) He Hr)
    as Hrw.
  split; intros Hrem.
  - cbn [frame_loop]. unfold frame_pass. rewrite Hh, Hrw. cbn [negb].
    rewrite (s32_small _ Hf).
    destruct (Z.gtb_spec (processing_lag - (clock p - last_frame_end))
                         frame_timeout) as [Hgt | _]; [lia |].
    destruct (Z.gtb_spec (frame_start + frame_duration - clock p) 0)
      as [Hgt | _]; [lia |].
    reflexivity.
  - unfold frame_pass. rewrite Hh, Hrw. cbn [negb].
    rewrite (s32_small _ Hf).
    destruct (Z.gtb_spec (processing_lag - (clock p - last_frame_end))
                         frame_timeout) as [Hgt | _]; [lia |].
    destruct (Z.gtb_spec (frame_start + frame_duration - clock p) 0)
      as [_ | Hle0]; [| lia].
    unfold guac_vnc_wait_for_messages.
    destruct (buffered_in p =? 0); reflexivity.
Qed.



Lemma frame_pass_trace (processing_lag frame_start last_frame_end : Z) (p : pass) :
  exists tail,
    snd (frame_pass frame_duration frame_timeout processing_lag frame_start
                    last_frame_end p)
    = HandleRFBServerMessage :: tail
    /\ count_calls is_handle tail = O
    /\ (count_calls is_wait tail <= 1)%nat
    /\ (buffered_in p <> 0 -> count_calls is_wait tail = O).
Proof.
  unfold frame_pass, guac_vnc_wait_for_messages.
  destruct (handled p); cbn [negb].
  - destruct (_ >? frame_timeout).
    + destruct (Z.eqb_spec (buffered_in p) 0) as [E | N]; cbn [negb snd];
        eexists; (split; [reflexivity |]); cbn; repeat split; try lia;
        intros; contradiction.
    + destruct (_ >? 0).
      * destruct (Z.eqb_spec (buffered_in p) 0) as [E | N]; cbn [negb snd];
          eexists; (split; [reflexivity |]); cbn; repeat split; try lia;
          intros; contradiction.
      * eexists. split; [reflexivity |]. cbn. repeat split; lia.
  - eexists. split; [reflexivity |]. cbn. repeat split; lia.
Qed.

Lemma count_calls_app (f : event -> bool) (tr1 tr2 : list event) :
  count_calls f (tr1 ++ tr2) = (count_calls f tr1 + count_calls f tr2)%nat.
Proof.
  unfold count_calls. rewrite filter_app, List.length_app. reflexivity.
Qed.

Lemma frame_loop_counts (processing_lag frame_start last_frame_end : Z)
    (passes : list pass) :
  forall wait_result,
    let tr := snd (frame_loop frame_duration frame_timeout processing_lag
                              frame_start last_frame_end wait_result passes) in
    (count_calls is_wait tr <= count_calls is_handle tr)%nat
    /\ (count_calls is_handle tr <= List.length passes)%nat
    /\ (passes <> [] -> exists tail, tr = HandleRFBServerMessage :: tail)
    /\ (Forall (fun p => buffered_in p <> 0) passes ->
        count_calls is_wait tr = O).
Proof.
  induction passes as [| p rest IH]; intros wait_result; cbv zeta.
  - cbn. repeat split; try lia. intros H. contradiction.
  - cbn [frame_loop].
    destruct (frame_pass_trace processing_lag frame_start last_frame_end p)
      as (tail & Htr & Hh & Hw & Hb).
    destruct (frame_pass frame_duration frame_timeout processing_lag
                         frame_start last_frame_end p) as [e tr] eqn:Hpass.
    cbn [snd] in Htr. subst tr.
    assert (Hone : forall tl,
               count_calls is_handle (HandleRFBServerMessage :: tl)
               = S (count_calls is_handle tl)) by reflexivity.
    assert (Hskip : forall tl,
               count_calls is_wait (HandleRFBServerMessage :: tl)
               = count_calls is_wait tl) by reflexivity.
    destruct e as [| t r |].
    + cbn [snd List.length]. rewrite Hone, Hskip, Hh.
      repeat split; try lia.
      * intros _. eexists. reflexivity.
      * intros Hall. inversion Hall; subst. auto.
    + destruct (r >? 0).
      * specialize (IH r). cbv zeta in IH.
        destruct (frame_loop frame_duration frame_timeout processing_lag
                             frame_start last_frame_end r rest) as [r' tr'].
        cbn [snd] in *. destruct IH as (IHw & IHh & _ & IHb).
        change ((HandleRFBServerMessage :: tail) ++ tr')
          with (HandleRFBServerMessage :: (tail ++ tr')).
        rewrite Hone, Hskip, !count_calls_app, Hh. cbn [List.length].
        repeat split; try lia.
        -- intros _. eexists. reflexivity.
        -- intros Hall. inversion Hall; subst.
           rewrite Hb, IHb by assumption. reflexivity.
      * cbn [snd List.length]. rewrite Hone, Hskip, Hh.
        repeat split; try lia.
        -- intros _. eexists. reflexivity.
        -- intros Hall. inversion Hall; subst. auto.
    + cbn [snd List.length]. rewrite Hone, Hskip, Hh.
      repeat split; try lia.
      * intros _. eexists. reflexivity.
      * intros Hall. inversion Hall; subst. auto.
Qed.

(** X13: the discipline of the frame loop, whatever the surroundings
    answer. A frame begins by handling a server message; it never waits
    more often than it has handled messages, and never handles more
    messages than the surroundings gave it passes; and as long as the
    library reports buffered data the loop makes no call to
    [WaitForMessage] at all. *)
Theorem frame_loop_handles_before_it_waits
    (processing_lag frame_start last_frame_end wait_result : Z)
    (passes : list pass) :
  let tr := snd (frame_loop frame_duration frame_timeout processing_lag
                            frame_start last_frame_end wait_result passes) in
  (count_calls is_wait tr <= count_calls is_handle tr)%nat
  /\ (count_calls is_handle tr <= List.length passes)%nat
  /\ (passes <> [] -> exists tail, tr = HandleRFBServerMessage :: tail)
  /\ (Forall (fun p => buffered_in p <> 0) passes ->
      count_calls is_wait tr = O).
Proof.
  apply frame_loop_counts.
Qed.

End FrameLoopMore.

Lemma frame_ends_when_time_is_up_witness :
  frame_loop 40 0 0 1000 990 1 [mkPass true 1040 0 1; mkPass true 1041 0 1]
  = (1, [HandleRFBServerMessage]).
Proof.
  apply (proj1 (frame_ends_when_time_is_up 40 0 0 1000 990
                  (mkPass true 1040 0 1) [mkPass true 1041 0 1] 1
                  eq_refl ltac:(cbn; lia) ltac:(cbn; lia) ltac:(cbn; lia)
                  ltac:(cbn; lia))).
  cbn. lia.
Defined.

(** *** Viewers joining, continued *)

Section JoinMore.

Variable parse : guac_user -> list string -> option guac_vnc_settings.
Variable thread_create : guac_vnc_client -> Z.

(** X14: the join handler never crashes and returns 0 or 1. With
    arguments that do not parse it returns 1 after one log line and changes
    neither the viewer nor the session. Otherwise the viewer's data is the
    parsed settings, and the viewer receives the three input handlers
    exactly when the join returns 0 and the settings are not read-only; a
    read-only viewer, or an owner whose thread could not be started, keeps
    the handlers it had. *)
Theorem join_installs_handlers_unless_read_only (user : guac_user)
    (argv : list string) (s : guac_vnc_client) :
  exists r user' s' tr,
    guac_vnc_user_join_handler parse thread_create user argv s
    = Done (r, user') s' tr
    /\ (r = 0 \/ r = 1)
    /\ match parse user argv with
       | None =>
           r = 1 /\ user' = user /\ s' = s
           /\ tr = [LogInfo "Badly formatted client arguments."]
       | Some st =>
           data user' = Some st
           /\ user_ident user' = user_ident user /\ owner user' = owner user
           /\ socket user' = socket user
           /\ handlers_of user'
              = (if (r =? 0) && negb (read_only st) then all_handlers
                 else handlers_of user)
       end.
Proof.
  unfold guac_vnc_user_join_handler, bind, get, emit, modify, ret.
  destruct (parse user argv) as [st |].
  - cbn [owner with_data].
    destruct (owner user) eqn:Hown.
    + destruct (Z.eqb_spec (thread_create s) 0) as [E | N]; cbn [negb];
        destruct (read_only st); cbn;
        eexists _, _, _, _; (split; [reflexivity |]);
        cbn; repeat split; first [reflexivity | assumption | auto].
    + destruct (display s); destruct (read_only st); cbn;
        eexists _, _, _, _; (split; [reflexivity |]);
        cbn; repeat split; first [reflexivity | assumption | auto].
  - eexists _, _, _, _. split; [reflexivity |]. repeat split; first [reflexivity | assumption | auto].
Qed.

(** X15: who starts the session. With arguments that parse, an owner's
    join stores the settings in the session data and makes exactly one call
    to [pthread_create] and no display replay and no socket flush; when
    the thread cannot be created it logs the error and returns 1, with the
    settings still stored. A guest's join starts no thread and leaves the
    session data exactly as it was. *)
Theorem only_owner_starts_session (user : guac_user) (argv : list string)
    (st : guac_vnc_settings) (s : guac_vnc_client) :
  parse user argv = Some st ->
  exists r user' s' tr,
    guac_vnc_user_join_handler parse thread_create user argv s
    = Done (r, user') s' tr
    /\ if owner user then
         settings s' = Some st
         /\ display s' = display s /\ rfb_client s' = rfb_client s
         /\ copy_rect_used s' = copy_rect_used s
         /\ (if thread_create s =? 0 then r = 0 /\ tr = [PthreadCreate]
             else r = 1
                  /\ tr = [PthreadCreate;
                           LogError "Unable to start VNC client thread."])
       else
         s' = s /\ r = 0 /\ ~ In PthreadCreate tr.
Proof.
  intros Hparse.
  unfold guac_vnc_user_join_handler, bind, get, emit, modify, ret.
  rewrite Hparse. cbn [owner with_data].
  destruct (owner user).
  - destruct (Z.eqb_spec (thread_create s) 0) as [E | N]; cbn [negb];
      eexists _, _, _, _; (split; [reflexivity |]);
      cbn; repeat split; reflexivity.
  - destruct (display s); eexists _, _, _, _; (split; [reflexivity |]);
      cbn; repeat split; try reflexivity;
      intros H; repeat (destruct H as [H | H]; [discriminate H |]);
      exact H.
Qed.

End JoinMore.

Lemma only_owner_starts_session_witness :
  let s := with_settings None running_session in
  exists r user' s' tr,
    guac_vnc_user_join_handler (fun _ _ => Some plain_settings) (fun _ => 11)
      (mkUser 1%nat true 2%nat None None None None) [] s
    = Done (r, user') s' tr
    /\ settings s' = Some plain_settings
    /\ display s' = display s /\ rfb_client s' = rfb_client s
    /\ copy_rect_used s' = copy_rect_used s
    /\ r = 1
    /\ tr = [PthreadCreate; LogError "Unable to start VNC client thread."].
Proof.
  exact (only_owner_starts_session (fun _ _ => Some plain_settings)
           (fun _ => 11) (mkUser 1%nat true 2%nat None None None None) []
           plain_settings (with_settings None running_session) eq_refl).
Defined.

(** *** Input once the connection is established *)

(** X16: once the upstream handle exists, a key event is forwarded as one
    RFB key event with the same keysym and pressed flag, and the session
    data is untouched, whatever the display pointer is; a mouse event, the
    display existing, is recorded in the shared cursor and then forwarded
    as one RFB pointer event with the same position and button mask. Both
    handlers return 0. *)
Theorem input_after_connect (user : guac_user) (s : guac_vnc_client)
    (rc : rfbClient) (x y mask keysym pressed : Z) :
  rfb_client s = Some rc ->
  guac_vnc_user_key_handler user keysym pressed s
  = Done 0 s [SendKeyEvent keysym pressed]
  /\ match display s with
     | Some d =>
         guac_vnc_user_mouse_handler user x y mask s
         = Done 0 (with_display
                     (Some (with_cursor
                              (guac_common_cursor_update
                                 (cursor d) (user_ident user) x y mask) d))
                     s)
                [SendPointerEvent x y mask]
     | None => guac_vnc_user_mouse_handler user x y mask s = Crash
     end.
Proof.
  intros Hrfb.
  unfold guac_vnc_user_key_handler, guac_vnc_user_mouse_handler,
    bind, get, lift, modify, emit, ret.
  rewrite Hrfb. destruct (display s); cbn; split; reflexivity.
Qed.

Lemma input_after_connect_witness :
  guac_vnc_user_key_handler (mkUser 7%nat false 3%nat None None None None)
                            65 1 running_session
  = Done 0 running_session [SendKeyEvent 65 1].
Proof.
  apply (proj1 (input_after_connect
                  (mkUser 7%nat false 3%nat None None None None)
                  running_session blank_client 0 0 0 65 1 eq_refl)).
Defined.

(** *** The session thread: connecting *)

Lemma configure_callbacks_keeps (st : guac_vnc_settings) (client_id : nat)
    (fresh : rfbClient) :
  MallocFrameBuffer (configure_callbacks st client_id fresh)
  = MallocFrameBuffer fresh
  /\ width (configure_callbacks st client_id fresh) = width fresh
  /\ height (configure_callbacks st client_id fresh) = height fresh.
Proof.
  unfold configure_callbacks.
  destruct (read_only st), (remote_cursor st); repeat split; reflexivity.
Qed.

Lemma get_client_outcome (fresh : rfbClient) (listen : rfbClient -> Z -> Z)
    (init : rfbClient -> bool) (repeater listening : bool) (client_id : nat)
    (st : guac_vnc_settings) (s : guac_vnc_client) :
  settings s = Some st ->
  exists res tr,
    guac_vnc_get_client fresh listen init repeater listening client_id s
    = Done res (with_rfb_MallocFrameBuffer (MallocFrameBuffer fresh) s) tr
    /\ Forall connecting_call (map Core tr)
    /\ sleeps (map Core tr) = []
    /\ ((forall c, init c = false) -> res = None)
    /\ ((forall c, init c = true) -> listening && reverse_connect st = false ->
        exists rc, res = Some rc /\ width rc = width fresh
                   /\ height rc = height fresh).
Proof.
  intros Hst.
  unfold guac_vnc_get_client, bind, get, lift, modify, emit, ret.
  rewrite Hst. cbn [deref].
  destruct (configure_callbacks_keeps st client_id fresh) as (Hm & Hw & Hh).
  rewrite Hm.
  destruct (listening && reverse_connect st); cbn [andb];
    destruct repeater; destruct (dest_host st); destruct (encodings st);
    repeat match goal with
           | |- context [if ?b then _ else _] => destruct b eqn:?
           end;
    cbn; eexists _, _; (split; [reflexivity |]);
    cbn [map]; (split; [repeat (constructor; cbn [connecting_call]) |]);
    (split; [reflexivity |]);
    (split;
     [ intros Hinit;
       try reflexivity;
       match goal with
       | H : init ?c = true |- _ => rewrite Hinit in H; discriminate H
       end
     | intros Hinit Hoff;
       try discriminate Hoff;
       try (eexists; split; [reflexivity | split; [exact Hw | exact Hh]]);
       match goal with
       | H : init ?c = false |- _ => rewrite Hinit in H; discriminate H
       end ]).
Qed.

Lemma same_but_hook_refl (s : guac_vnc_client) : same_but_hook s s.
Proof. repeat split. Qed.

Lemma same_but_hook_trans (s1 s2 s3 : guac_vnc_client) :
  same_but_hook s1 s2 -> same_but_hook s2 s3 -> same_but_hook s1 s3.
Proof.
  unfold same_but_hook.
  intros (A1 & A2 & A3 & A4 & A5 & A6 & A7) (B1 & B2 & B3 & B4 & B5 & B6 & B7).
  repeat split; congruence.
Qed.

Lemma sleeps_app (tr1 tr2 : list thread_call) :
  sleeps (tr1 ++ tr2) = sleeps tr1 ++ sleeps tr2.
Proof. unfold sleeps. apply filter_app. Qed.

Section ConnectFacts.

Variable interval : Z.
Variables repeater listening : bool.
Variable cid : nat.
Variable lib : nat -> library_answer.
Variable st : guac_vnc_settings.

Lemma connect_attempt_fails (k : nat) (s : guac_vnc_client) :
  settings s = Some st ->
  (forall c, init_answer (lib k) c = false) ->
  exists s' tr,
    connect_attempt repeater listening cid lib k s = Finished None s' tr
    /\ same_but_hook s s'
    /\ Forall connecting_call tr /\ sleeps tr = [].
Proof.
  intros Hst Hfail. unfold connect_attempt, core.
  destruct (get_client_outcome (fresh_handle (lib k)) (listen_answer (lib k))
              (init_answer (lib k)) repeater listening cid st s Hst)
    as (res & tr & -> & Hconn & Hsl & Hnone & _).
  rewrite (Hnone Hfail).
  eexists _, _. split; [reflexivity |].
  repeat split; assumption.
Qed.


Lemma retry_connect_all_fail (n : nat) :
  forall k s,
    settings s = Some st ->
    (forall i c, init_answer (lib i) c = false) ->
    exists s' tr,
      retry_connect interval repeater listening cid lib k n s
      = Finished None s' tr
      /\ same_but_hook s s'
      /\ Forall connecting_call tr
      /\ sleeps tr = repeat (Msleep interval) n.
Proof.
  induction n as [| n IH]; intros k s Hst Hfail.
  - exists s, []. repeat split. constructor.
  - cbn [retry_connect]. unfold tbind, tcall.
    destruct (connect_attempt_fails k s Hst (Hfail k))
      as (s1 & tr1 & -> & Hsame1 & Hconn1 & Hsl1).
    destruct (IH (S k) s1) as (s2 & tr2 & -> & Hsame2 & Hconn2 & Hsl2);
      [destruct Hsame1 as (E & _); congruence | exact Hfail |].
    eexists _, _. split; [reflexivity |].
    split; [exact (same_but_hook_trans _ _ _ Hsame1 Hsame2) |].
    split.
    + cbn [app]. constructor; [exact I |]. constructor; [exact I |].
      apply Forall_app. split; assumption.
    + cbn [app sleeps filter is_msleep]. fold (sleeps (tr1 ++ tr2)).
      rewrite sleeps_app, Hsl1, Hsl2. reflexivity.
Qed.


Lemma connect_with_retries_all_fail (retries : Z) (s : guac_vnc_client) :
  settings s = Some st ->
  (forall i c, init_answer (lib i) c = false) ->
  exists s' tr,
    connect_with_retries interval repeater listening cid lib retries s
    = Finished None s' tr
    /\ same_but_hook s s'
    /\ Forall connecting_call tr
    /\ sleeps tr = repeat (Msleep interval) (Z.to_nat retries).
Proof.
  intros Hst Hfail. unfold connect_with_retries, tbind.
  destruct (connect_attempt_fails O s Hst (Hfail O))
    as (s1 & tr1 & -> & Hsame1 & Hconn1 & Hsl1).
  destruct (retry_connect_all_fail (Z.to_nat retries) 1%nat s1)
    as (s2 & tr2 & -> & Hsame2 & Hconn2 & Hsl2);
    [destruct Hsame1 as (E & _); congruence | exact Hfail |].
  eexists _, _. split; [reflexivity |].
  split; [exact (same_but_hook_trans _ _ _ Hsame1 Hsame2) |].
  split; [apply Forall_app; split; assumption |].
  rewrite sleeps_app, Hsl1, Hsl2. reflexivity.
Qed.


End ConnectFacts.

(** *** The session thread: frames *)

Section IterationFacts.

Variables start_timeout duration timeout : Z.
Variable sock : socket_id.

(** X12: one pass through the outer loop, the display being allocated.
    Every pass closes a frame: its last three calls are the surface flush,
    the end of frame and the socket flush, also after a timeout or an
    error. When nothing is buffered and the wait for the start of a frame
    times out, no server message is handled, the session data is as it was
    and [last_frame_end] stays; when that wait fails, the same holds and
    the only other call is the abort with "Connection closed."; and
    whenever the frame is entered, [last_frame_end] becomes the clock at
    the start of the frame, not the clock at its end, and a server message
    is handled before the frame is closed. Nothing is said of the session
    data after a frame that was entered: the callbacks that the library
    runs while a server message is handled write to it. *)
Theorem session_iteration_closes_frame (last_frame_end : Z) (f : frame_env)
    (s : guac_vnc_client) (d : guac_common_display) :
  display s = Some d ->
  exists last_frame_end' s' pre,
    session_iteration start_timeout duration timeout sock last_frame_end f s
    = Finished last_frame_end' s' (pre ++ frame_closing d sock)
    /\ (start_buffered f = 0 -> start_answer f = 0 ->
        last_frame_end' = last_frame_end /\ s' = s
        /\ pre = [Core (WaitForMessage start_timeout)])
    /\ (start_buffered f = 0 -> start_answer f < 0 ->
        last_frame_end' = last_frame_end /\ s' = s
        /\ pre = [Core (WaitForMessage start_timeout);
                  Abort GUAC_PROTOCOL_STATUS_UPSTREAM_ERROR "Connection closed."])
    /\ (start_buffered f <> 0 \/ 0 < start_answer f ->
        last_frame_end' = start_clock f
        /\ (passes f <> [] -> In (Core HandleRFBServerMessage) pre)).
Proof.
  intros Hd.
  assert (Hhandle : forall wr,
             passes f <> [] ->
             In (Core HandleRFBServerMessage)
                (map Core (snd (frame_loop duration timeout (lag f)
                                  (start_clock f) last_frame_end wr
                                  (passes f))))).
  { intros wr Hne.
    destruct (frame_loop_counts duration timeout (lag f) (start_clock f)
                last_frame_end (passes f) wr) as (_ & _ & Hfirst & _).
    destruct (Hfirst Hne) as (tail & ->). left. reflexivity. }
  unfold session_iteration, tbind, tget, tcalls, tcall, tlift, tret,
    guac_vnc_wait_for_messages.
  rewrite Hd. cbn [deref].
  destruct (Z.eqb_spec (start_buffered f) 0) as [Hb | Hb]; cbn [negb].
  - destruct (Z.gtb_spec (start_answer f) 0) as [Hpos | Hnpos].
    + specialize (Hhandle (start_answer f)).
      destruct (frame_loop duration timeout (lag f) (start_clock f)
                           last_frame_end (start_answer f) (passes f))
        as [r tr].
      cbn [fst snd] in *. destruct (r <? 0); cbn [app map].
      * exists (start_clock f), s,
          (Core (WaitForMessage start_timeout) :: map Core tr
           ++ [Abort GUAC_PROTOCOL_STATUS_UPSTREAM_ERROR "Connection closed."]).
        split; [unfold frame_closing; rewrite app_nil_r; cbn [app];
                rewrite <- app_assoc; reflexivity |].
        split; [intros; lia |]. split; [intros; lia |].
        intros _. split; [reflexivity |].
        intros Hne. right. apply in_or_app. left. exact (Hhandle Hne).
      * exists (start_clock f), s,
          (Core (WaitForMessage start_timeout) :: map Core tr).
        split; [unfold frame_closing; rewrite app_nil_r; reflexivity |].
        split; [intros; lia |]. split; [intros; lia |].
        intros _. split; [reflexivity |].
        intros Hne. right. exact (Hhandle Hne).
    + cbn [fst snd].
      destruct (Z.ltb_spec (start_answer f) 0) as [Hneg | Hzero]; cbn [app map].
      * exists last_frame_end, s,
          [Core (WaitForMessage start_timeout);
           Abort GUAC_PROTOCOL_STATUS_UPSTREAM_ERROR "Connection closed."].
        split; [reflexivity |].
        split; [intros; lia |].
        split; [intros; repeat split; reflexivity |].
        intros [Hc | Hc]; [contradiction | lia].
      * exists last_frame_end, s, [Core (WaitForMessage start_timeout)].
        split; [reflexivity |].
        split; [intros; repeat split; reflexivity |].
        split; [intros; lia |].
        intros [Hc | Hc]; [contradiction | lia].
  - destruct (Z.gtb_spec 1 0) as [_ | Habs]; [| lia].
    specialize (Hhandle 1).
    destruct (frame_loop duration timeout (lag f) (start_clock f)
                         last_frame_end 1 (passes f)) as [r tr].
    cbn [fst snd] in *. destruct (r <? 0); cbn [app map].
    + exists (start_clock f), s,
        (map Core tr
         ++ [Abort GUAC_PROTOCOL_STATUS_UPSTREAM_ERROR "Connection closed."]).
      split; [unfold frame_closing; rewrite app_nil_r;
              rewrite <- app_assoc; reflexivity |].
      split; [intros; contradiction |]. split; [intros; contradiction |].
      intros _. split; [reflexivity |].
      intros Hne. apply in_or_app. left. exact (Hhandle Hne).
    + exists (start_clock f), s, (map Core tr).
      split; [unfold frame_closing; rewrite app_nil_r; reflexivity |].
      split; [intros; contradiction |]. split; [intros; contradiction |].
      intros _. split; [reflexivity |].
      exact Hhandle.
Qed.

End IterationFacts.

Lemma session_iteration_closes_frame_witness :
  let f := mkFrame 0 1 0 2000 [mkPass true 2050 0 0] in
  exists last_frame_end' s' pre,
    session_iteration 1000000 40 0 5%nat 990 f running_session
    = Finished last_frame_end' s' (pre ++ frame_closing plain_display 5%nat)
    /\ (start_buffered f = 0 -> start_answer f = 0 ->
        last_frame_end' = 990 /\ s' = running_session
        /\ pre = [Core (WaitForMessage 1000000)])
    /\ (start_buffered f = 0 -> start_answer f < 0 ->
        last_frame_end' = 990 /\ s' = running_session
        /\ pre = [Core (WaitForMessage 1000000);
                  Abort GUAC_PROTOCOL_STATUS_UPSTREAM_ERROR "Connection closed."])
    /\ (start_buffered f <> 0 \/ 0 < start_answer f ->
        last_frame_end' = start_clock f
        /\ (passes f <> [] -> In (Core HandleRFBServerMessage) pre)).
Proof.
  exact (session_iteration_closes_frame 1000000 40 0 5%nat 990
           (mkFrame 0 1 0 2000 [mkPass true 2050 0 0]) running_session
           plain_display eq_refl).
Defined.

Section FrameErrors.

Variables start_timeout duration timeout : Z.
Variable sock : socket_id.


End FrameErrors.


(** *** The session thread as a whole *)

Lemma sleeps_core (tr : list event) : sleeps (map Core tr) = [].
Proof. induction tr as [| e tr IH]; [reflexivity | exact IH]. Qed.



Lemma set_clipboard_encoding_run (name : option string) (s : guac_vnc_client) :
  exists r rd wr tr,
    guac_vnc_set_clipboard_encoding name s
    = Done r (with_clipboard_writer (Some wr)
                (with_clipboard_reader (Some rd) s)) tr
    /\ Forall connecting_call (map Core tr).
Proof.
  unfold guac_vnc_set_clipboard_encoding.
  destruct name as [n |];
    [ destruct (String.eqb n "ISO8859-1");
      [| destruct (String.eqb n "UTF-8");
         [| destruct (String.eqb n "UTF-16");
            [| destruct (String.eqb n "CP1252")]]] |];
    do 4 eexists; (split; [reflexivity |]);
    cbn [map]; repeat (constructor; cbn [connecting_call]).
Qed.

Section LoopFacts.

Variables start_timeout duration timeout : Z.
Variable sock : socket_id.



End LoopFacts.

Section ThreadFacts.

Variables interval start_timeout duration timeout : Z.
Variables repeater listening : bool.
Variable sock : socket_id.
Variable cid : nat.
Variable lib : nat -> library_answer.
Variable alloc : Z -> Z -> guac_common_display.

(** X18: when no connection attempt succeeds, the session thread makes
    exactly [retries] sleeps of [GUAC_VNC_CONNECT_INTERVAL] milliseconds
    (none when [retries] is zero or negative), then aborts with
    UPSTREAM_NOT_FOUND as its last call and returns: it stores no upstream
    handle, allocates no display, enters no frame and never stops the
    client. *)
Theorem connect_gives_up_after_retries (now : Z) (frames : list frame_env)
    (st : guac_vnc_settings) (s : guac_vnc_client) :
  settings s = Some st ->
  (forall k c, init_answer (lib k) c = false) ->
  exists s' pre,
    guac_vnc_client_thread interval start_timeout duration timeout repeater
      listening sock cid lib alloc now frames s
    = Finished tt s'
        (pre ++ [Abort GUAC_PROTOCOL_STATUS_UPSTREAM_NOT_FOUND
                       "Unable to connect to VNC server."])
    /\ rfb_client s' = rfb_client s /\ display s' = display s
    /\ settings s' = Some st
    /\ Forall connecting_call pre
    /\ sleeps pre = repeat (Msleep interval) (Z.to_nat (retries st)).
Proof.
  intros Hst Hfail.
  unfold guac_vnc_client_thread, tbind, tget, tlift.
  rewrite Hst. cbn [deref].
  destruct (set_clipboard_encoding_run (clipboard_encoding st) s)
    as (r & rd & wr & tr0 & Henc & Hconn0).
  unfold core at 1. rewrite Henc.
  set (s1 := with_clipboard_writer (Some wr) (with_clipboard_reader (Some rd) s)).
  assert (Hst1 : settings s1 = Some st) by exact Hst.
  assert (Hlog : exists ltr,
             (if negb (r =? 0)
              then tcall (Core (LogInfo
                     "Using non-standard VNC clipboard encoding: '%s'."))
              else tret tt) s1 = Finished tt s1 ltr
             /\ Forall connecting_call ltr /\ sleeps ltr = []).
  { destruct (negb (r =? 0)); eexists; (split; [reflexivity |]);
      split; try reflexivity; repeat (constructor; cbn [connecting_call]). }
  destruct Hlog as (ltr & -> & Hconnl & Hsll).
  destruct (connect_with_retries_all_fail interval repeater listening cid lib
              st (retries st) s1 Hst1 Hfail)
    as (s3 & tr1 & -> & Hsame & Hconn1 & Hsl1).
  unfold tcall.
  exists s3, (map Core tr0 ++ ltr ++ tr1).
  destruct Hsame as (E1 & E2 & E3 & _).
  split; [| split; [| split; [| split; [| split]]]].
  - cbn [app]. rewrite <- !app_assoc. reflexivity.
  - rewrite E2. reflexivity.
  - rewrite E3. reflexivity.
  - rewrite E1. exact Hst.
  - repeat (apply Forall_app; split); assumption.
  - rewrite !sleeps_app, sleeps_core, Hsll, Hsl1. reflexivity.
Qed.



End ThreadFacts.

Lemma connect_gives_up_after_retries_witness :
  exists s' pre,
    guac_vnc_client_thread 5000 1000000 40 0 false false 5%nat 0%nat
      refusing_library (fun _ _ => plain_display) 0 [] joined_session
    = Finished tt s'
        (pre ++ [Abort GUAC_PROTOCOL_STATUS_UPSTREAM_NOT_FOUND
                       "Unable to connect to VNC server."])
    /\ rfb_client s' = rfb_client joined_session
    /\ display s' = display joined_session
    /\ settings s' = Some patient_settings
    /\ Forall connecting_call pre
    /\ sleeps pre = repeat (Msleep 5000) (Z.to_nat (retries patient_settings)).
Proof.
  apply (connect_gives_up_after_retries 5000 1000000 40 0 false false 5%nat
           0%nat refusing_library (fun _ _ => plain_display) 0 []
           patient_settings joined_session).
  - reflexivity.
  - intros k c. reflexivity.
Defined.


Example thread_trace_when_second_attempt_succeeds :
  guac_vnc_client_thread 5000 1000000 40 0 false false 5%nat 0%nat
    late_library (fun _ _ => plain_display) 0 [mkFrame 0 0 0 1000 []]
    joined_session
  = Finished tt
      (with_display (Some plain_display)
         (with_rfb_client
            (Some (set_serverPort 5900
                     (set_serverHost (Some "localhost"%string)
                        (set_canHandleNewFBSize 1
                           (set_MallocFrameBuffer
                              (Some guac_vnc_malloc_framebuffer_proc)
                              (configure_callbacks patient_settings 0%nat
                                 (two_pixel_client blank_client)))))))
            (with_rfb_MallocFrameBuffer None
               (with_clipboard_writer (Some GUAC_WRITE_UTF8)
                  (with_clipboard_reader (Some GUAC_READ_UTF8)
                                         joined_session)))))
      [Core (LogInfo "Using non-standard VNC clipboard encoding: '%s'.");
       Core (LogInfo "Connect failed. Waiting %ims before retrying...");
       Msleep 5000;
       DisplayAlloc 2 1;
       CursorSetPointer;
       Core (SocketFlush 5%nat);
       Core (WaitForMessage 1000000);
       SurfaceFlush 0%nat; EndFrame; Core (SocketFlush 5%nat);
       ClientStop;
       Core (LogInfo "Internal VNC client disconnected")].
Proof. vm_compute. reflexivity. Qed.

(** *** The allocator hook *)

Section HookFacts.

Variable run_proc : callback -> rfbClient -> Z.
Variable fresh : rfbClient.
Variable listen : rfbClient -> Z -> Z.
Variable init : rfbClient -> bool.
Variables repeater listening : bool.

(** X20: the hook delegates to what it replaced. After
    [guac_vnc_get_client] has run on a handle whose allocator is [p],
    whether or not it connected, a call of [guac_vnc_malloc_framebuffer]
    calls [p] and returns what [p] returns, for whatever handle it is
    given; when the display exists it first resizes the default surface to
    that handle's width and height, and when the display pointer is still
    null it only delegates. The session data is not changed. *)
Theorem allocator_hook_delegates (client_id : nat) (st : guac_vnc_settings)
    (s : guac_vnc_client) (p : callback) (resized : rfbClient) :
  MallocFrameBuffer fresh = Some p ->
  match guac_vnc_get_client fresh listen init repeater listening client_id
                            (with_settings (Some st) s) with
  | Done _ s' _ =>
      guac_vnc_malloc_framebuffer run_proc resized s'
      = Finished (run_proc p resized) s'
          (match display s with
           | Some d => [SurfaceResize (default_surface d) (width resized)
                                      (height resized)]
           | None => []
           end ++ [CallProc p])
  | Crash => False
  end.
Proof.
  intros Hp.
  destruct (get_client_outcome fresh listen init repeater listening client_id
              st (with_settings (Some st) s) eq_refl)
    as (res & tr & -> & _).
  unfold guac_vnc_malloc_framebuffer, tbind, tget, tcall, tlift, tret.
  cbn [display with_rfb_MallocFrameBuffer with_settings rfb_MallocFrameBuffer].
  rewrite Hp. destruct (display s); reflexivity.
Qed.

End HookFacts.

Lemma allocator_hook_delegates_witness :
  match guac_vnc_get_client
          (set_MallocFrameBuffer (Some (LibraryProc "MallocFrameBuffer"))
                                 blank_client)
          (fun _ _ => 0) (fun _ => true) false false 0%nat
          (with_settings (Some plain_settings) joined_session) with
  | Done _ s' _ =>
      guac_vnc_malloc_framebuffer (fun _ _ => 1)
        (two_pixel_client blank_client) s'
      = Finished ((fun _ _ => 1) (LibraryProc "MallocFrameBuffer")
                    (two_pixel_client blank_client)) s'
          (match display joined_session with
           | Some d => [SurfaceResize (default_surface d)
                          (width (two_pixel_client blank_client))
                          (height (two_pixel_client blank_client))]
           | None => []
           end ++ [CallProc (LibraryProc "MallocFrameBuffer")])
  | Crash => False
  end.
Proof.
  apply (allocator_hook_delegates (fun _ _ => 1)
           (set_MallocFrameBuffer (Some (LibraryProc "MallocFrameBuffer"))
                                  blank_client)
           (fun _ _ => 0) (fun _ => true) false false 0%nat plain_settings
           joined_session (LibraryProc "MallocFrameBuffer")
           (two_pixel_client blank_client)).
  reflexivity.
Defined.

(** *** Viewers leaving *)

Section LeaveFacts.

Variable parse : guac_user -> list string -> option guac_vnc_settings.
Variable thread_create : guac_vnc_client -> Z.

(** X21: a viewer that joined and then leaves. The leave handler returns
    0 and leaves the session data alone; it removes the viewer from the
    shared cursor only when the display exists (a null display is skipped,
    not dereferenced); and it frees the settings that the join stored in
    the viewer exactly when the viewer is not the owner, so the settings
    that an owner's join stored in the session are never freed by a
    leave. *)
Theorem leave_frees_guest_settings_only (user : guac_user)
    (argv : list string) (st : guac_vnc_settings) (s : guac_vnc_client) :
  parse user argv = Some st ->
  exists r user' s' tr,
    guac_vnc_user_join_handler parse thread_create user argv s
    = Done (r, user') s' tr
    /\ data user' = Some st
    /\ (owner user = true -> settings s' = Some st)
    /\ guac_vnc_user_leave_handler user' s'
       = Finished 0 s'
           (match display s' with
            | Some _ => [CursorRemoveUser (user_ident user)]
            | None => []
            end
            ++ (if owner user then []
                else [SettingsFree (user_ident user)])).
Proof.
  intros Hparse.
  unfold guac_vnc_user_join_handler, bind, get, emit, modify, ret.
  rewrite Hparse. cbn [owner with_data].
  destruct (owner user) eqn:Hown.
  - destruct (Z.eqb_spec (thread_create s) 0) as [E | N]; cbn [negb];
      destruct (read_only st); cbn;
      eexists _, _, _, _; (split; [reflexivity |]);
      (split; [reflexivity |]); (split; [reflexivity |]);
      unfold guac_vnc_user_leave_handler, tbind, tget, tcall, tret;
      cbn; rewrite ?Hown; destruct (display s); reflexivity.
  - destruct (display s) eqn:Hd; destruct (read_only st); cbn;
      eexists _, _, _, _; (split; [reflexivity |]);
      (split; [reflexivity |]); (split; [discriminate |]);
      unfold guac_vnc_user_leave_handler, tbind, tget, tcall, tret;
      cbn; rewrite ?Hown, ?Hd; reflexivity.
Qed.

End LeaveFacts.

Lemma leave_frees_guest_settings_only_witness :
  let user := mkUser 7%nat false 3%nat None None None None in
  exists r user' s' tr,
    guac_vnc_user_join_handler (fun _ _ => Some plain_settings) (fun _ => 0)
      user [] running_session
    = Done (r, user') s' tr
    /\ data user' = Some plain_settings
    /\ (owner user = true -> settings s' = Some plain_settings)
    /\ guac_vnc_user_leave_handler user' s'
       = Finished 0 s'
           (match display s' with
            | Some _ => [CursorRemoveUser (user_ident user)]
            | None => []
            end
            ++ (if owner user then []
                else [SettingsFree (user_ident user)])).
Proof.
  exact (leave_frees_guest_settings_only (fun _ _ => Some plain_settings)
           (fun _ => 0) (mkUser 7%nat false 3%nat None None None None) []
           plain_settings running_session eq_refl).
Defined.
